(** * terminal-pomodoro: the session engine, the floating display and the
      history store of [terminal_pomodoro.py], embedded in Rocq.

    Layout of the development
    - [PyFloat]   : Python's [float] (IEEE binary64) as the Standard Library's
                    [spec_float], for [int / int], [float * int] and [int(float)];
    - the engine  : [FloatingTimerWindow], its handlers, and the clock thread
                    [count] cut at its suspension points and run against a
                    schedule of clock steps and user gestures;
    - [PyDate]    : the part of Python's [datetime.date] the history views use;
    - the store   : [load_history], [save_session], [run_timer],
                    [run_stopwatch] and the four history views;
    - [Stored]    : the daily and the weekly loop on the records as they are
                    stored, their dates kept as text;
    - the console : [get_int_input], the menus, [show_summary_and_confirm]
                    and [start_session], run against the keys typed;
    - dragging    : the three handlers bound to the title of the window;
    - the theorems, one block per property of the specification, with the
      facts about dates and floats they rest on;
    - further properties of the code, beyond the specification: the engine,
      the display, the store, the console and the daily and weekly views. *)

From Stdlib Require Import ZArith List String Ascii Bool Lia.
From Stdlib Require Import SpecFloat DecimalString.
From Stdlib Require Import Permutation DecimalZ.
Import ListNotations.

Local Open Scope string_scope.
Local Open Scope Z_scope.

(* ================================================================== *)
(** ** Python floats *)
(* ================================================================== *)

Module PyFloat.

(** CPython's [float] is the IEEE 754 binary64 format. *)
Definition prec : Z := 53.
Definition emax : Z := 1024.

(** An integer as an (unrounded) binary number [n * 2^0]. *)
Definition of_int (n : Z) : spec_float :=
  match n with
  | Z0 => S754_zero false
  | Zpos p => S754_finite false p 0
  | Zneg p => S754_finite true p 0
  end.

(** [a / b] on two Python ints: the correctly rounded quotient
    ([long_true_divide]); [None] stands for the exception it raises
    ([ZeroDivisionError], or [OverflowError] when the quotient does not
    fit a float). *)
Definition truediv (a b : Z) : option spec_float :=
  if b =? 0 then None
  else match SFdiv prec emax (of_int a) (of_int b) with
       | S754_infinity _ | S754_nan => None
       | q => Some q
       end.

(** [x * n] for a float [x] and a small int [n] (exactly representable). *)
Definition mul_int (x : spec_float) (n : Z) : spec_float :=
  SFmul prec emax x (of_int n).

(** [int(x)]: truncation toward zero; [None] for infinities and NaN. *)
Definition to_int (x : spec_float) : option Z :=
  match x with
  | S754_zero _ => Some 0
  | S754_finite s m e =>
      let a := match e with
               | Zneg k => Z.shiftr (Zpos m) (Zpos k)
               | _ => Z.shiftl (Zpos m) e
               end in
      Some (if s then - a else a)
  | S754_infinity _ | S754_nan => None
  end.

End PyFloat.

(* ================================================================== *)
(** ** Strings the display shows *)
(* ================================================================== *)

(** Python's [s * n] on strings: the empty string when [n <= 0]. *)
Fixpoint repeat_string (s : string) (n : nat) : string :=
  match n with
  | O => ""
  | S k => s ++ repeat_string s k
  end.

Definition str_mul (s : string) (n : Z) : string := repeat_string s (Z.to_nat n).

(** [f"{n:02d}"] for a non-negative [n]. *)
Definition fmt_02d (n : Z) : string :=
  let s := NilZero.string_of_uint (N.to_uint (Z.to_N n)) in
  if (Nat.ltb (String.length s) 2) then "0" ++ s else s.

Definition format_time (seconds : Z) : string :=
  let hours := seconds / 3600 in
  let minutes := (seconds mod 3600) / 60 in
  let secs := seconds mod 60 in
  fmt_02d hours ++ ":" ++ fmt_02d minutes ++ ":" ++ fmt_02d secs.

(** The two glyphs of the progress bar. *)
Definition filled_glyph : string := "#".
Definition empty_glyph : string := "·".

(** Number of filled segments of a rendered bar. *)
Fixpoint count_filled (bars : string) : nat :=
  match bars with
  | EmptyString => O
  | String c rest =>
      if Ascii.eqb c "#"%char then S (count_filled rest) else count_filled rest
  end.

(* ================================================================== *)
(** ** The floating window: state and handlers *)
(* ================================================================== *)

(** The fields of [FloatingTimerWindow] the engine reads and writes. *)
Record FloatingTimerWindow := mkWindow {
  is_timer : bool;
  total_seconds : Z;
  elapsed_seconds : Z;
  running : bool;
  paused : bool;
  cancelled : bool;
  saved_minutes : option Z
}.

(** [FloatingTimerWindow.__init__(is_timer, total_minutes)]. *)
Definition new_window (timer : bool) (total_minutes : Z) : FloatingTimerWindow :=
  {| is_timer := timer;
     total_seconds := if timer then total_minutes * 60 else 0;
     elapsed_seconds := 0;
     running := true;
     paused := false;
     cancelled := false;
     saved_minutes := None |}.

(** What the user can observe: the label updates [update_display] schedules
    with [root.after], the labels [finish_timer] sets itself, the bell, the
    modal box, the window going away, and an exception ending the clock
    thread. *)
Inductive Effect :=
| AfterProgressLabel (bars : string)
| AfterTimeLabel (time_str : string)
| SetProgressLabel (bars : string)
| SetTimeLabel (time_str : string)
| Bell
| ShowInfo
| DestroyRoot
| ThreadRaised.

(** [progress = min(int((elapsed_seconds / total_seconds) * 10), 10)];
    [None] when the division raises. *)
Definition progress (w : FloatingTimerWindow) : option Z :=
  match PyFloat.truediv (elapsed_seconds w) (total_seconds w) with
  | None => None
  | Some q =>
      match PyFloat.to_int (PyFloat.mul_int q 10) with
      | None => None
      | Some p => Some (Z.min p 10)
      end
  end.

Definition render_bars (p : Z) : string :=
  str_mul filled_glyph p ++ str_mul empty_glyph (10 - p).

(** [update_display(seconds)]: the label updates it schedules, or [None]
    when computing the progress raises. *)
Definition update_display (root_exists : bool) (w : FloatingTimerWindow)
    (seconds : Z) : option (list Effect) :=
  if negb root_exists then Some []
  else
    let time_str := format_time (Z.abs seconds) in
    if is_timer w then
      match progress w with
      | None => None
      | Some p => Some [AfterProgressLabel (render_bars p); AfterTimeLabel time_str]
      end
    else Some [AfterTimeLabel time_str].

(** [toggle_pause]: the flag. The text and the colour of the button, and
    the pulse that [pulse_button] schedules with [root.after], are display
    only and are left out. *)
Definition toggle_pause (w : FloatingTimerWindow) : FloatingTimerWindow :=
  {| is_timer := is_timer w;
     total_seconds := total_seconds w;
     elapsed_seconds := elapsed_seconds w;
     running := running w;
     paused := negb (paused w);
     cancelled := cancelled w;
     saved_minutes := saved_minutes w |}.

(** The minutes [finalize_action] computes. *)
Definition finalize_minutes (w : FloatingTimerWindow) : Z :=
  let minutes := elapsed_seconds w / 60 in
  if is_timer w then Z.min minutes (total_seconds w / 60) else minutes.

(** [finalize_action], up to the destruction of the window. *)
Definition finalize_action (w : FloatingTimerWindow) : FloatingTimerWindow :=
  {| is_timer := is_timer w;
     total_seconds := total_seconds w;
     elapsed_seconds := elapsed_seconds w;
     running := false;
     paused := paused w;
     cancelled := false;
     saved_minutes := Some (finalize_minutes w) |}.

(** [on_closing], up to the destruction of the window. *)
Definition on_closing (w : FloatingTimerWindow) : FloatingTimerWindow :=
  {| is_timer := is_timer w;
     total_seconds := total_seconds w;
     elapsed_seconds := elapsed_seconds w;
     running := false;
     paused := paused w;
     cancelled := true;
     saved_minutes := saved_minutes w |}.

(** The state change of [finish_timer]: the clock stops. *)
Definition stop_running (w : FloatingTimerWindow) : FloatingTimerWindow :=
  {| is_timer := is_timer w;
     total_seconds := total_seconds w;
     elapsed_seconds := elapsed_seconds w;
     running := false;
     paused := paused w;
     cancelled := cancelled w;
     saved_minutes := saved_minutes w |}.

(** [self.elapsed_seconds += 1]. *)
Definition advance (w : FloatingTimerWindow) : FloatingTimerWindow :=
  {| is_timer := is_timer w;
     total_seconds := total_seconds w;
     elapsed_seconds := elapsed_seconds w + 1;
     running := running w;
     paused := paused w;
     cancelled := cancelled w;
     saved_minutes := saved_minutes w |}.

Definition get_elapsed_minutes (w : FloatingTimerWindow) : Z := elapsed_seconds w / 60.
Definition was_cancelled (w : FloatingTimerWindow) : bool := cancelled w.

(* ================================================================== *)
(** ** The clock thread and the event loop *)
(* ================================================================== *)

(** Where the clock thread [count] stands. The thread reads [running] and
    [paused] at the top of its loop, then sleeps; the increment of
    [elapsed_seconds] comes after the one-second sleep. The user's handlers
    run on the UI thread and can fall at any of these points. *)
Inductive ClockPc :=
| AtLoopTop        (* about to test [self.running] *)
| InSleepRunning   (* in [time.sleep(1)], the increment still to come *)
| InSleepPaused    (* in [time.sleep(0.2)] of the paused branch *)
| InShowInfo       (* [finish_timer] blocked in the modal box *)
| ThreadDone.      (* left the loop, or died on an exception *)

Record Machine := mkMachine {
  window : FloatingTimerWindow;
  clock : ClockPc;
  root_exists : bool;          (* [self.root.winfo_exists()] *)
  trace : list Effect          (* effects so far, oldest first *)
}.

Definition set_window (m : Machine) (w : FloatingTimerWindow) : Machine :=
  {| window := w; clock := clock m; root_exists := root_exists m; trace := trace m |}.

Definition set_clock (m : Machine) (pc : ClockPc) : Machine :=
  {| window := window m; clock := pc; root_exists := root_exists m; trace := trace m |}.

Definition emit (m : Machine) (effs : list Effect) : Machine :=
  {| window := window m; clock := clock m; root_exists := root_exists m;
     trace := (trace m ++ effs)%list |}.

(** [destroy_window]: nothing when the window is already gone. *)
Definition destroy_window (m : Machine) : Machine :=
  if root_exists m then
    {| window := window m; clock := clock m; root_exists := false;
       trace := (trace m ++ [DestroyRoot])%list |}
  else m.

(** The machine right after the constructor: the thread is started, the
    event loop not yet entered. *)
Definition start (timer : bool) (total_minutes : Z) : Machine :=
  {| window := new_window timer total_minutes;
     clock := AtLoopTop;
     root_exists := true;
     trace := [] |}.

(** A call of [update_display] from the clock thread, then the sleep [next];
    an exception ends the thread. *)
Definition display_then (m : Machine) (seconds : Z) (next : ClockPc) : Machine :=
  match update_display (root_exists m) (window m) seconds with
  | Some effs => set_clock (emit m effs) next
  | None => set_clock (emit m [ThreadRaised]) ThreadDone
  end.

(** [finish_timer] up to the modal box, where it blocks. *)
Definition finish_timer (m : Machine) : Machine :=
  let m1 := set_window m (stop_running (window m)) in
  let final :=
    if root_exists m1 then
      ((if is_timer (window m1) then [SetProgressLabel "##########"] else [])
         ++ [SetTimeLabel "00:00:00"; Bell])%list
    else [] in
  set_clock (emit m1 (final ++ [ShowInfo])%list) InShowInfo.

(** One step of the thread running [count]: from the top of the loop to
    the sleep of the branch taken (or to [finish_timer], or out of the loop),
    and from a sleep back to the top. *)
Definition count_step (m : Machine) : Machine :=
  let w := window m in
  match clock m with
  | AtLoopTop =>
      if negb (running w) then set_clock m ThreadDone
      else if negb (paused w) then
        if is_timer w then
          let remaining := total_seconds w - elapsed_seconds w in
          if remaining <=? 0 then finish_timer m
          else display_then m remaining InSleepRunning
        else display_then m (elapsed_seconds w) InSleepRunning
      else
        if is_timer w then
          display_then m (total_seconds w - elapsed_seconds w) InSleepPaused
        else display_then m (elapsed_seconds w) InSleepPaused
  | InSleepRunning => set_clock (set_window m (advance w)) AtLoopTop
  | InSleepPaused => set_clock m AtLoopTop
  | InShowInfo => m
  | ThreadDone => m
  end.

(** What can happen to a session. *)
Inductive Event :=
| ClockStep      (* the clock thread runs to its next suspension point *)
| PressPause     (* the pause/resume button: [toggle_pause] *)
| PressFinalize  (* the finish button: [finalize_action] *)
| CloseWindow    (* the window's close request: [on_closing] *)
| Acknowledge.   (* OK on the modal box of [finish_timer] *)

(** The handlers exist while the window does. *)
Definition step (m : Machine) (ev : Event) : Machine :=
  match ev with
  | ClockStep => count_step m
  | PressPause =>
      if root_exists m then set_window m (toggle_pause (window m)) else m
  | PressFinalize =>
      if root_exists m then destroy_window (set_window m (finalize_action (window m)))
      else m
  | CloseWindow =>
      if root_exists m then destroy_window (set_window m (on_closing (window m)))
      else m
  | Acknowledge =>
      match clock m with
      | InShowInfo => set_clock (destroy_window m) ThreadDone
      | _ => m
      end
  end.

Definition run (m : Machine) (events : list Event) : Machine :=
  fold_left step events m.

(** One turn of the loop of [count] with nothing in between: from the top of
    the loop through the sleep back to the top. *)
Definition tick (m : Machine) : Machine := count_step (count_step m).

Fixpoint ticks (n : nat) : list Event :=
  match n with
  | O => []
  | S k => ClockStep :: ClockStep :: ticks k
  end.

(** The states of the engine, read off the window the way [run_timer] and
    [run_stopwatch] read it once the event loop has returned. *)
Inductive EngineState :=
| Running
| Paused
| FinishedNatural
| FinishedUserConfirmed
| Cancelled.

Definition engine_state (w : FloatingTimerWindow) : EngineState :=
  if running w then (if paused w then Paused else Running)
  else if cancelled w then Cancelled
  else match saved_minutes w with
       | Some _ => FinishedUserConfirmed
       | None => FinishedNatural
       end.

(** The effects behind which stands the division by [total_seconds] of
    [update_display]: the progress label it schedules, or the exception. *)
Definition divides (e : Effect) : bool :=
  match e with
  | AfterProgressLabel _ | ThreadRaised => true
  | _ => false
  end.

(** The clock thread sleeping in the running branch: its increment of
    [elapsed_seconds] is still to come. *)
Definition in_flight (pc : ClockPc) : bool :=
  match pc with
  | InSleepRunning => true
  | _ => false
  end.

(* ================================================================== *)
(** ** Python dates *)
(* ================================================================== *)

Module PyDate.

(** A [datetime.date]: proleptic Gregorian year, month and day. *)
Record date := mkDate { year : Z; month : Z; day : Z }.

Definition eqb (a b : date) : bool :=
  (year a =? year b) && (month a =? month b) && (day a =? day b).

Definition is_leap (y : Z) : bool :=
  (y mod 4 =? 0) && (negb (y mod 100 =? 0) || (y mod 400 =? 0)).

Definition days_before_year (y : Z) : Z :=
  let p := y - 1 in p * 365 + p / 4 - p / 100 + p / 400.

(** [_DAYS_IN_MONTH] and [_DAYS_BEFORE_MONTH], indexed from 1. *)
Definition DAYS_IN_MONTH (m : Z) : Z :=
  nth (Z.to_nat m) [-1; 31; 28; 31; 30; 31; 30; 31; 31; 30; 31; 30; 31] (-1).

Definition DAYS_BEFORE_MONTH (m : Z) : Z :=
  nth (Z.to_nat m) [-1; 0; 31; 59; 90; 120; 151; 181; 212; 243; 273; 304; 334] (-1).

Definition days_in_month (y m : Z) : Z :=
  if (m =? 2) && is_leap y then 29 else DAYS_IN_MONTH m.

Definition days_before_month (y m : Z) : Z :=
  DAYS_BEFORE_MONTH m + (if (2 <? m) && is_leap y then 1 else 0).

(** [date.toordinal()]: 1 for 0001-01-01. *)
Definition toordinal (d : date) : Z :=
  days_before_year (year d) + days_before_month (year d) (month d) + day d.

Definition DI400Y : Z := 146097.
Definition DI100Y : Z := 36524.
Definition DI4Y : Z := 1461.
Definition MAXORDINAL : Z := 3652059.

(** [date.fromordinal(n)], after [_ord2ymd]. *)
Definition fromordinal (n : Z) : date :=
  let n := n - 1 in
  let n400 := n / DI400Y in
  let n := n mod DI400Y in
  let y := n400 * 400 + 1 in
  let n100 := n / DI100Y in
  let n := n mod DI100Y in
  let n4 := n / DI4Y in
  let n := n mod DI4Y in
  let n1 := n / 365 in
  let n := n mod 365 in
  let y := y + n100 * 100 + n4 * 4 + n1 in
  if (n1 =? 4) || (n100 =? 4) then mkDate (y - 1) 12 31
  else
    let leapyear := (n1 =? 3) && (negb (n4 =? 24) || (n100 =? 3)) in
    let m := Z.shiftr (n + 50) 5 in
    let preceding := DAYS_BEFORE_MONTH m + (if (2 <? m) && leapyear then 1 else 0) in
    if n <? preceding then
      let m := m - 1 in
      let preceding :=
        preceding - (DAYS_IN_MONTH m + (if (m =? 2) && leapyear then 1 else 0)) in
      mkDate y m (n - preceding + 1)
    else mkDate y m (n - preceding + 1).

(** [d - timedelta(days=k)]; [None] is the [OverflowError] of a result
    outside [date.min .. date.max]. *)
Definition sub_days (d : date) (k : Z) : option date :=
  let o := toordinal d - k in
  if (0 <? o) && (o <=? MAXORDINAL) then Some (fromordinal o) else None.

Definition add_days (d : date) (k : Z) : option date := sub_days d (- k).

(** [d.replace(day=1)]. *)
Definition first_of_month (d : date) : date := mkDate (year d) (month d) 1.

(** [d.weekday()]: Monday is 0. *)
Definition weekday (d : date) : Z := (toordinal d + 6) mod 7.

(** [a <= b] on dates: the order of the triples (year, month, day). *)
Definition leb (a b : date) : bool :=
  (year a <? year b)
  || ((year a =? year b)
      && ((month a <? month b) || ((month a =? month b) && (day a <=? day b)))).

End PyDate.

(* ================================================================== *)
(** ** The history store *)
(* ================================================================== *)

(** A record of [pomodoro_history.json]. The [date] field, written by
    [strftime("%Y-%m-%d")] and read back by [strptime], is kept as the date
    it denotes. *)
Record Session := mkSession {
  date : PyDate.date;
  datetime_start : string;
  objective : string;
  type : string;
  minutes : Z
}.

(** [datetime.now()], as far as [save_session] uses it. *)
Record Now := mkNow { today : PyDate.date; stamp : string }.

(** What opening and decoding the history file can come to. *)
Inductive Decoded :=
| Parsed (history : list Session)
| JSONDecodeError
| OtherException (msg : string).

Section Store.

(** [json.load] on the text of the file (a library function). *)
Variable json_load : string -> Decoded.

(** [load_history()]: the history and the lines it prints. The argument is
    the content of [HISTORY_FILE], [None] when the file does not exist. *)
Definition load_history (file : option string) : list Session * list string :=
  match file with
  | None => ([], [])
  | Some text =>
      match json_load text with
      | Parsed history => (history, [])
      | JSONDecodeError =>
          ([], ["Aviso: Arquivo de histórico corrompido. Criando novo..."])
      | OtherException e => ([], ["Erro ao carregar histórico: " ++ e])
      end
  end.

(** [save_session]: the list handed to [json.dump]. *)
Definition save_session (file : option string) (now : Now)
    (obj session_type : string) (mins : Z) : list Session :=
  let history := fst (load_history file) in
  let session :=
    {| date := today now; datetime_start := stamp now; objective := obj;
       type := session_type; minutes := mins |} in
  (history ++ [session])%list.

(** What a session leaves behind once its function returns. *)
Inductive Outcome :=
| WindowOpen                     (* [window.run()] has not returned *)
| NotSaved                       (* returned without [save_session] *)
| Saved (written : list Session).

(** [run_timer(objective, minutes)] against a schedule of events. *)
Definition run_timer (file : option string) (now : Now) (obj : string)
    (mins : Z) (events : list Event) : Outcome :=
  let m := run (start true mins) events in
  if root_exists m then WindowOpen
  else if negb (was_cancelled (window m)) then
    let recorded :=
      match saved_minutes (window m) with
      | Some saved => saved
      | None => mins
      end in
    Saved (save_session file now obj "timer" recorded)
  else NotSaved.

(** [run_stopwatch(objective)] against a schedule of events. *)
Definition run_stopwatch (file : option string) (now : Now) (obj : string)
    (events : list Event) : Outcome :=
  let m := run (start false 0) events in
  if root_exists m then WindowOpen
  else match saved_minutes (window m) with
       | Some saved => Saved (save_session file now obj "cronometro" saved)
       | None => NotSaved
       end.

End Store.

(* ================================================================== *)
(** ** The history views *)
(* ================================================================== *)

(** What a view prints for one bucket, or when it found nothing. The formatted
    text ([format_history_line]) is kept as the values it is made from. *)
Inductive Label :=
| DayLabel (d : PyDate.date)
| WeekLabel (week_start week_end : PyDate.date)
| MonthLabel (y m : Z).

Inductive Line :=
| Row (label : Label) (total : Z)
| NoData.

(** [range(hi, -1, -1)]. *)
Definition range_down (hi : nat) : list Z := map Z.of_nat (rev (seq 0 (S hi))).

(** [aggregate_by_date(history, date_str)], on records whose [date] is the
    date their text denotes: comparing the texts is comparing the dates as
    long as the texts are those [strftime] writes. [Stored.aggregate_by_date]
    below compares the texts themselves. *)
Fixpoint aggregate_by_date (history : list Session) (d : PyDate.date) : Z :=
  match history with
  | [] => 0
  | session :: rest =>
      (if PyDate.eqb (date session) d then minutes session else 0)
      + aggregate_by_date rest d
  end.

(** The inner loop of [show_weekly_history]. *)
Fixpoint aggregate_by_week (history : list Session) (week_start week_end : PyDate.date) : Z :=
  match history with
  | [] => 0
  | session :: rest =>
      (if PyDate.leb week_start (date session) && PyDate.leb (date session) week_end
       then minutes session else 0)
      + aggregate_by_week rest week_start week_end
  end.

(** The inner loop of [show_monthly_history]. *)
Fixpoint aggregate_by_month (history : list Session) (y m : Z) : Z :=
  match history with
  | [] => 0
  | session :: rest =>
      (if (PyDate.year (date session) =? y) && (PyDate.month (date session) =? m)
       then minutes session else 0)
      + aggregate_by_month rest y m
  end.

(** A printed row when the total is positive. *)
Definition row_if_positive (label : Label) (total : Z) (rows : list Line) : list Line :=
  if 0 <? total then Row label total :: rows else rows.

(** The message of a view that printed no row. *)
Definition or_no_data (rows : list Line) : list Line :=
  match rows with
  | [] => [NoData]
  | _ => rows
  end.

(** The loop of [show_daily_history] over the offsets [offsets];
    [None] when the date arithmetic raises. *)
Fixpoint daily_rows (history : list Session) (today : PyDate.date)
    (offsets : list Z) : option (list Line) :=
  match offsets with
  | [] => Some []
  | i :: rest =>
      match PyDate.sub_days today i with
      | None => None
      | Some d =>
          match daily_rows history today rest with
          | None => None
          | Some rows =>
              Some (row_if_positive (DayLabel d) (aggregate_by_date history d) rows)
          end
      end
  end.

(** The loop of [show_weekly_history]. *)
Fixpoint weekly_rows (history : list Session) (today : PyDate.date)
    (offsets : list Z) : option (list Line) :=
  match offsets with
  | [] => Some []
  | i :: rest =>
      match PyDate.sub_days today (7 * i + PyDate.weekday today) with
      | None => None
      | Some week_start =>
          match PyDate.add_days week_start 6 with
          | None => None
          | Some week_end =>
              match weekly_rows history today rest with
              | None => None
              | Some rows =>
                  Some (row_if_positive (WeekLabel week_start week_end)
                          (aggregate_by_week history week_start week_end) rows)
              end
          end
      end
  end.

(** The month [show_monthly_history] looks at for the offset [i]:
    [today.replace(day=1) - timedelta(days=i * 30)]. *)
Definition month_date (today : PyDate.date) (i : Z) : option PyDate.date :=
  PyDate.sub_days (PyDate.first_of_month today) (i * 30).

(** The loop of [show_monthly_history]. *)
Fixpoint monthly_rows (history : list Session) (today : PyDate.date)
    (offsets : list Z) : option (list Line) :=
  match offsets with
  | [] => Some []
  | i :: rest =>
      match month_date today i with
      | None => None
      | Some md =>
          let y := PyDate.year md in
          let m := PyDate.month md in
          match monthly_rows history today rest with
          | None => None
          | Some rows =>
              Some (row_if_positive (MonthLabel y m) (aggregate_by_month history y m) rows)
          end
      end
  end.

(** The (year, month) buckets of the monthly view, oldest first. *)
Fixpoint month_buckets (today : PyDate.date) (offsets : list Z) : option (list (Z * Z)) :=
  match offsets with
  | [] => Some []
  | i :: rest =>
      match month_date today i, month_buckets today rest with
      | Some md, Some bs => Some ((PyDate.year md, PyDate.month md) :: bs)
      | _, _ => None
      end
  end.

Section Views.

Variable json_load : string -> Decoded.

(** Each view: the lines [load_history] prints, then the rows of the view,
    [None] when the view raises. *)
Definition show_daily_history (file : option string) (today : PyDate.date)
    : list string * option (list Line) :=
  let '(history, warnings) := load_history json_load file in
  (warnings, option_map or_no_data (daily_rows history today (range_down 29))).

Definition show_weekly_history (file : option string) (today : PyDate.date)
    : list string * option (list Line) :=
  let '(history, warnings) := load_history json_load file in
  (warnings, option_map or_no_data (weekly_rows history today (range_down 29))).

Definition show_monthly_history (file : option string) (today : PyDate.date)
    : list string * option (list Line) :=
  let '(history, warnings) := load_history json_load file in
  (warnings, option_map or_no_data (monthly_rows history today (range_down 11))).

(** [show_specific_date_history] once the date typed in has been parsed. *)
Definition show_specific_date_history (file : option string) (query : PyDate.date)
    : list string * option (list Line) :=
  let '(history, warnings) := load_history json_load file in
  (warnings,
   Some (or_no_data (row_if_positive (DayLabel query) (aggregate_by_date history query) []))).

End Views.

(* ================================================================== *)
(** ** The views on the records as they are stored *)
(* ================================================================== *)

(** In [Session] the [date] of a record is the date its text denotes, which
    is all the range tests of the weekly and the monthly view look at. The
    daily view and the view of one date do not parse it: [aggregate_by_date]
    compares the text itself with the text [strftime] makes of a date. The
    two agree on the texts [strftime] wrote; to say so, this module keeps the
    text. *)
Module Stored.

(** A record of the history file, its [date] as the text in the file. *)
Record Entry := mkEntry {
  date : string;
  datetime_start : string;
  objective : string;
  type : string;
  minutes : Z
}.

Section Texts.

(** [d.strftime("%Y-%m-%d")], and
    [datetime.strptime(s, "%Y-%m-%d").date()] with [None] for its
    [ValueError] (library functions). *)
Variable strftime : PyDate.date -> string.
Variable strptime : string -> option PyDate.date.

(** [aggregate_by_date(history, date_str)]. *)
Fixpoint aggregate_by_date (history : list Entry) (date_str : string) : Z :=
  match history with
  | [] => 0
  | session :: rest =>
      (if String.eqb (date session) date_str then minutes session else 0)
      + aggregate_by_date rest date_str
  end.

(** The inner loop of [show_weekly_history]: every record's date is parsed;
    [None] when one of them is not a date. *)
Fixpoint aggregate_by_week (history : list Entry) (week_start week_end : PyDate.date)
    : option Z :=
  match history with
  | [] => Some 0
  | session :: rest =>
      match strptime (date session) with
      | None => None
      | Some session_date =>
          match aggregate_by_week rest week_start week_end with
          | None => None
          | Some total =>
              Some ((if PyDate.leb week_start session_date
                        && PyDate.leb session_date week_end
                     then minutes session else 0) + total)
          end
      end
  end.

(** The loop of [show_daily_history]. *)
Fixpoint daily_rows (history : list Entry) (today : PyDate.date)
    (offsets : list Z) : option (list Line) :=
  match offsets with
  | [] => Some []
  | i :: rest =>
      match PyDate.sub_days today i with
      | None => None
      | Some d =>
          let date_str := strftime d in
          match daily_rows history today rest with
          | None => None
          | Some rows =>
              Some (row_if_positive (DayLabel d) (aggregate_by_date history date_str) rows)
          end
      end
  end.

(** The day totals of [n] consecutive days, from the day of ordinal [o]. *)
Fixpoint day_totals (history : list Entry) (o : Z) (n : nat) : Z :=
  match n with
  | O => 0
  | S k =>
      aggregate_by_date history (strftime (PyDate.fromordinal o))
      + day_totals history (o + 1) k
  end.

End Texts.

End Stored.

(* ================================================================== *)
(** ** Dragging the window by its title *)
(* ================================================================== *)

(** The drag fields of [FloatingTimerWindow] together with the position of
    the window ([winfo_x], [winfo_y]); [self.root.geometry(f"+{x}+{y}")] is
    taken to put the window where it says. *)
Record DragState := mkDrag {
  dragging : bool;
  drag_start_x : Z;
  drag_start_y : Z;
  winfo_x : Z;
  winfo_y : Z
}.

(** A pointer event: [event.x_root] and [event.y_root]. *)
Record Pointer := mkPointer { x_root : Z; y_root : Z }.

(** [on_title_press]. *)
Definition on_title_press (d : DragState) (event : Pointer) : DragState :=
  {| dragging := true;
     drag_start_x := x_root event;
     drag_start_y := y_root event;
     winfo_x := winfo_x d;
     winfo_y := winfo_y d |}.

(** [on_title_drag]. *)
Definition on_title_drag (d : DragState) (event : Pointer) : DragState :=
  if dragging d then
    let delta_x := x_root event - drag_start_x d in
    let delta_y := y_root event - drag_start_y d in
    let x := winfo_x d + delta_x in
    let y := winfo_y d + delta_y in
    {| dragging := true;
       drag_start_x := x_root event;
       drag_start_y := y_root event;
       winfo_x := x;
       winfo_y := y |}
  else d.

(** [on_title_release]. *)
Definition on_title_release (d : DragState) (event : Pointer) : DragState :=
  {| dragging := false;
     drag_start_x := drag_start_x d;
     drag_start_y := drag_start_y d;
     winfo_x := winfo_x d;
     winfo_y := winfo_y d |}.

(** A run of motion events with the button held. *)
Definition drag_through (d : DragState) (path : list Pointer) : DragState :=
  fold_left on_title_drag path d.

(* ================================================================== *)
(** ** The console: prompts and menus *)
(* ================================================================== *)

(** What [input()] comes back with: a line, or [KeyboardInterrupt]. *)
Inductive Key :=
| Typed (line : string)
| CtrlC.

(** How a prompt ends: with an answer and the keys not yet read, with
    [sys.exit(0)], or still blocked in [input()] when the keys run out. *)
Inductive Asked (A : Type) :=
| Answered (a : A) (rest : list Key)
| Exited
| Blocked.

Arguments Answered {A} a rest.
Arguments Exited {A}.
Arguments Blocked {A}.

(** The complaints of [get_int_input], one per rejected line. *)
Inductive Complaint :=
| BelowMin (min_val : Z)
| AboveMax (max_val : Z)
| NotANumber.

(** [min_val is not None and value < min_val], and the same for [max_val]. *)
Definition below_min (min_val : option Z) (value : Z) : bool :=
  match min_val with
  | Some lo => value <? lo
  | None => false
  end.

Definition above_max (max_val : option Z) (value : Z) : bool :=
  match max_val with
  | Some hi => hi <? value
  | None => false
  end.

(** [time_map = {1: 15, 2: 30, 3: 45, 4: 60}]. *)
Definition time_map : list (Z * Z) := [(1, 15); (2, 30); (3, 45); (4, 60)].

Fixpoint dict_get (d : list (Z * Z)) (k : Z) : option Z :=
  match d with
  | [] => None
  | (k', v) :: rest => if k =? k' then Some v else dict_get rest k
  end.

(** [input("\nPressione ENTER para continuar...")]. *)
Definition press_enter (keys : list Key) : Asked unit :=
  match keys with
  | [] => Blocked
  | CtrlC :: _ => Exited
  | Typed _ :: rest => Answered tt rest
  end.

Section Console.

(** [int(s)] on a line of input, [None] for [ValueError]; and
    [s.strip().lower()] (library functions). *)
Variable int_of_string : string -> option Z.
Variable strip_lower : string -> string.

(** [get_int_input(prompt, min_val, max_val)]: the complaints printed and
    how the prompt ends. *)
Fixpoint get_int_input (min_val max_val : option Z) (keys : list Key)
    : list Complaint * Asked Z :=
  match keys with
  | [] => ([], Blocked)
  | CtrlC :: _ => ([], Exited)
  | Typed line :: rest =>
      match int_of_string line with
      | None =>
          let '(printed, r) := get_int_input min_val max_val rest in
          (NotANumber :: printed, r)
      | Some value =>
          if below_min min_val value then
            let '(printed, r) := get_int_input min_val max_val rest in
            (BelowMin (match min_val with Some lo => lo | None => 0 end) :: printed, r)
          else if above_max max_val value then
            let '(printed, r) := get_int_input min_val max_val rest in
            (AboveMax (match max_val with Some hi => hi | None => 0 end) :: printed, r)
          else ([], Answered value rest)
      end
  end.

(** [show_main_menu()]. *)
Definition show_main_menu (keys : list Key) : Asked Z :=
  snd (get_int_input (Some 0) (Some 4) keys).

(** [select_session_type()]. *)
Definition select_session_type (keys : list Key) : Asked string :=
  match snd (get_int_input (Some 1) (Some 2) keys) with
  | Answered choice rest =>
      Answered (if choice =? 2 then "cronometro" else "timer") rest
  | Exited => Exited
  | Blocked => Blocked
  end.

(** [select_time()]. *)
Definition select_time (keys : list Key) : Asked Z :=
  match snd (get_int_input (Some 1) (Some 5) keys) with
  | Answered choice rest =>
      match dict_get time_map choice with
      | Some preset => Answered preset rest
      | None => snd (get_int_input (Some 1) None rest)
      end
  | Exited => Exited
  | Blocked => Blocked
  end.

(** [show_summary_and_confirm]: the loop over the answers; a
    [KeyboardInterrupt] here is caught at the bottom of the program, which
    exits. *)
Fixpoint show_summary_and_confirm (keys : list Key) : Asked bool :=
  match keys with
  | [] => Blocked
  | CtrlC :: _ => Exited
  | Typed line :: rest =>
      let confirm := strip_lower line in
      if String.eqb confirm "s" || String.eqb confirm "n"
      then Answered (String.eqb confirm "s") rest
      else show_summary_and_confirm rest
  end.

Variable json_load : string -> Decoded.

(** What a session function leaves once the window has closed: what it
    wrote, then the prompt for ENTER. *)
Definition after_window (o : Outcome) (keys : list Key)
    : option (list Session) * Asked unit :=
  match o with
  | WindowOpen => (None, Blocked)
  | NotSaved => (None, press_enter keys)
  | Saved written => (Some written, press_enter keys)
  end.

(** [start_session(objective_name)]: the list it hands to [json.dump], if
    any, and how it ends. [events] is what happens to the window it opens. *)
Definition start_session (file : option string) (now : Now)
    (objective_name : string) (keys : list Key) (events : list Event)
    : option (list Session) * Asked unit :=
  match select_session_type keys with
  | Exited => (None, Exited)
  | Blocked => (None, Blocked)
  | Answered session_type keys1 =>
      let chosen :=
        if String.eqb session_type "timer"
        then match select_time keys1 with
             | Answered t keys2 => Answered (Some t) keys2
             | Exited => Exited
             | Blocked => Blocked
             end
        else Answered None keys1 in
      match chosen with
      | Exited => (None, Exited)
      | Blocked => (None, Blocked)
      | Answered mins keys2 =>
          match show_summary_and_confirm keys2 with
          | Exited => (None, Exited)
          | Blocked => (None, Blocked)
          | Answered false keys3 => (None, Answered tt keys3)
          | Answered true keys3 =>
              if String.eqb session_type "cronometro"
              then after_window (run_stopwatch json_load file now objective_name events) keys3
              else after_window
                     (run_timer json_load file now objective_name
                        (match mins with Some t => t | None => 0 end) events)
                     keys3
          end
      end
  end.

End Console.

(* ================================================================== *)
(** ** The history file across saves *)
(* ================================================================== *)

Section StoreFile.

Variable json_load : string -> Decoded.

(** [json.dump(history, f, indent=2, ensure_ascii=False)]: the text written
    (a library function). *)
Variable json_dump : list Session -> string.

(** What one call [save_session(objective, session_type, minutes)] needs. *)
Record Saving := mkSaving {
  at_time : Now;
  for_objective : string;
  of_type : string;
  with_minutes : Z
}.

Definition session_of (s : Saving) : Session :=
  {| date := today (at_time s); datetime_start := stamp (at_time s);
     objective := for_objective s; type := of_type s; minutes := with_minutes s |}.

(** The content of [HISTORY_FILE] after a [save_session] whose write
    succeeds. *)
Definition file_after_save (file : option string) (s : Saving) : option string :=
  Some (json_dump
          (save_session json_load file (at_time s) (for_objective s) (of_type s)
             (with_minutes s))).

(** Several saves in a row. *)
Definition file_after_saves (file : option string) (savings : list Saving)
    : option string :=
  fold_left file_after_save savings file.

End StoreFile.

(* ================================================================== *)
(** ** Auxiliary readings of strings and traces *)
(* ================================================================== *)

(** The value of a decimal digit character, and of two of them. *)
Definition digit_value (c : ascii) : Z := Z.of_nat (nat_of_ascii c) - 48.

Definition two_digits (s : string) : Z :=
  match s with
  | String a (String b _) => 10 * digit_value a + digit_value b
  | _ => 0
  end.

(** The seconds a label [HH:MM:SS] stands for. *)
Definition seconds_of_label (s : string) : Z :=
  3600 * two_digits (substring 0 2 s)
  + 60 * two_digits (substring 3 2 s)
  + two_digits (substring 6 2 s).

(** How often the window was destroyed. *)
Definition destroyed_times (t : list Effect) : nat :=
  List.length (filter (fun e => match e with DestroyRoot => true | _ => false end) t).

(** The clock steps of a schedule. *)
Definition clock_steps (events : list Event) : nat :=
  List.length (filter (fun e => match e with ClockStep => true | _ => false end) events).

(** The day the daily view looks at for the offset [i], and the Monday the
    weekly view starts a week on. *)
Definition day_back (today : PyDate.date) (i : Z) : PyDate.date :=
  PyDate.fromordinal (PyDate.toordinal today - i).

Definition week_start_of (today : PyDate.date) (i : Z) : PyDate.date :=
  PyDate.fromordinal (PyDate.toordinal today - (7 * i + PyDate.weekday today)).

(* ================================================================== *)
(** ** Predicates the theorems use *)
(* ================================================================== *)

(** While the engine has not stopped the window exists, nothing has been
    saved and nothing cancelled. *)
Definition live_inv (m : Machine) : Prop :=
  running (window m) = true ->
  root_exists m = true /\ saved_minutes (window m) = None /\
  cancelled (window m) = false /\ clock m <> InShowInfo.

(** In timer mode [elapsed_seconds] stays within the target, and strictly
    below it while an increment is pending. *)
Definition timer_inv (m : Machine) : Prop :=
  0 <= elapsed_seconds (window m) <= total_seconds (window m) /\
  (clock m = InSleepRunning -> elapsed_seconds (window m) < total_seconds (window m)).

(** A date from which the views can look around: thirty weeks and twelve
    thirty-day steps back, and the end of the current week, stay within
    [date.min .. date.max]. *)
Definition can_look_back (today : PyDate.date) : Prop :=
  1 <= PyDate.day today <= 31 /\
  400 <= PyDate.toordinal today <= PyDate.MAXORDINAL - 6.

(** What the outcome of a session is read from: nothing is cancelled or
    saved while the window exists, the modal box means the clock has
    stopped, and a window that is gone leaves a stopped engine with at most
    one of the two marks. *)
Definition outcome_inv (m : Machine) : Prop :=
  (root_exists m = true ->
   cancelled (window m) = false /\ saved_minutes (window m) = None) /\
  (clock m = InShowInfo -> running (window m) = false) /\
  (root_exists m = false ->
   running (window m) = false /\
   (cancelled (window m) = true -> saved_minutes (window m) = None)).

(** The numbers a session can save: time never runs backwards, and saved
    minutes are non-negative and, for a timer, within the target. *)
Definition saved_inv (m : Machine) : Prop :=
  0 <= elapsed_seconds (window m) /\
  (is_timer (window m) = true -> 0 <= total_seconds (window m)) /\
  (forall r, saved_minutes (window m) = Some r ->
     0 <= r /\ (is_timer (window m) = true -> r <= total_seconds (window m) / 60)).

(** The window exists exactly as long as it has not been destroyed, and it
    is destroyed at most once. *)
Definition destroy_inv (m : Machine) : Prop :=
  destroyed_times (trace m) = (if root_exists m then 0 else 1)%nat.

(** A timer with something to count whose clock thread has raised nothing:
    it has ended only if the engine has stopped. *)
Definition quiet_inv (m : Machine) : Prop :=
  is_timer (window m) = true /\
  0 < total_seconds (window m) /\
  ~ In ThreadRaised (trace m) /\
  (clock m = ThreadDone \/ clock m = InShowInfo -> running (window m) = false).

(** A date the [date] constructor accepts ([_check_date_fields], the year
    aside): the month is one of the twelve and the day exists in it. *)
Definition valid_date (d : PyDate.date) : Prop :=
  1 <= PyDate.month d <= 12 /\
  1 <= PyDate.day d <= PyDate.days_in_month (PyDate.year d) (PyDate.month d).

(** The day totals of [n] consecutive days, from the day of ordinal [o]. *)
Fixpoint day_totals (history : list Session) (o : Z) (n : nat) : Z :=
  match n with
  | O => 0
  | S k => aggregate_by_date history (PyDate.fromordinal o) + day_totals history (o + 1) k
  end.

(** The minutes the rows of a view add up to. *)
Fixpoint rows_total (rows : list Line) : Z :=
  match rows with
  | [] => 0
  | Row _ total :: rest => total + rows_total rest
  | NoData :: rest => rows_total rest
  end.

(** The Sunday the weekly view ends a week on:
    [week_start + timedelta(days=6)]. *)
Definition week_end_of (today : PyDate.date) (i : Z) : PyDate.date :=
  PyDate.fromordinal (PyDate.toordinal (week_start_of today i) - (- 6)).

(** A stopped engine that is neither cancelled nor finalized stopped in
    [finish_timer]: its notification is open, with the window still there,
    or has been acknowledged, with the window gone. *)
Definition natural_inv (m : Machine) : Prop :=
  engine_state (window m) = FinishedNatural ->
  (clock m = InShowInfo /\ root_exists m = true) \/
  (clock m = ThreadDone /\ root_exists m = false).

(** A record with the date text [strftime] writes for a real date, which
    [strptime] reads back as that date. *)
Definition written_date (strftime : PyDate.date -> string)
    (strptime : string -> option PyDate.date) (s : Stored.Entry) : Prop :=
  exists d, valid_date d /\ Stored.date s = strftime d /\
            strptime (Stored.date s) = Some d.

(** The position of an exact value [m + R / Dn], [0 <= R < Dn], between the
    integers [m] and [m + 1]: what [SpecFloat] calls a location. *)
Definition loc (R Dn : Z) : location :=
  if R =? 0 then loc_Exact else loc_Inexact (Z.compare (2 * R) Dn).

(* ================================================================== *)
(** ** Basic facts about the event loop *)
(* ================================================================== *)

Lemma run_app (m : Machine) (a b : list Event) :
  run m (a ++ b) = run (run m a) b.
Proof. unfold run. apply fold_left_app. Qed.

Lemma run_cons (m : Machine) (ev : Event) (rest : list Event) :
  run m (ev :: rest) = run (step m ev) rest.
Proof. reflexivity. Qed.

Lemma run_snoc (m : Machine) (a : list Event) (ev : Event) :
  run m (a ++ [ev]) = step (run m a) ev.
Proof. rewrite run_app. reflexivity. Qed.

(** A call of [update_display] leaves the window and the root alone. *)
Lemma display_then_window (m : Machine) (s : Z) (pc : ClockPc) :
  window (display_then m s pc) = window m.
Proof. unfold display_then. destruct update_display; reflexivity. Qed.

Lemma display_then_root (m : Machine) (s : Z) (pc : ClockPc) :
  root_exists (display_then m s pc) = root_exists m.
Proof. unfold display_then. destruct update_display; reflexivity. Qed.

Lemma display_then_clock (m : Machine) (s : Z) (pc : ClockPc) :
  clock (display_then m s pc) = pc \/ clock (display_then m s pc) = ThreadDone.
Proof. unfold display_then. destruct update_display; simpl; auto. Qed.

Lemma destroy_window_window (m : Machine) : window (destroy_window m) = window m.
Proof. unfold destroy_window. destruct (root_exists m); reflexivity. Qed.

Lemma destroy_window_root (m : Machine) : root_exists (destroy_window m) = false.
Proof. unfold destroy_window. destruct (root_exists m) eqn:E; simpl; auto. Qed.

Lemma destroy_window_clock (m : Machine) : clock (destroy_window m) = clock m.
Proof. unfold destroy_window. destruct (root_exists m); reflexivity. Qed.

(** Case analysis on one step of the clock thread. *)
Ltac clock_cases m :=
  unfold count_step, finish_timer;
  destruct (clock m) eqn:?; simpl;
  try destruct (running (window m)) eqn:?; simpl;
  try destruct (paused (window m)) eqn:?; simpl;
  try destruct (is_timer (window m)) eqn:?; simpl;
  try destruct (total_seconds (window m) - elapsed_seconds (window m) <=? 0) eqn:?;
  simpl;
  rewrite ?display_then_window, ?display_then_root.

(** Case analysis on one event. *)
Ltac step_cases m ev :=
  destruct ev; unfold step;
  [ clock_cases m
  | destruct (root_exists m) eqn:?; simpl
  | destruct (root_exists m) eqn:?; simpl;
    rewrite ?destroy_window_window, ?destroy_window_root
  | destruct (root_exists m) eqn:?; simpl;
    rewrite ?destroy_window_window, ?destroy_window_root
  | destruct (clock m) eqn:?; simpl;
    rewrite ?destroy_window_window, ?destroy_window_root ].

(** The mode and the target never change during a session. *)
Lemma step_mode (m : Machine) (ev : Event) :
  is_timer (window (step m ev)) = is_timer (window m) /\
  total_seconds (window (step m ev)) = total_seconds (window m).
Proof. step_cases m ev; auto. Qed.

Lemma run_mode (events : list Event) (m : Machine) :
  is_timer (window (run m events)) = is_timer (window m) /\
  total_seconds (window (run m events)) = total_seconds (window m).
Proof.
  revert m. induction events as [|ev rest IH]; intros m; [split; reflexivity|].
  rewrite run_cons. destruct (IH (step m ev)) as [H1 H2].
  destruct (step_mode m ev) as [H3 H4]. split; congruence.
Qed.


Lemma start_live (timer : bool) (mins : Z) : live_inv (start timer mins).
Proof. intros _. simpl. repeat split; discriminate. Qed.

Lemma step_live (m : Machine) (ev : Event) : live_inv m -> live_inv (step m ev).
Proof.
  unfold live_inv. intros H.
  step_cases m ev; intros R; try discriminate; try congruence;
    (first [destruct (H R) as (A & B & C & D)
           | destruct (H eq_refl) as (A & B & C & D)]);
    repeat split; auto; try discriminate; try congruence.
  all: match goal with
       | |- clock (display_then ?m ?s ?pc) <> _ =>
           destruct (display_then_clock m s pc) as [E|E]; rewrite E; discriminate
       end.
Qed.

Lemma run_live (events : list Event) (m : Machine) :
  live_inv m -> live_inv (run m events).
Proof.
  revert m. induction events as [|ev rest IH]; intros m H; [exact H|].
  rewrite run_cons. apply IH, step_live, H.
Qed.

(** Once the window is gone, what [run_timer] and [run_stopwatch] read is
    settled: no event changes it. *)
Lemma step_gone (m : Machine) (ev : Event) :
  root_exists m = false ->
  root_exists (step m ev) = false /\
  cancelled (window (step m ev)) = cancelled (window m) /\
  saved_minutes (window (step m ev)) = saved_minutes (window m).
Proof.
  intros G. step_cases m ev; try congruence; auto.
Qed.

Lemma run_gone (events : list Event) (m : Machine) :
  root_exists m = false ->
  root_exists (run m events) = false /\
  cancelled (window (run m events)) = cancelled (window m) /\
  saved_minutes (window (run m events)) = saved_minutes (window m).
Proof.
  revert m. induction events as [|ev rest IH]; intros m G; [auto|].
  rewrite run_cons. destruct (step_gone m ev G) as (A & B & C).
  destruct (IH _ A) as (A' & B' & C'). repeat split; congruence.
Qed.

(** What one event does to the fields the outcome is read from. *)
Lemma step_outcome_inv (m : Machine) (ev : Event) :
  outcome_inv m -> outcome_inv (step m ev).
Proof.
  unfold outcome_inv. intros (A & B & C).
  step_cases m ev; repeat split; intros;
    try match goal with
        | H : clock (display_then ?m ?s ?pc) = InShowInfo |- _ =>
            destruct (display_then_clock m s pc) as [E|E]; rewrite E in H
        end;
    try discriminate; try (intuition congruence).
  destruct (root_exists m) eqn:?; intuition congruence.
Qed.

Lemma run_outcome_inv (events : list Event) (m : Machine) :
  outcome_inv m -> outcome_inv (run m events).
Proof.
  revert m. induction events as [|ev rest IH]; intros m H; [exact H|].
  rewrite run_cons. apply IH, step_outcome_inv, H.
Qed.

(* ================================================================== *)
(** ** C1: what finalize records *)
(* ================================================================== *)

(** C1. Finalizing records [elapsed_seconds // 60] minutes, capped at
    [total_seconds // 60] for a timer and uncapped for a stopwatch: this is
    the value [finalize_action] stores, it makes the engine
    Finished(UserConfirmed), and it is the value [run_timer] and
    [run_stopwatch] hand to [save_session] when the finish button is pressed
    at any point where the window still exists. *)
Theorem finalize_records_minutes :
  (forall w : FloatingTimerWindow,
      saved_minutes (finalize_action w) =
        Some (if is_timer w
              then Z.min (elapsed_seconds w / 60) (total_seconds w / 60)
              else elapsed_seconds w / 60) /\
      engine_state (finalize_action w) = FinishedUserConfirmed) /\
  (forall json_load file now obj mins events,
      root_exists (run (start true mins) events) = true ->
      let w := window (run (start true mins) events) in
      run_timer json_load file now obj mins (events ++ [PressFinalize]) =
        Saved (save_session json_load file now obj "timer"
                 (Z.min (elapsed_seconds w / 60) (total_seconds w / 60)))) /\
  (forall json_load file now obj events,
      root_exists (run (start false 0) events) = true ->
      let w := window (run (start false 0) events) in
      run_stopwatch json_load file now obj (events ++ [PressFinalize]) =
        Saved (save_session json_load file now obj "cronometro"
                 (elapsed_seconds w / 60))).
Proof.
  split; [|split].
  - intros w. split; [unfold finalize_action, finalize_minutes; simpl|reflexivity].
    destruct (is_timer w); reflexivity.
  - intros json_load file now obj mins events E w.
    unfold run_timer. rewrite run_snoc. unfold step. rewrite E.
    rewrite destroy_window_root, destroy_window_window. simpl.
    unfold finalize_minutes.
    destruct (run_mode events (start true mins)) as [T _].
    rewrite T. reflexivity.
  - intros json_load file now obj events E w.
    unfold run_stopwatch. rewrite run_snoc. unfold step. rewrite E.
    rewrite destroy_window_root, destroy_window_window. simpl.
    unfold finalize_minutes.
    destruct (run_mode events (start false 0)) as [T _].
    rewrite T. reflexivity.
Qed.

(** The property at a session of 15 minutes finalized after three turns of
    the clock loop, and at a stopwatch finalized at once. *)
Lemma finalize_records_minutes_witness :
  run_timer (fun _ => JSONDecodeError) None (mkNow (PyDate.mkDate 2026 2 16) "")
    "Estudar" 15 (ticks 3 ++ [PressFinalize]) =
    Saved (save_session (fun _ => JSONDecodeError) None
             (mkNow (PyDate.mkDate 2026 2 16) "") "Estudar" "timer"
             (Z.min (3 / 60) (900 / 60))) /\
  run_stopwatch (fun _ => JSONDecodeError) None (mkNow (PyDate.mkDate 2026 2 16) "")
    "Estudar" ([] ++ [PressFinalize]) =
    Saved (save_session (fun _ => JSONDecodeError) None
             (mkNow (PyDate.mkDate 2026 2 16) "") "Estudar" "cronometro" (0 / 60)).
Proof.
  destruct finalize_records_minutes as (_ & Ht & Hs). split.
  - apply (Ht (fun _ => JSONDecodeError) None (mkNow (PyDate.mkDate 2026 2 16) "")
             "Estudar" 15 (ticks 3)).
    vm_compute. reflexivity.
  - apply (Hs (fun _ => JSONDecodeError) None (mkNow (PyDate.mkDate 2026 2 16) "")
             "Estudar" []).
    vm_compute. reflexivity.
Defined.

(* ================================================================== *)
(** ** C3: pausing and the clock *)
(* ================================================================== *)

(** While the engine is paused and the thread is not in its one-second sleep,
    the clock thread turns without touching the window. *)
Lemma paused_idle_steps (n : nat) (p : Machine) :
  running (window p) = true -> paused (window p) = true ->
  in_flight (clock p) = false ->
  window (run p (repeat ClockStep n)) = window p /\
  in_flight (clock (run p (repeat ClockStep n))) = false.
Proof.
  revert p. induction n as [|n IH]; intros p R P F; [auto|].
  simpl repeat. rewrite run_cons.
  assert (W : window (step p ClockStep) = window p /\
              in_flight (clock (step p ClockStep)) = false).
  { simpl. clock_cases p; try discriminate; try congruence; auto;
      try (split; [reflexivity|congruence]).
    all: split; auto;
      match goal with
      | |- in_flight (clock (display_then ?m ?s ?pc)) = _ =>
          destruct (display_then_clock m s pc) as [E|E]; rewrite E; reflexivity
      end. }
  destruct W as [W1 W2].
  destruct (IH (step p ClockStep)) as [A B]; try congruence.
  split; congruence.
Qed.

(** The clock thread never destroys the window by itself. *)
Lemma count_steps_root (n : nat) (p : Machine) :
  root_exists (run p (repeat ClockStep n)) = root_exists p.
Proof.
  revert p. induction n as [|k IH]; intros p; [reflexivity|].
  simpl repeat. rewrite run_cons, IH.
  simpl. clock_cases p; reflexivity.
Qed.

(** C3, as the code has it. Pausing and resuming leave [elapsed_seconds]
    alone, and a turn of the clock loop that begins while the engine is
    paused never advances it. The loop reads [paused] before its one-second
    sleep and increments after it, so a turn already asleep when pause is
    pressed still adds its second: after any number [n] of clock steps in
    the paused state, [elapsed_seconds] is the value at the moment of pause,
    plus one exactly when such a turn was in flight and has woken up; resume
    then continues from that value. *)
Theorem pause_freezes_elapsed (m : Machine) (n : nat) :
  root_exists m = true ->
  running (window m) = true ->
  paused (window m) = false ->
  let p := step m PressPause in
  let q := run p (repeat ClockStep n) in
  engine_state (window p) = Paused /\
  elapsed_seconds (window p) = elapsed_seconds (window m) /\
  engine_state (window q) = Paused /\
  elapsed_seconds (window q) =
    elapsed_seconds (window m)
    + (if in_flight (clock m) && negb (Nat.eqb n 0) then 1 else 0) /\
  (in_flight (clock m) = false ->
   forall k, elapsed_seconds (window (run p (repeat ClockStep k))) =
             elapsed_seconds (window m)) /\
  engine_state (window (step q PressPause)) = Running /\
  elapsed_seconds (window (step q PressPause)) = elapsed_seconds (window q).
Proof.
  intros E R P p q.
  assert (Hp : window p = toggle_pause (window m) /\ clock p = clock m /\
               root_exists p = true).
  { unfold p, step. rewrite E. auto. }
  destruct Hp as (Wp & Cp & Ep).
  assert (Rp : running (window p) = true) by (rewrite Wp; exact R).
  assert (Pp : paused (window p) = true) by (rewrite Wp; simpl; rewrite P; reflexivity).
  assert (Hq : window q =
               if in_flight (clock m) && negb (Nat.eqb n 0)
               then advance (window p) else window p).
  { unfold q. destruct (in_flight (clock m)) eqn:F.
    - destruct n as [|n]; [reflexivity|]. simpl repeat. rewrite run_cons. simpl andb.
      assert (S1 : window (step p ClockStep) = advance (window p) /\
                   clock (step p ClockStep) = AtLoopTop).
      { simpl. unfold count_step. rewrite Cp.
        destruct (clock m); try discriminate. auto. }
      destruct S1 as [S1 S2].
      destruct (paused_idle_steps n (step p ClockStep)) as [A _];
        try (rewrite S1; simpl; assumption); [rewrite S2; reflexivity|].
      congruence.
    - simpl andb.
      destruct (paused_idle_steps n p) as [A _]; auto. congruence. }
  assert (Eq : root_exists q = true).
  { unfold q. rewrite count_steps_root. exact Ep. }
  repeat split.
  - unfold engine_state. rewrite Rp, Pp. reflexivity.
  - rewrite Wp. reflexivity.
  - rewrite Hq. destruct (in_flight (clock m) && negb (Nat.eqb n 0));
      unfold engine_state; simpl; rewrite Rp, Pp; reflexivity.
  - rewrite Hq. destruct (in_flight (clock m) && negb (Nat.eqb n 0));
      simpl; rewrite Wp; simpl; lia.
  - intros F k. destruct (paused_idle_steps k p) as [A _]; auto; try congruence.
    rewrite A, Wp. reflexivity.
  - unfold step. rewrite Eq. simpl. rewrite Hq.
    destruct (in_flight (clock m) && negb (Nat.eqb n 0));
      unfold engine_state; simpl; rewrite Rp, Pp; reflexivity.
  - unfold step. rewrite Eq. reflexivity.
Qed.

(** The property on a 25-minute timer paused while the thread is in its
    one-second sleep, observed four clock steps later. *)
Lemma pause_freezes_elapsed_witness :
  engine_state
    (window (run (step (run (start true 25) [ClockStep]) PressPause)
               (repeat ClockStep 4))) = Paused /\
  elapsed_seconds
    (window (run (step (run (start true 25) [ClockStep]) PressPause)
               (repeat ClockStep 4))) =
  elapsed_seconds (window (run (start true 25) [ClockStep])) + 1.
Proof.
  destruct (pause_freezes_elapsed (run (start true 25) [ClockStep]) 4)
    as (_ & _ & A & B & _); try (vm_compute; reflexivity).
  split; [exact A | exact B].
Defined.

(** Pause pressed during the one-second sleep of a 25-minute timer: the
    engine is paused with [elapsed_seconds = 0], the next clock step
    advances it to 1 although the engine is paused, and after resume the
    count goes on from 1, not from the 0 held at the moment of pause. *)
Lemma pause_in_flight_tick_advances :
  engine_state (window (run (start true 25) [ClockStep; PressPause])) = Paused /\
  elapsed_seconds (window (run (start true 25) [ClockStep; PressPause])) = 0 /\
  engine_state
    (window (step (run (start true 25) [ClockStep; PressPause]) ClockStep)) = Paused /\
  elapsed_seconds
    (window (step (run (start true 25) [ClockStep; PressPause]) ClockStep)) = 1 /\
  engine_state
    (window (run (start true 25) [ClockStep; PressPause; ClockStep; PressPause]))
    = Running /\
  elapsed_seconds
    (window (run (start true 25) [ClockStep; PressPause; ClockStep; PressPause]))
    <> elapsed_seconds (window (run (start true 25) [ClockStep; PressPause])).
Proof. vm_compute. repeat split; try reflexivity. discriminate. Qed.

(* ================================================================== *)
(** ** C5: a countdown with nothing to count *)
(* ================================================================== *)

(** Once [finish_timer] has been entered the clock thread calls
    [update_display] no more. *)
Lemma finished_never_divides (events : list Event) (m : Machine) :
  clock m = InShowInfo \/ clock m = ThreadDone ->
  existsb divides (trace m) = false ->
  existsb divides (trace (run m events)) = false.
Proof.
  revert m. induction events as [|ev rest IH]; intros m C T; [exact T|].
  rewrite run_cons.
  assert (S1 : (clock (step m ev) = InShowInfo \/ clock (step m ev) = ThreadDone) /\
               (trace (step m ev) = trace m \/
                trace (step m ev) = (trace m ++ [DestroyRoot])%list)).
  { destruct C as [C|C]; destruct ev; simpl; unfold count_step; rewrite ?C;
      unfold destroy_window; simpl; destruct (root_exists m); simpl; auto. }
  destruct S1 as [C1 [T1|T1]]; apply IH; auto; rewrite T1; auto.
  rewrite existsb_app, T. reflexivity.
Qed.

(** What holds when the clock thread makes its first test before any
    gesture. With a total of zero seconds or less, the first step of the
    clock thread enters [finish_timer]: the engine is Finished(Natural) with
    [elapsed_seconds] still 0, and whatever happens afterwards
    [update_display] - the only place that divides by [total_seconds] - is
    never called and the thread never raises. *)
Lemma nonpositive_total_finishes_at_once (mins : Z) (events : list Event) :
  mins * 60 <= 0 ->
  let m1 := count_step (start true mins) in
  engine_state (window m1) = FinishedNatural /\
  clock m1 = InShowInfo /\
  elapsed_seconds (window m1) = 0 /\
  trace m1 = [SetProgressLabel "##########"; SetTimeLabel "00:00:00"; Bell; ShowInfo] /\
  existsb divides (trace (run (start true mins) (ClockStep :: events))) = false.
Proof.
  intros H m1.
  assert (L : (mins * 60 - 0 <=? 0) = true) by (apply Z.leb_le; lia).
  assert (S1 : m1 = finish_timer (start true mins)).
  { unfold m1, count_step. simpl. rewrite L. reflexivity. }
  repeat split; try (rewrite S1; reflexivity).
  rewrite run_cons. simpl step. fold m1.
  apply finished_never_divides; rewrite S1; auto.
Qed.

(** The property on a timer built with the default [total_minutes = 0]. *)
Lemma nonpositive_total_finishes_at_once_witness :
  engine_state (window (count_step (start true 0))) = FinishedNatural /\
  existsb divides
    (trace (run (start true 0) (ClockStep :: [PressPause; ClockStep; Acknowledge])))
  = false.
Proof.
  destruct (nonpositive_total_finishes_at_once 0 [PressPause; ClockStep; Acknowledge])
    as (A & _ & _ & _ & B); [lia|].
  split; [exact A | exact B].
Defined.


(* ================================================================== *)
(** ** C6: cancelling *)
(* ================================================================== *)

(** C6. When the window is closed at a point where the engine has not
    stopped, nothing is saved, whatever came before and whatever comes
    after: [run_timer] and [run_stopwatch] both return without calling
    [save_session]. *)
Theorem cancel_discards_session (json_load : string -> Decoded)
    (file : option string) (now : Now) (obj : string) (mins : Z)
    (before after : list Event) :
  (running (window (run (start true mins) before)) = true ->
   run_timer json_load file now obj mins (before ++ CloseWindow :: after) = NotSaved) /\
  (running (window (run (start false 0) before)) = true ->
   run_stopwatch json_load file now obj (before ++ CloseWindow :: after) = NotSaved).
Proof.
  split; intros R.
  - destruct (run_live before (start true mins) (start_live true mins) R)
      as (E & S & C & _).
    unfold run_timer. rewrite run_app, run_cons.
    set (m := run (start true mins) before) in *.
    assert (G : root_exists (step m CloseWindow) = false /\
                cancelled (window (step m CloseWindow)) = true).
    { simpl. rewrite E, destroy_window_root, destroy_window_window. auto. }
    destruct G as [G1 G2].
    destruct (run_gone after _ G1) as (A & B & _).
    rewrite A. unfold was_cancelled. rewrite B, G2. reflexivity.
  - destruct (run_live before (start false 0) (start_live false 0) R)
      as (E & S & C & _).
    unfold run_stopwatch. rewrite run_app, run_cons.
    set (m := run (start false 0) before) in *.
    assert (G : root_exists (step m CloseWindow) = false /\
                saved_minutes (window (step m CloseWindow)) = None).
    { simpl. rewrite E, destroy_window_root, destroy_window_window. auto. }
    destruct G as [G1 G2].
    destruct (run_gone after _ G1) as (A & _ & B).
    rewrite A, B, G2. reflexivity.
Qed.

(** The property on a 15-minute timer and on a stopwatch, each closed while
    paused after two turns of the clock. *)
Lemma cancel_discards_session_witness :
  run_timer (fun _ => JSONDecodeError) None (mkNow (PyDate.mkDate 2026 2 16) "")
    "Trabalhar" 15 ((ticks 2 ++ [PressPause]) ++ CloseWindow :: [ClockStep]) = NotSaved /\
  run_stopwatch (fun _ => JSONDecodeError) None (mkNow (PyDate.mkDate 2026 2 16) "")
    "Trabalhar" ((ticks 2 ++ [PressPause]) ++ CloseWindow :: [ClockStep]) = NotSaved.
Proof.
  destruct (cancel_discards_session (fun _ => JSONDecodeError) None
              (mkNow (PyDate.mkDate 2026 2 16) "") "Trabalhar" 15
              (ticks 2 ++ [PressPause]) [ClockStep]) as [A B].
  split; [apply A | apply B]; vm_compute; reflexivity.
Defined.

(* ================================================================== *)
(** ** C7: the handlers on a stopped engine *)
(* ================================================================== *)

(** Finished(Natural) read off the fields. *)
Lemma engine_state_natural (w : FloatingTimerWindow) :
  engine_state w = FinishedNatural <->
  running w = false /\ cancelled w = false /\ saved_minutes w = None.
Proof.
  unfold engine_state.
  destruct (running w), (paused w), (cancelled w), (saved_minutes w);
    split; try discriminate; intuition discriminate.
Qed.

(** An engine stops uncancelled and unfinalized only in [finish_timer],
    and leaves that state with its window only by the acknowledgement. *)
Lemma step_natural_inv (m : Machine) (ev : Event) :
  live_inv m -> natural_inv m -> natural_inv (step m ev).
Proof.
  unfold live_inv, natural_inv. rewrite !engine_state_natural. intros L N.
  step_cases m ev; simpl; intros (R & C & S); try discriminate; auto;
    try (apply N; auto; fail);
    try (first [destruct L as (A & B & D & E); [assumption|]
               | destruct L as (A & B & D & E); [reflexivity|]];
         try congruence; auto; fail);
    try (destruct N as [[A B]|[A B]]; auto; congruence).
Qed.

Lemma run_natural_inv (events : list Event) (m : Machine) :
  live_inv m -> natural_inv m -> natural_inv (run m events).
Proof.
  revert m. induction events as [|ev rest IH]; intros m L N; [exact N|].
  rewrite run_cons. apply IH; [apply step_live, L | apply step_natural_inv; assumption].
Qed.

(** A gesture on a window that is gone does nothing. *)
Lemma gesture_without_window (m : Machine) (ev : Event) :
  In ev [PressPause; PressFinalize; CloseWindow] ->
  root_exists m = false -> step m ev = m.
Proof.
  intros H G. destruct H as [<-|[<-|[<-|[]]]]; simpl; rewrite G; reflexivity.
Qed.

(** C7, as the code has it. Take any session, after any schedule of clock
    steps and gestures, whose engine has stopped, and one more gesture:
    pause/resume, finalize or cancel. The gesture never restarts the clock
    and never changes [elapsed_seconds], the target or the mode. If the
    engine is Cancelled or Finished(UserConfirmed), or Finished(Natural) with
    its notification acknowledged, the window is gone and the gesture is a
    no-op: the whole session is left exactly as it was. If it is
    Finished(Natural) with the notification still open, the window is still
    there and the handlers, which test nothing, do write: pause/resume leaves
    the engine Finished(Natural), finalize makes it Finished(UserConfirmed),
    cancel makes it Cancelled. *)
Theorem gestures_on_stopped_engine (timer : bool) (mins : Z)
    (events : list Event) (ev : Event) :
  In ev [PressPause; PressFinalize; CloseWindow] ->
  running (window (run (start timer mins) events)) = false ->
  (running (window (step (run (start timer mins) events) ev)) = false /\
   elapsed_seconds (window (step (run (start timer mins) events) ev)) =
     elapsed_seconds (window (run (start timer mins) events)) /\
   total_seconds (window (step (run (start timer mins) events) ev)) =
     total_seconds (window (run (start timer mins) events)) /\
   is_timer (window (step (run (start timer mins) events) ev)) =
     is_timer (window (run (start timer mins) events))) /\
  (engine_state (window (run (start timer mins) events)) = Cancelled \/
   engine_state (window (run (start timer mins) events)) = FinishedUserConfirmed ->
   step (run (start timer mins) events) ev = run (start timer mins) events) /\
  (engine_state (window (run (start timer mins) events)) = FinishedNatural ->
   clock (run (start timer mins) events) = ThreadDone ->
   step (run (start timer mins) events) ev = run (start timer mins) events) /\
  (engine_state (window (run (start timer mins) events)) = FinishedNatural ->
   clock (run (start timer mins) events) <> ThreadDone ->
   clock (run (start timer mins) events) = InShowInfo /\
   root_exists (run (start timer mins) events) = true /\
   engine_state (window (step (run (start timer mins) events) PressPause)) =
     FinishedNatural /\
   engine_state (window (step (run (start timer mins) events) PressFinalize)) =
     FinishedUserConfirmed /\
   engine_state (window (step (run (start timer mins) events) CloseWindow)) =
     Cancelled).
Proof.
  intros H R.
  assert (O : outcome_inv (run (start timer mins) events)).
  { apply run_outcome_inv. unfold outcome_inv. simpl.
    repeat split; intros; discriminate. }
  assert (N : natural_inv (run (start timer mins) events)).
  { apply run_natural_inv; [apply start_live|]. intros E. discriminate. }
  set (m := run (start timer mins) events) in *.
  destruct O as (O1 & _ & _).
  split; [|split; [|split]].
  - destruct H as [<-|[<-|[<-|[]]]]; unfold step;
      destruct (root_exists m); simpl;
      rewrite ?destroy_window_window; simpl; auto.
  - intros T. apply gesture_without_window; [exact H|].
    destruct (root_exists m) eqn:E; [|reflexivity].
    destruct (O1 eq_refl) as [C S]. unfold engine_state in T.
    rewrite R, C, S in T. destruct T; discriminate.
  - intros T C. apply gesture_without_window; [exact H|].
    destruct (N T) as [[A _]|[_ B]]; [congruence | exact B].
  - intros T C. destruct (N T) as [[A B]|[A _]]; [|contradiction].
    apply engine_state_natural in T. destruct T as (_ & T2 & T3).
    split; [exact A|]. split; [exact B|].
    unfold step. rewrite B. simpl. rewrite !destroy_window_window.
    unfold engine_state. simpl. rewrite R, T2, T3. auto.
Qed.

(** The property on a 25-minute timer closed by the user: a finalize that
    comes afterwards changes nothing. *)
Lemma gestures_on_stopped_engine_witness :
  running (window (step (run (start true 25) [ClockStep; CloseWindow]) PressFinalize))
    = false /\
  step (run (start true 25) [ClockStep; CloseWindow]) PressFinalize
    = run (start true 25) [ClockStep; CloseWindow].
Proof.
  destruct (gestures_on_stopped_engine true 25 [ClockStep; CloseWindow] PressFinalize)
    as ((A & _) & B & _).
  - simpl. auto.
  - reflexivity.
  - split; [exact A|]. apply B. left. reflexivity.
Defined.

(** The handlers are no no-ops on an engine that is Finished(Natural) while
    its notification is open. A one-minute timer runs out; a close request
    at that point makes the engine Cancelled and [run_timer] saves nothing,
    the finish button makes it Finished(UserConfirmed), and the pause button
    changes the session. *)
Lemma finished_natural_open_to_gestures :
  engine_state (window (run (start true 1) (ticks 60 ++ [ClockStep]))) = FinishedNatural /\
  root_exists (run (start true 1) (ticks 60 ++ [ClockStep])) = true /\
  engine_state
    (window (step (run (start true 1) (ticks 60 ++ [ClockStep])) CloseWindow)) = Cancelled /\
  engine_state
    (window (step (run (start true 1) (ticks 60 ++ [ClockStep])) PressFinalize))
    = FinishedUserConfirmed /\
  step (run (start true 1) (ticks 60 ++ [ClockStep])) PressPause
    <> run (start true 1) (ticks 60 ++ [ClockStep]) /\
  run_timer (fun _ => JSONDecodeError) None
    (mkNow (PyDate.mkDate 2026 2 16) "2026-02-16 10:00:00") "Estudar" 1
    (ticks 60 ++ [ClockStep; CloseWindow]) = NotSaved.
Proof.
  repeat split; try (vm_compute; reflexivity).
  intros H.
  apply (f_equal (fun m => paused (window m))) in H.
  vm_compute in H. discriminate.
Qed.

(* ================================================================== *)
(** ** C10: the countdown never overshoots *)
(* ================================================================== *)


Lemma step_timer_inv (m : Machine) (ev : Event) :
  is_timer (window m) = true -> timer_inv m -> timer_inv (step m ev).
Proof.
  unfold timer_inv. intros T [B P].
  step_cases m ev; try congruence; try (split; [simpl; lia | discriminate]);
    try (split; [exact B | intros; discriminate]);
    try (split; [exact B | exact P]).
  all: try (split; [simpl; assumption|]).
  all: try match goal with
       | H : (_ <=? 0) = false |- _ => apply Z.leb_gt in H
       end.
  all: try (intros _; lia).
  all: try match goal with
       | |- clock (display_then ?m ?s ?pc) = _ -> _ =>
           destruct (display_then_clock m s pc) as [E|E]; rewrite E; discriminate
       end.
  all: try (split; [simpl; lia | intros; try discriminate; try lia]).
  all: try (specialize (P eq_refl); simpl; lia).
  all: try (intros X; congruence).
  all: rewrite destroy_window_clock; simpl; exact P.
Qed.

Lemma run_timer_inv (events : list Event) (m : Machine) :
  is_timer (window m) = true -> timer_inv m -> timer_inv (run m events).
Proof.
  revert m. induction events as [|ev rest IH]; intros m T H; [exact H|].
  rewrite run_cons. apply IH.
  - destruct (step_mode m ev) as [A _]. congruence.
  - apply step_timer_inv; assumption.
Qed.

(** C10. In a timer session [elapsed_seconds] never exceeds
    [total_seconds], whatever the user and the clock do; and at the top of
    its loop, with no time remaining, the clock thread finishes instead of
    incrementing. *)
Theorem elapsed_never_exceeds_total (mins : Z) (events : list Event) :
  0 <= mins ->
  (let w := window (run (start true mins) events) in
   0 <= elapsed_seconds w <= total_seconds w) /\
  (forall m,
     clock m = AtLoopTop -> running (window m) = true ->
     paused (window m) = false -> is_timer (window m) = true ->
     total_seconds (window m) - elapsed_seconds (window m) <= 0 ->
     count_step m = finish_timer m /\
     elapsed_seconds (window (count_step m)) = elapsed_seconds (window m) /\
     running (window (count_step m)) = false).
Proof.
  intros H. split.
  - apply (run_timer_inv events (start true mins)); [reflexivity|].
    split; simpl; [lia | discriminate].
  - intros m C R P T L.
    assert (S1 : count_step m = finish_timer m).
    { unfold count_step. rewrite C, R, P, T. simpl.
      apply Z.leb_le in L. rewrite L. reflexivity. }
    rewrite S1. repeat split; reflexivity.
Qed.

(** The property on a one-minute timer left alone for 70 turns of the
    clock. *)
Lemma elapsed_never_exceeds_total_witness :
  0 <= elapsed_seconds (window (run (start true 1) (ticks 70)))
    <= total_seconds (window (run (start true 1) (ticks 70))).
Proof.
  destruct (elapsed_never_exceeds_total 1 (ticks 70)) as [A _]; [lia|].
  exact A.
Defined.

(* ================================================================== *)
(** ** Dates: ordinals and back *)
(* ================================================================== *)

(** The year arithmetic of [_ord2ymd]: a year written as 400-, 100-, 4- and
    1-year cycles. *)
Lemma days_before_year_split (n400 n100 n4 n1 : Z) :
  0 <= n100 <= 3 -> 0 <= n4 <= 24 -> 0 <= n1 <= 3 ->
  PyDate.days_before_year (n400 * 400 + 1 + n100 * 100 + n4 * 4 + n1) =
  n400 * 146097 + n100 * 36524 + n4 * 1461 + n1 * 365.
Proof.
  intros. unfold PyDate.days_before_year. cbv zeta.
  Z.div_mod_to_equations. lia.
Qed.

(** The leap-year test of [_ord2ymd] is [_is_leap]. *)
Lemma is_leap_split (n400 n100 n4 n1 : Z) :
  0 <= n100 <= 3 -> 0 <= n4 <= 24 -> 0 <= n1 <= 3 ->
  PyDate.is_leap (n400 * 400 + 1 + n100 * 100 + n4 * 4 + n1) =
  (n1 =? 3) && (negb (n4 =? 24) || (n100 =? 3)).
Proof.
  intros. unfold PyDate.is_leap.
  repeat match goal with |- context [?a =? ?b] => destruct (Z.eqb_spec a b) end; simpl; try reflexivity; exfalso;
  Z.div_mod_to_equations; lia.
Qed.

(** [fromordinal] is a right inverse of [toordinal]. *)
Lemma toordinal_fromordinal (o : Z) :
  PyDate.toordinal (PyDate.fromordinal o) = o.
Proof.
  unfold PyDate.fromordinal, PyDate.DI400Y, PyDate.DI100Y, PyDate.DI4Y. cbv zeta.
  set (n400 := (o - 1) / 146097).
  set (r1 := (o - 1) mod 146097).
  set (n100 := r1 / 36524).
  set (r2 := r1 mod 36524).
  set (n4 := r2 / 1461).
  set (r3 := r2 mod 1461).
  set (n1 := r3 / 365).
  set (r4 := r3 mod 365).
  assert (E0 : o - 1 = 146097 * n400 + r1 /\ 0 <= r1 < 146097)
    by (unfold n400, r1; Z.div_mod_to_equations; lia).
  assert (E1 : r1 = 36524 * n100 + r2 /\ 0 <= r2 < 36524 /\ 0 <= n100 <= 4)
    by (unfold n100, r2; Z.div_mod_to_equations; lia).
  assert (E2 : r2 = 1461 * n4 + r3 /\ 0 <= r3 < 1461 /\ 0 <= n4 <= 24)
    by (unfold n4, r3; Z.div_mod_to_equations; lia).
  assert (E3 : r3 = 365 * n1 + r4 /\ 0 <= r4 < 365 /\ 0 <= n1 <= 4)
    by (unfold n1, r4; Z.div_mod_to_equations; lia).
  clearbody n400 r1 n100 r2 n4 r3 n1 r4.
  destruct ((n1 =? 4) || (n100 =? 4)) eqn:Sp.
  - unfold PyDate.toordinal, PyDate.days_before_month. simpl PyDate.year. simpl PyDate.month. simpl PyDate.day.
    apply orb_true_iff in Sp. destruct Sp as [Sp|Sp]; apply Z.eqb_eq in Sp.
    + destruct (Z.eq_dec n100 4) as [Q|Q].
      * replace (n400 * 400 + 1 + n100 * 100 + n4 * 4 + n1 - 1) with (n400 * 400 + 1 + 3 * 100 + 24 * 4 + 3) by lia.
        rewrite days_before_year_split, is_leap_split by lia. simpl. lia.
      * replace (n400 * 400 + 1 + n100 * 100 + n4 * 4 + n1 - 1) with (n400 * 400 + 1 + n100 * 100 + n4 * 4 + 3) by lia.
        rewrite days_before_year_split, is_leap_split by lia.
        assert (n4 <> 24) by lia.
        destruct (Z.eqb_spec n4 24); [lia|]. simpl. lia.
    + replace (n400 * 400 + 1 + n100 * 100 + n4 * 4 + n1 - 1) with (n400 * 400 + 1 + 3 * 100 + 24 * 4 + 3) by lia.
      rewrite days_before_year_split, is_leap_split by lia. simpl. lia.
  - apply orb_false_iff in Sp. destruct Sp as [Sp1 Sp2].
    apply Z.eqb_neq in Sp1, Sp2.
    rewrite Z.shiftr_div_pow2 by lia.
    change (2 ^ 5) with 32.
    set (m := (r4 + 50) / 32).
    assert (Em : 32 * m <= r4 + 50 < 32 * m + 32) by (unfold m; Z.div_mod_to_equations; lia).
    clearbody m.
    set (leapyear := (n1 =? 3) && (negb (n4 =? 24) || (n100 =? 3))).
    assert (Hm : m = 1 \/ m = 2 \/ m = 3 \/ m = 4 \/ m = 5 \/ m = 6 \/ m = 7 \/ m = 8 \/ m = 9 \/ m = 10 \/ m = 11 \/ m = 12) by lia.
    assert (L : PyDate.is_leap (n400 * 400 + 1 + n100 * 100 + n4 * 4 + n1) = leapyear)
      by (apply is_leap_split; lia).
    assert (Y : PyDate.days_before_year (n400 * 400 + 1 + n100 * 100 + n4 * 4 + n1) = n400 * 146097 + n100 * 36524 + n4 * 1461 + n1 * 365)
      by (apply days_before_year_split; lia).
    clearbody leapyear.
    repeat (destruct Hm as [Hm|Hm]); subst m; simpl;
      destruct leapyear; simpl;
      match goal with |- context [?a <? ?b] => destruct (Z.ltb_spec a b) end;
      unfold PyDate.toordinal, PyDate.days_before_month; simpl; rewrite ?L, ?Y;
      unfold PyDate.DAYS_BEFORE_MONTH; simpl; lia.
Qed.

Lemma sub_days_some (d : PyDate.date) (k : Z) :
  0 < PyDate.toordinal d - k <= 3652059 ->
  exists r, PyDate.sub_days d k = Some r /\
            PyDate.toordinal r = PyDate.toordinal d - k.
Proof.
  intros H. unfold PyDate.sub_days, PyDate.MAXORDINAL.
  destruct (Z.ltb_spec 0 (PyDate.toordinal d - k)); [|lia].
  destruct (Z.leb_spec (PyDate.toordinal d - k) 3652059); [|lia].
  simpl. eexists. split; [reflexivity|]. apply toordinal_fromordinal.
Qed.

Lemma weekday_range (d : PyDate.date) : 0 <= PyDate.weekday d <= 6.
Proof. unfold PyDate.weekday. Z.div_mod_to_equations. lia. Qed.

Lemma first_of_month_ordinal (d : PyDate.date) :
  PyDate.toordinal (PyDate.first_of_month d) = PyDate.toordinal d - PyDate.day d + 1.
Proof. unfold PyDate.toordinal, PyDate.first_of_month. simpl. lia. Qed.

(* ================================================================== *)
(** ** C8: a missing or corrupt history file *)
(* ================================================================== *)


Lemma daily_rows_empty (today : PyDate.date) (offsets : list Z) :
  can_look_back today ->
  Forall (fun i => 0 <= i <= 29) offsets ->
  daily_rows [] today offsets = Some [].
Proof.
  intros [_ T] F. unfold PyDate.MAXORDINAL in *.
  induction F as [|i rest Hi _ IH]; [reflexivity|].
  cbn [daily_rows]. destruct (sub_days_some today i) as (r & -> & _); [lia|].
  rewrite IH. reflexivity.
Qed.

Lemma weekly_rows_empty (today : PyDate.date) (offsets : list Z) :
  can_look_back today ->
  Forall (fun i => 0 <= i <= 29) offsets ->
  weekly_rows [] today offsets = Some [].
Proof.
  intros [_ T] F. unfold PyDate.MAXORDINAL in *.
  induction F as [|i rest Hi _ IH]; [reflexivity|].
  cbn [weekly_rows]. pose proof (weekday_range today) as W.
  destruct (sub_days_some today (7 * i + PyDate.weekday today)) as (r & -> & Er); [lia|].
  unfold PyDate.add_days. simpl Z.opp.
  destruct (sub_days_some r (- 6)) as (r' & -> & _); [lia|].
  rewrite IH. reflexivity.
Qed.

Lemma monthly_rows_empty (today : PyDate.date) (offsets : list Z) :
  can_look_back today ->
  Forall (fun i => 0 <= i <= 11) offsets ->
  monthly_rows [] today offsets = Some [].
Proof.
  intros [D T] F. unfold PyDate.MAXORDINAL in *.
  induction F as [|i rest Hi _ IH]; [reflexivity|].
  cbn [monthly_rows]. unfold month_date.
  pose proof (first_of_month_ordinal today) as O.
  destruct (sub_days_some (PyDate.first_of_month today) (i * 30)) as (r & -> & _); [lia|].
  rewrite IH. reflexivity.
Qed.

Lemma range_down_29 : Forall (fun i => 0 <= i <= 29) (range_down 29).
Proof. unfold range_down. simpl. repeat constructor; lia. Qed.

Lemma range_down_11 : Forall (fun i => 0 <= i <= 11) (range_down 11).
Proof. unfold range_down. simpl. repeat constructor; lia. Qed.

(** C8. With no history file, and with a file whose content [json.load]
    rejects, [load_history] returns the empty history - silently in the first
    case, with the warning in the second - and each of the four views, run on
    such a file, prints its no-data line and does not raise. *)
Theorem missing_or_corrupt_history_is_empty (json_load : string -> Decoded)
    (text : string) (today query : PyDate.date) :
  json_load text = JSONDecodeError ->
  can_look_back today ->
  load_history json_load None = ([], []) /\
  load_history json_load (Some text) =
    ([], ["Aviso: Arquivo de histórico corrompido. Criando novo..."]) /\
  (forall file, file = None \/ file = Some text ->
     snd (show_daily_history json_load file today) = Some [NoData] /\
     snd (show_weekly_history json_load file today) = Some [NoData] /\
     snd (show_monthly_history json_load file today) = Some [NoData] /\
     snd (show_specific_date_history json_load file query) = Some [NoData]).
Proof.
  intros J T.
  assert (L : load_history json_load (Some text) =
              ([], ["Aviso: Arquivo de histórico corrompido. Criando novo..."]))
    by (unfold load_history; rewrite J; reflexivity).
  split; [reflexivity|]. split; [exact L|].
  intros file [->| ->];
    unfold show_daily_history, show_weekly_history, show_monthly_history,
      show_specific_date_history;
    rewrite ?L; simpl load_history; cbv iota beta;
    rewrite (daily_rows_empty today _ T range_down_29),
      (weekly_rows_empty today _ T range_down_29),
      (monthly_rows_empty today _ T range_down_11);
    repeat split.
Qed.

(** The property on a truncated file, read on 16 February 2026. *)
Lemma missing_or_corrupt_history_is_empty_witness :
  load_history (fun _ => JSONDecodeError) (Some "[{") =
    ([], ["Aviso: Arquivo de histórico corrompido. Criando novo..."]) /\
  snd (show_weekly_history (fun _ => JSONDecodeError) (Some "[{")
         (PyDate.mkDate 2026 2 16)) = Some [NoData].
Proof.
  destruct (missing_or_corrupt_history_is_empty (fun _ => JSONDecodeError) "[{"
              (PyDate.mkDate 2026 2 16) (PyDate.mkDate 2026 2 1))
    as (_ & A & B).
  - reflexivity.
  - unfold can_look_back. vm_compute. repeat split; discriminate.
  - split; [exact A|]. apply (B (Some "[{")). right. reflexivity.
Defined.

(* ================================================================== *)
(** ** C9: the monthly view *)
(* ================================================================== *)

(** C9 on 15 March 2024. The twelve months the view looks at are April to
    December 2023, January 2024 twice, and March 2024: February 2024 is in no
    bucket. With 25 minutes on 10 January and 50 minutes on 10 February, the
    view prints January's 25 minutes twice and February's 50 minutes never. *)
Theorem monthly_view_march_2024 :
  month_buckets (PyDate.mkDate 2024 3 15) (range_down 11) =
    Some [(2023, 4); (2023, 5); (2023, 6); (2023, 7); (2023, 8); (2023, 9);
          (2023, 10); (2023, 11); (2023, 12); (2024, 1); (2024, 1); (2024, 3)] /\
  monthly_rows
    [mkSession (PyDate.mkDate 2024 1 10) "2024-01-10 09:00:00" "Estudar" "timer" 25;
     mkSession (PyDate.mkDate 2024 2 10) "2024-02-10 09:00:00" "Estudar" "timer" 50]
    (PyDate.mkDate 2024 3 15) (range_down 11) =
    Some [Row (MonthLabel 2024 1) 25; Row (MonthLabel 2024 1) 25].
Proof. vm_compute. split; reflexivity. Qed.


(* ================================================================== *)
(** ** Floats: what [int / int], [* 10] and [int()] compute *)
(* ================================================================== *)

(** *** Binary digits *)

Lemma digits2_pos_size (p : positive) : digits2_pos p = Pos.size p.
Proof. induction p; simpl; congruence. Qed.

Lemma Zdigits2_log2 (m : Z) : 0 < m -> Zdigits2 m = Z.log2 m + 1.
Proof.
  destruct m as [|p|p]; try lia. intros _. simpl.
  rewrite digits2_pos_size. destruct p; simpl; lia.
Qed.

Lemma Zdigits2_nonneg (m : Z) : 0 <= Zdigits2 m.
Proof. destruct m; simpl; lia. Qed.

(** [m] has at most [k] binary digits when [m < 2^k]. *)
Lemma Zdigits2_le (m k : Z) : 0 <= m -> 0 <= k -> m < 2 ^ k -> Zdigits2 m <= k.
Proof.
  intros Hm Hk H. destruct (Z.eq_dec m 0) as [->|N]; [simpl; lia|].
  rewrite Zdigits2_log2 by lia.
  assert (Z.log2 m < k) by (apply Z.log2_lt_pow2; lia). lia.
Qed.

Lemma Zdigits2_ge (m k : Z) : 0 < m -> 2 ^ k <= m -> k + 1 <= Zdigits2 m.
Proof.
  intros Hm H. rewrite Zdigits2_log2 by lia.
  destruct (Z.le_gt_cases 0 k) as [K|K].
  - assert (k <= Z.log2 m) by (apply Z.log2_le_pow2; lia). lia.
  - pose proof (Z.log2_nonneg m). lia.
Qed.

Lemma Zdigits2_eq (m k : Z) : 0 < k -> 2 ^ (k - 1) <= m < 2 ^ k -> Zdigits2 m = k.
Proof.
  intros Hk [L U].
  assert (0 < m) by (pose proof (Z.pow_pos_nonneg 2 (k - 1)); lia).
  pose proof (Zdigits2_le m k). pose proof (Zdigits2_ge m (k - 1)). lia.
Qed.

Lemma Zdigits2_bounds (m : Z) : 0 < m -> 2 ^ (Zdigits2 m - 1) <= m < 2 ^ Zdigits2 m.
Proof.
  intros Hm. rewrite Zdigits2_log2 by lia.
  replace (Z.log2 m + 1 - 1) with (Z.log2 m) by lia.
  pose proof (Z.log2_spec m Hm). rewrite <- Z.add_1_r in H. exact H.
Qed.

(** *** Shifting and rounding *)

(** The location [SFdiv] computes from a remainder. *)
Lemma new_location_loc (d r : Z) : 0 <= r < d -> new_location d r = loc r d.
Proof.
  intros H. unfold new_location, new_location_even, new_location_odd, loc.
  destruct (Z.even d) eqn:E; [reflexivity|].
  destruct (r =? 0); [reflexivity|]. f_equal.
  assert (O : Z.odd d = true) by (rewrite <- Z.negb_even, E; reflexivity).
  apply Z.odd_spec in O. destruct O as [h O].
  destruct (Z.compare_spec (2 * r + 1) d), (Z.compare_spec (2 * r) d); try reflexivity; lia.
Qed.

Lemma shr_m_of_loc (m : Z) (l : location) : shr_m (shr_record_of_loc m l) = m.
Proof. destruct l as [|[]]; reflexivity. Qed.

Lemma loc_of_shr_record_of_loc (m : Z) (l : location) :
  loc_of_shr_record (shr_record_of_loc m l) = l.
Proof. destruct l as [|[]]; reflexivity. Qed.

(** One shift to the right on a non-negative mantissa. *)
Lemma shr_1_nonneg (m : Z) (r s : bool) :
  0 <= m ->
  shr_1 (Build_shr_record m r s) =
  Build_shr_record (m / 2) (m mod 2 =? 1) (r || s).
Proof.
  intros Hm. destruct m as [|p|p]; [reflexivity| |lia].
  destruct p as [p|p|].
  - replace (Z.pos p~1 / 2) with (Z.pos p) by (Z.div_mod_to_equations; lia).
    replace (Z.pos p~1 mod 2) with 1 by (Z.div_mod_to_equations; lia).
    reflexivity.
  - replace (Z.pos p~0 / 2) with (Z.pos p) by (Z.div_mod_to_equations; lia).
    replace (Z.pos p~0 mod 2) with 0 by (Z.div_mod_to_equations; lia).
    reflexivity.
  - reflexivity.
Qed.

(** One shift to the right halves the mantissa and doubles the scale of the
    remainder. *)
Lemma shr_1_loc (m R Dn : Z) :
  0 <= m -> 0 <= R < Dn ->
  shr_1 (shr_record_of_loc m (loc R Dn)) =
  shr_record_of_loc (m / 2) (loc ((m mod 2) * Dn + R) (2 * Dn)).
Proof.
  intros Hm HR.
  assert (D : m mod 2 = 0 \/ m mod 2 = 1) by (Z.div_mod_to_equations; lia).
  unfold loc.
  destruct (Z.eqb_spec R 0) as [E|E];
    destruct (Z.eqb_spec (m mod 2 * Dn + R) 0) as [E'|E'];
    destruct (Z.compare_spec (2 * R) Dn) as [C|C|C];
    destruct (Z.compare_spec (2 * (m mod 2 * Dn + R)) (2 * Dn)) as [C'|C'|C'];
    cbn [shr_record_of_loc]; rewrite shr_1_nonneg by assumption;
    destruct D as [D|D]; rewrite D in *; simpl; try reflexivity; lia.
Qed.

(** [p] shifts to the right. *)
Lemma iter_shr_1_loc (p : positive) : forall m R Dn : Z,
  0 <= m -> 0 <= R < Dn ->
  iter_pos shr_1 p (shr_record_of_loc m (loc R Dn)) =
  shr_record_of_loc (m / 2 ^ Z.pos p)
    (loc ((m mod 2 ^ Z.pos p) * Dn + R) (2 ^ Z.pos p * Dn)).
Proof.
  assert (Two : forall (a : Z) m R Dn, 0 < a -> 0 <= m -> 0 <= R < Dn ->
     0 <= m / a /\ 0 <= (m mod a) * Dn + R < a * Dn).
  { intros a m R Dn Ha Hm HR.
    assert (0 <= m mod a < a) by (apply Z.mod_pos_bound; lia).
    split; [apply Z.div_pos; lia | nia]. }
  induction p as [p IH|p IH|]; intros m R Dn Hm HR.
  - simpl iter_pos. rewrite shr_1_loc by assumption.
    assert (P : 0 < 2 ^ Z.pos p) by (apply Z.pow_pos_nonneg; lia).
    destruct (Two 2 m R Dn) as [A1 A2]; try lia.
    rewrite IH by assumption.
    destruct (Two (2 ^ Z.pos p) (m / 2) ((m mod 2) * Dn + R) (2 * Dn)) as [B1 B2]; try lia.
    rewrite IH by assumption.
    replace (2 ^ Z.pos p~1) with (2 * (2 ^ Z.pos p * 2 ^ Z.pos p))
      by (replace (Z.pos p~1) with (1 + (Z.pos p + Z.pos p)) by lia;
          rewrite !Z.pow_add_r by lia; reflexivity).
    set (a := 2 ^ Z.pos p) in *.
    f_equal; [|f_equal].
    + rewrite !Z.div_div by lia. f_equal. 
    + rewrite (Z.rem_mul_r m 2 (a * a)) by lia.
      rewrite (Z.rem_mul_r (m / 2) a a) by lia. lia.
    + lia.
  - simpl iter_pos.
    assert (P : 0 < 2 ^ Z.pos p) by (apply Z.pow_pos_nonneg; lia).
    rewrite IH by assumption.
    destruct (Two (2 ^ Z.pos p) m R Dn) as [B1 B2]; try lia.
    rewrite IH by assumption.
    replace (2 ^ Z.pos p~0) with (2 ^ Z.pos p * 2 ^ Z.pos p)
      by (replace (Z.pos p~0) with (Z.pos p + Z.pos p) by lia;
          rewrite Z.pow_add_r by lia; reflexivity).
    set (a := 2 ^ Z.pos p) in *.
    f_equal; [|f_equal].
    + rewrite !Z.div_div by lia. reflexivity.
    + rewrite (Z.rem_mul_r m a a) by lia. lia.
    + lia.
  - simpl iter_pos. rewrite shr_1_loc by assumption. reflexivity.
Qed.

Lemma fexp_64 (x : Z) : fexp 53 1024 x = Z.max (x - 53) (-1074).
Proof. reflexivity. Qed.

(** The first normalisation of [binary_round_aux]: shift to the right by
    [fexp (digits m + e) - e] when that is positive. *)
Lemma shr_fexp_loc (m e R Dn : Z) :
  0 <= m -> 0 <= R < Dn ->
  let k := Z.max 0 (fexp 53 1024 (Zdigits2 m + e) - e) in
  shr_fexp 53 1024 m e (loc R Dn) =
  (shr_record_of_loc (m / 2 ^ k) (loc ((m mod 2 ^ k) * Dn + R) (2 ^ k * Dn)), e + k).
Proof.
  intros Hm HR k. unfold shr_fexp, shr. subst k.
  destruct (fexp 53 1024 (Zdigits2 m + e) - e) as [|p|p] eqn:K.
  - simpl Z.max. rewrite Z.pow_0_r, Z.div_1_r, Z.mod_1_r, Z.add_0_r.
    f_equal. f_equal. f_equal; lia.
  - rewrite iter_shr_1_loc by assumption.
    replace (Z.max 0 (Z.pos p)) with (Z.pos p) by lia. reflexivity.
  - replace (Z.max 0 (Z.neg p)) with 0 by lia.
    rewrite Z.pow_0_r, Z.div_1_r, Z.mod_1_r, Z.add_0_r.
    f_equal. f_equal. f_equal; lia.
Qed.

(** Rounding to nearest moves the mantissa by at most one and lands within
    half a unit of the exact value. *)
Lemma round_nearest_even_loc (m R Dn : Z) :
  0 <= R < Dn ->
  let m1 := round_nearest_even m (loc R Dn) in
  m <= m1 <= m + 1 /\
  (2 * m1 - 1) * Dn <= 2 * (m * Dn + R) <= (2 * m1 + 1) * Dn.
Proof.
  intros HR. unfold round_nearest_even, loc.
  destruct (Z.eqb_spec R 0) as [E|E]; [split; nia|].
  destruct (Z.compare_spec (2 * R) Dn) as [C|C|C]; [|split; nia|split; nia].
  destruct (Z.even m); split; nia.
Qed.

(** A value whose mantissa has [53 + k] digits, in the normal range: the
    result of [binary_round_aux] is a normal number within half a unit in
    the last place of the exact value [(mx + R / Dn) * 2^ex]. *)
Lemma binary_round_aux_normal (mx ex R Dn k : Z) :
  0 <= k ->
  2 ^ (52 + k) <= mx < 2 ^ (53 + k) ->
  0 <= R < Dn ->
  -1074 <= ex + k -> ex + k + 1 <= 971 ->
  exists (m : positive) (e : Z),
    binary_round_aux 53 1024 false mx ex (loc R Dn) = S754_finite false m e /\
    2 ^ 52 <= Z.pos m < 2 ^ 53 /\
    (e = ex + k \/ e = ex + k + 1) /\
    (2 * Z.pos m - 1) * (2 ^ (e - ex) * Dn) <= 2 * (mx * Dn + R)
      <= (2 * Z.pos m + 1) * (2 ^ (e - ex) * Dn).
Proof.
  intros Hk Hmx HR Lo Hi.
  assert (A : 0 < 2 ^ k) by (apply Z.pow_pos_nonneg; lia).
  assert (P52 : 2 ^ (52 + k) = 2 ^ 52 * 2 ^ k) by (apply Z.pow_add_r; lia).
  assert (P53 : 2 ^ (53 + k) = 2 ^ 53 * 2 ^ k) by (apply Z.pow_add_r; lia).
  assert (Dg : Zdigits2 mx = 53 + k).
  { apply Zdigits2_eq; [lia|]. replace (53 + k - 1) with (52 + k) by lia. exact Hmx. }
  unfold binary_round_aux.
  rewrite shr_fexp_loc by (try assumption; nia).
  rewrite Dg, fexp_64.
  replace (Z.max 0 (Z.max (53 + k + ex - 53) (-1074) - ex)) with k by lia.
  rewrite shr_m_of_loc, loc_of_shr_record_of_loc.
  set (a := 2 ^ k) in *.
  set (m' := mx / a).
  set (R' := (mx mod a) * Dn + R).
  assert (D1 : mx = a * m' + mx mod a /\ 0 <= mx mod a < a).
  { unfold m'. split; [apply Z.div_mod; lia | apply Z.mod_pos_bound; lia]. }
  destruct D1 as [D1 D2].
  assert (M' : 2 ^ 52 <= m' < 2 ^ 53) by nia.
  assert (HR' : 0 <= R' < a * Dn) by (unfold R'; nia).
  assert (X : mx * Dn + R = m' * (a * Dn) + R') by (unfold R'; nia).
  destruct (round_nearest_even_loc m' R' (a * Dn) HR') as [B1 B2].
  set (m1 := round_nearest_even m' (loc R' (a * Dn))) in *.
  change loc_Exact with (loc 0 1).
  rewrite shr_fexp_loc by lia.
  rewrite fexp_64, shr_m_of_loc.
  destruct (Z.eq_dec m1 (2 ^ 53)) as [C|C].
  - (* the mantissa carried into a 54th digit *)
    assert (Dg1 : Zdigits2 m1 = 54) by (rewrite C; reflexivity).
    rewrite Dg1.
    replace (Z.max 0 (Z.max (54 + (ex + k) - 53) (-1074) - (ex + k))) with 1 by lia.
    rewrite C. change (2 ^ 53 / 2 ^ 1) with (Z.pos (2 ^ 52)).
    cbv iota beta.
    destruct (Z.leb_spec (ex + k + 1) (1024 - 53)); [|lia].
    exists (2 ^ 52)%positive, (ex + k + 1). split; [reflexivity|].
    split; [split; [reflexivity|reflexivity]|]. split; [right; reflexivity|].
    replace (ex + k + 1 - ex) with (k + 1) by lia.
    rewrite Z.pow_add_r by lia. fold a. change (2 ^ 1) with 2.
    rewrite X. rewrite C in B2. change (Z.pos (2 ^ 52)) with (2 ^ 52).
    change (2 ^ 53) with 9007199254740992 in *. change (2 ^ 52) with 4503599627370496 in *.
    nia.
  - assert (M1 : 2 ^ 52 <= m1 < 2 ^ 53) by lia.
    assert (Dg1 : Zdigits2 m1 = 53) by (apply Zdigits2_eq; [lia|exact M1]).
    rewrite Dg1.
    replace (Z.max 0 (Z.max (53 + (ex + k) - 53) (-1074) - (ex + k))) with 0 by lia.
    rewrite Z.pow_0_r, Z.div_1_r.
    destruct m1 as [|q|q] eqn:Em1; try (change (2 ^ 52) with 4503599627370496 in M1; lia).
    cbv iota beta. rewrite Z.add_0_r.
    destruct (Z.leb_spec (ex + k) (1024 - 53)); [|lia].
    exists q, (ex + k). split; [reflexivity|].
    split; [exact M1|]. split; [left; reflexivity|].
    replace (ex + k - ex) with k by lia. fold a. rewrite X. exact B2.
Qed.

(** *** Ints below [2^48] *)

(** The core of the division of two positive ints below [2^48]: a quotient
    of 53 or 54 digits and the position of the exact quotient above it. *)
Lemma SFdiv_core_binary_ints (n d : Z) :
  0 < n < 2 ^ 48 -> 0 < d < 2 ^ 48 ->
  let s := 53 + Zdigits2 d - Zdigits2 n in
  SFdiv_core_binary 53 1024 n 0 d 0 =
    ((n * 2 ^ s) / d, - s, loc ((n * 2 ^ s) mod d) d) /\
  6 <= s <= 100 /\
  2 ^ 52 <= (n * 2 ^ s) / d < 2 ^ 54.
Proof.
  intros Hn Hd s.
  pose proof (Zdigits2_bounds n (proj1 Hn)) as Bn.
  pose proof (Zdigits2_bounds d (proj1 Hd)) as Bd.
  assert (Dn : 1 <= Zdigits2 n <= 48).
  { split; [apply (Zdigits2_ge n 0); simpl; lia | apply Zdigits2_le; lia]. }
  assert (Dd : 1 <= Zdigits2 d <= 48).
  { split; [apply (Zdigits2_ge d 0); simpl; lia | apply Zdigits2_le; lia]. }
  assert (Hs : 6 <= s <= 100) by (unfold s; lia).
  split; [|split; [exact Hs|]].
  - unfold SFdiv_core_binary. rewrite fexp_64.
    replace (Z.min (Z.max (Zdigits2 n + 0 - (Zdigits2 d + 0) - 53) (-1074)) (0 - 0))
      with (- s) by (unfold s; lia).
    replace (0 - 0 - - s) with s by lia.
    destruct s as [|p|p] eqn:Es; try lia.
    rewrite Z.shiftl_mul_pow2 by lia.
    unfold Z.div, Z.modulo.
    destruct (Z.div_eucl (n * 2 ^ Z.pos p) d) as [q r] eqn:E.
    f_equal. apply new_location_loc.
    pose proof (Z_div_mod (n * 2 ^ Z.pos p) d) as M. rewrite E in M.
    apply M. lia.
  - set (a := 2 ^ (Zdigits2 n - 1)) in *.
    set (b := 2 ^ (Zdigits2 d - 1)) in *.
    assert (Pa : 2 ^ Zdigits2 n = 2 * a).
    { unfold a. replace (Zdigits2 n) with (1 + (Zdigits2 n - 1)) at 1 by lia.
      rewrite Z.pow_add_r by lia. reflexivity. }
    assert (Pb : 2 ^ Zdigits2 d = 2 * b).
    { unfold b. replace (Zdigits2 d) with (1 + (Zdigits2 d - 1)) at 1 by lia.
      rewrite Z.pow_add_r by lia. reflexivity. }
    assert (Ps : 2 ^ s * a = 2 ^ 53 * b).
    { unfold a, b. rewrite <- !Z.pow_add_r by lia. f_equal. unfold s. lia. }
    assert (S0 : 0 < 2 ^ s) by (apply Z.pow_pos_nonneg; lia).
    assert (A0 : 0 < a) by (apply Z.pow_pos_nonneg; lia).
    assert (B0 : 0 < b) by (apply Z.pow_pos_nonneg; lia).
    change (2 ^ 53) with 9007199254740992 in Ps.
    change (2 ^ 52) with 4503599627370496. change (2 ^ 54) with 18014398509481984.
    split.
    + apply Z.div_le_lower_bound; [lia|]. nia.
    + apply Z.div_lt_upper_bound; [lia|]. nia.
Qed.

(** [n / d] for two positive ints below [2^48]: a normal float within half
    a unit in the last place of the exact quotient. *)
Lemma truediv_normal (n d : Z) :
  0 < n < 2 ^ 48 -> 0 < d < 2 ^ 48 ->
  exists (m : positive) (e : Z),
    PyFloat.truediv n d = Some (S754_finite false m e) /\
    2 ^ 52 <= Z.pos m < 2 ^ 53 /\
    -100 <= e <= -4 /\
    (2 * Z.pos m - 1) * d <= 2 * (n * 2 ^ (- e)) <= (2 * Z.pos m + 1) * d.
Proof.
  intros Hn Hd.
  destruct (SFdiv_core_binary_ints n d Hn Hd) as (Core & Hs & Hq).
  set (s := 53 + Zdigits2 d - Zdigits2 n) in *.
  set (q := n * 2 ^ s / d) in *.
  set (r := (n * 2 ^ s) mod d) in *.
  assert (Hr : 0 <= r < d) by (apply Z.mod_pos_bound; lia).
  assert (Eq : n * 2 ^ s = q * d + r).
  { unfold q, r. rewrite (Z.mul_comm _ d). apply Z.div_mod. lia. }
  assert (K : exists k, 0 <= k <= 1 /\ 2 ^ (52 + k) <= q < 2 ^ (53 + k)).
  { destruct (Z.lt_ge_cases q (2 ^ 53)); [exists 0 | exists 1]; simpl; lia. }
  destruct K as (k & Hk & Hqk).
  destruct (binary_round_aux_normal q (- s) r d k) as (m & e & B & M & E & Bd);
    try lia.
  exists m, e.
  assert (T : PyFloat.truediv n d = Some (S754_finite false m e)).
  { unfold PyFloat.truediv. destruct (Z.eqb_spec d 0); [lia|].
    destruct n as [|pn|pn]; try lia. destruct d as [|pd|pd]; try lia.
    unfold PyFloat.of_int, SFdiv, PyFloat.prec, PyFloat.emax.
    rewrite Core. simpl xorb. rewrite B. reflexivity. }
  split; [exact T|]. split; [exact M|]. split; [lia|].
  set (c := 2 ^ (e - - s)) in *.
  assert (C0 : 0 < c) by (apply Z.pow_pos_nonneg; lia).
  assert (Pc : 2 ^ s = c * 2 ^ (- e)).
  { unfold c. rewrite <- Z.pow_add_r by lia. f_equal. lia. }
  rewrite <- Eq, Pc in Bd.
  set (P := 2 ^ (- e)) in *.
  split.
  - apply (Z.mul_le_mono_pos_l _ _ c C0). nia.
  - apply (Z.mul_le_mono_pos_l _ _ c C0). nia.
Qed.

(** [x * 10] for a normal float [x]: again a normal float within half a
    unit in the last place of the exact product, three or four binary
    places up. *)
Lemma mul_int_10_normal (m : positive) (e : Z) :
  2 ^ 52 <= Z.pos m < 2 ^ 53 -> -1000 <= e <= 900 ->
  exists (m2 : positive) (e2 : Z),
    PyFloat.mul_int (S754_finite false m e) 10 = S754_finite false m2 e2 /\
    2 ^ 52 <= Z.pos m2 < 2 ^ 53 /\
    (e2 = e + 3 \/ e2 = e + 4) /\
    (2 * Z.pos m2 - 1) * 2 ^ (e2 - e) <= 20 * Z.pos m <= (2 * Z.pos m2 + 1) * 2 ^ (e2 - e).
Proof.
  intros M E.
  change (2 ^ 52) with 4503599627370496 in *. change (2 ^ 53) with 9007199254740992 in *.
  assert (K : exists k, 3 <= k <= 4 /\ 2 ^ (52 + k) <= Z.pos (m * 10) < 2 ^ (53 + k)).
  { rewrite Pos2Z.inj_mul.
    destruct (Z.lt_ge_cases (Z.pos m * 10) (2 ^ 56)) as [L|L]; [exists 3 | exists 4];
      simpl Z.add; change (2 ^ 55) with 36028797018963968;
      change (2 ^ 56) with 72057594037927936 in *;
      change (2 ^ 57) with 144115188075855872; lia. }
  destruct K as (k & Hk & Hmk).
  destruct (binary_round_aux_normal (Z.pos (m * 10)) (e + 0) 0 1 k)
    as (m2 & e2 & B & M2 & E2 & Bd); try lia.
  change (2 ^ 52) with 4503599627370496 in *. change (2 ^ 53) with 9007199254740992 in *.
  exists m2, e2.
  split; [exact B|]. split; [exact M2|].
  rewrite Pos2Z.inj_mul in Bd, Hmk.
  assert (Ek : e2 - e = 3 \/ e2 - e = 4 \/ e2 - e = 5) by lia.
  replace (e2 - (e + 0)) with (e2 - e) in Bd by lia.
  destruct Ek as [Ek|[Ek|Ek]]; rewrite Ek in *.
  - split; [left; lia|]. change (2 ^ 3) with 8 in *. lia.
  - split; [right; lia|]. change (2 ^ 4) with 16 in *. lia.
  - exfalso. change (2 ^ 5) with 32 in *. lia.
Qed.

(** [int(x)] of a positive float with a non-positive exponent. *)
Lemma to_int_floor (m : positive) (e : Z) :
  e <= 0 ->
  PyFloat.to_int (S754_finite false m e) = Some (Z.pos m / 2 ^ (- e)).
Proof.
  intros He. unfold PyFloat.to_int. destruct e as [|p|p]; try lia.
  - simpl. rewrite Z.div_1_r. reflexivity.
  - rewrite Z.shiftr_div_pow2 by lia. reflexivity.
Qed.

(** The two error bounds, in integers: [m / P] is the rounded quotient
    [n / d], [m2 / Q] the rounded product with 10, [P = c * Q]. *)
Lemma tenths_lower (n d m P m2 Q c j : Z) :
  0 < n < 2 ^ 48 -> 0 < d < 2 ^ 48 ->
  2 ^ 52 <= m < 2 ^ 53 ->
  0 < Q -> P = c * Q -> c = 8 \/ c = 16 ->
  (2 * m - 1) * d <= 2 * (n * P) <= (2 * m + 1) * d ->
  (2 * m2 - 1) * c <= 20 * m <= (2 * m2 + 1) * c ->
  0 <= j <= 10 -> j * d + 1 <= 10 * n ->
  j * Q <= m2.
Proof.
  intros Hn Hd Hm HQ HP Hc Bd Bm Hj Hlt.
  change (2 ^ 48) with 281474976710656 in *.
  change (2 ^ 52) with 4503599627370496 in *.
  change (2 ^ 53) with 9007199254740992 in *.
  destruct (Z.le_gt_cases (j * Q) m2) as [G|G]; [exact G|exfalso].
  assert (A : 20 * m <= 2 * (j * P) - c).
  { rewrite HP. destruct Hc; subst c; nia. }
  assert (B : 20 * (n * P) <= (2 * (j * P) - c + 10) * d) by nia.
  assert (C : 2 * (j * P) * d + 2 * P <= 20 * (n * P)).
  { assert (0 < P) by (destruct Hc; subst c; lia). nia. }
  assert (D : 2 * P <= (10 - c) * d) by lia.
  assert (E : P <= d) by (destruct Hc; subst c; lia).
  assert (F : (2 * m - 1) * d <= 2 * n * d) by nia.
  assert (G' : 2 * m - 1 <= 2 * n) by nia.
  lia.
Qed.

Lemma tenths_upper (n d m P m2 Q c j : Z) :
  0 < n < 2 ^ 48 -> 0 < d < 2 ^ 48 ->
  2 ^ 52 <= m < 2 ^ 53 ->
  0 < Q -> P = c * Q -> c = 8 \/ c = 16 ->
  (2 * m - 1) * d <= 2 * (n * P) <= (2 * m + 1) * d ->
  (2 * m2 - 1) * c <= 20 * m <= (2 * m2 + 1) * c ->
  1 <= j <= 10 -> 10 * n + 1 <= j * d ->
  m2 < j * Q.
Proof.
  intros Hn Hd Hm HQ HP Hc Bd Bm Hj Hlt.
  change (2 ^ 48) with 281474976710656 in *.
  change (2 ^ 52) with 4503599627370496 in *.
  change (2 ^ 53) with 9007199254740992 in *.
  destruct (Z.lt_ge_cases m2 (j * Q)) as [G|G]; [exact G|exfalso].
  assert (P0 : 0 < P) by (destruct Hc; subst c; lia).
  assert (A : 2 * (j * P) - c <= 20 * m).
  { rewrite HP. destruct Hc; subst c; nia. }
  assert (B : (2 * (j * P) - c - 10) * d <= 20 * (n * P)).
  { assert (B1 : (2 * (j * P) - c) * d <= 20 * m * d)
      by (apply Z.mul_le_mono_nonneg_r; lia).
    lia. }
  assert (C : 20 * (n * P) <= 2 * (j * P) * d - 2 * P).
  { assert (C1 : (10 * n + 1) * P <= j * d * P)
      by (apply Z.mul_le_mono_nonneg_r; lia).
    lia. }
  assert (D : 2 * P <= (c + 10) * d) by lia.
  assert (E : P <= 13 * d) by (destruct Hc; subst c; lia).
  assert (N : n < d) by nia.
  assert (F : (2 * m - 1) * d < 2 * P * d).
  { assert (F1 : n * P <= (d - 1) * P) by (apply Z.mul_le_mono_nonneg_r; lia).
    lia. }
  assert (G' : 2 * m - 1 < 2 * P) by (apply (Z.mul_lt_mono_pos_r d); lia).
  lia.
Qed.

(** A power of two strictly between [2^(a-1)] and [2^(a+1)] is [2^a]. *)
Lemma pow2_sandwich (s a : Z) :
  0 <= s -> 2 ^ (a - 1) < 2 ^ s < 2 ^ (a + 1) -> s = a.
Proof.
  intros Hs [L U].
  assert (a - 1 < s) by (apply (Z.pow_lt_mono_r_iff 2); lia).
  assert (s < a + 1).
  { destruct (Z.lt_ge_cases (a + 1) 0) as [N|N].
    - rewrite (Z.pow_neg_r 2 (a + 1)) in U by lia.
      pose proof (Z.pow_nonneg 2 s). lia.
    - apply (Z.pow_lt_mono_r_iff 2); lia. }
  lia.
Qed.

(** [progress] once the quotient is known. *)
Lemma progress_eq (w : FloatingTimerWindow) (q : spec_float) :
  PyFloat.truediv (elapsed_seconds w) (total_seconds w) = Some q ->
  progress w =
    match PyFloat.to_int (PyFloat.mul_int q 10) with
    | None => None
    | Some p => Some (Z.min p 10)
    end.
Proof. intros H. unfold progress. rewrite H. reflexivity. Qed.

(** When [10 * n] is an exact multiple [j * d], the quotient is one of ten
    floats, and the product with 10 comes back to [j] exactly. *)
Ltac exact_tenth J HP a :=
  match type of J with
  | 10 * Z.pos ?m - 5 <= ?j * ?P <= _ =>
      match type of HP with
      | P = 2 ^ (- ?e) =>
          let S := fresh "S" in
          assert (S : - e = a)
            by (apply pow2_sandwich; [lia|]; rewrite <- HP;
                let v1 := eval vm_compute in (2 ^ (a - 1)) in
                let v2 := eval vm_compute in (2 ^ (a + 1)) in
                change (2 ^ (a - 1)) with v1; change (2 ^ (a + 1)) with v2; lia);
          rewrite S in HP;
          let va := eval vm_compute in (2 ^ a) in
          change (2 ^ a) with va in HP;
          let c := eval vm_compute in ((j * 2 ^ a + 5) / 10) in
          let Hm := fresh "Hm" in
          assert (Hm : Z.pos m = c) by lia;
          let He' := fresh "He" in
          assert (He' : e = - a) by lia;
          injection Hm as Hm; subst
      end
  end.

(** Below [2^48] the floating-point progress is the exact one:
    [min(floor(10 * elapsed / total), 10)]. *)
Lemma progress_floor (w : FloatingTimerWindow) :
  0 <= elapsed_seconds w < 2 ^ 48 ->
  0 < total_seconds w < 2 ^ 48 ->
  progress w = Some (Z.min (10 * elapsed_seconds w / total_seconds w) 10).
Proof.
  set (n := elapsed_seconds w). set (d := total_seconds w).
  intros Hn Hd.
  destruct (Z.eq_dec n 0) as [N0|N0].
  - (* nothing elapsed *)
    unfold progress. fold n d. rewrite N0.
    unfold PyFloat.truediv. destruct (Z.eqb_spec d 0); [lia|].
    destruct d as [|pd|pd]; try lia. reflexivity.
  - assert (Hn' : 0 < n < 2 ^ 48) by lia.
    destruct (truediv_normal n d Hn' Hd) as (m & e & T & M & He & B).
    set (f := 10 * n / d).
    assert (F : f * d <= 10 * n < (f + 1) * d).
    { unfold f. pose proof (Z.div_mod (10 * n) d). pose proof (Z.mod_pos_bound (10 * n) d).
      nia. }
    assert (F0 : 0 <= f) by (unfold f; apply Z.div_pos; lia).
    set (P := 2 ^ (- e)) in *.
    assert (P0 : 0 < P) by (apply Z.pow_pos_nonneg; lia).
    change (2 ^ 52) with 4503599627370496 in *.
    change (2 ^ 53) with 9007199254740992 in *.
    change (2 ^ 48) with 281474976710656 in *.
    assert (Cases : (f <= 10 /\ f * d = 10 * n) \/ Z.min f 10 * d + 1 <= 10 * n) by nia.
    destruct Cases as [[F10 Ex]|Nx].
    + (* ten times the quotient is the integer f <= 10 *)
      assert (J : (10 * Z.pos m - 5) <= f * P <= (10 * Z.pos m + 5)).
      { split; apply (Z.mul_le_mono_pos_r _ _ d); try lia; nia. }
      assert (HP : P = 2 ^ (- e)) by reflexivity.
      assert (Hf : f = 1 \/ f = 2 \/ f = 3 \/ f = 4 \/ f = 5 \/ f = 6 \/ f = 7 \/
                   f = 8 \/ f = 9 \/ f = 10) by nia.
      rewrite (progress_eq w _ T).
      clearbody f P. clear B.
      repeat (destruct Hf as [Hf|Hf]); subst f.
      * exact_tenth J HP 56. reflexivity.
      * exact_tenth J HP 55. reflexivity.
      * exact_tenth J HP 54. reflexivity.
      * exact_tenth J HP 54. reflexivity.
      * exact_tenth J HP 53. reflexivity.
      * exact_tenth J HP 53. reflexivity.
      * exact_tenth J HP 53. reflexivity.
      * exact_tenth J HP 53. reflexivity.
      * exact_tenth J HP 53. reflexivity.
      * exact_tenth J HP 52. reflexivity.
    + (* strictly between two tenths, or beyond the target *)
      destruct (mul_int_10_normal m e) as (m2 & e2 & Mu & M2 & E2 & Bm); try lia.
      rewrite (progress_eq w _ T), Mu, to_int_floor by lia.
      set (Q := 2 ^ (- e2)).
      set (c := 2 ^ (e2 - e)) in *.
      assert (Q0 : 0 < Q) by (apply Z.pow_pos_nonneg; lia).
      assert (Hc : c = 8 \/ c = 16).
      { unfold c. destruct E2 as [-> | ->]; [left|right].
        - replace (e + 3 - e) with 3 by lia. reflexivity.
        - replace (e + 4 - e) with 4 by lia. reflexivity. }
      assert (HP : P = c * Q).
      { unfold P, c, Q. rewrite <- Z.pow_add_r by lia. f_equal. lia. }
      assert (L : Z.min f 10 <= Z.pos m2 / Q).
      { apply Z.div_le_lower_bound; [lia|]. rewrite Z.mul_comm.
        apply (tenths_lower n d (Z.pos m) P (Z.pos m2) Q c); auto; lia. }
      f_equal.
      destruct (Z.le_gt_cases 10 f) as [F10|F10]; [lia|].
      assert (U : Z.pos m2 / Q < f + 1).
      { apply Z.div_lt_upper_bound; [lia|]. rewrite Z.mul_comm.
        apply (tenths_upper n d (Z.pos m) P (Z.pos m2) Q c); auto; lia. }
      lia.
Qed.

(** *** Ints of any size: no exception below the target *)

Lemma Zdigits2_shift (m k : Z) :
  0 <= m -> 0 <= k -> Zdigits2 (m / 2 ^ k) <= Z.max 0 (Zdigits2 m - k).
Proof.
  intros Hm Hk. destruct (Z.eq_dec m 0) as [->|N].
  - rewrite Z.div_0_l by (pose proof (Z.pow_pos_nonneg 2 k); lia). simpl. lia.
  - pose proof (Zdigits2_bounds m ltac:(lia)) as [_ B].
    assert (K : 0 < 2 ^ k) by (apply Z.pow_pos_nonneg; lia).
    destruct (Z.le_gt_cases k (Zdigits2 m)) as [L|L].
    + assert (m / 2 ^ k < 2 ^ (Zdigits2 m - k)).
      { apply Z.div_lt_upper_bound; [lia|]. rewrite <- Z.pow_add_r by lia.
        replace (k + (Zdigits2 m - k)) with (Zdigits2 m) by lia. exact B. }
      pose proof (Zdigits2_le (m / 2 ^ k) (Zdigits2 m - k)).
      assert (0 <= m / 2 ^ k) by (apply Z.div_pos; lia). lia.
    + rewrite Z.div_small; [simpl; lia|].
      split; [lia|]. apply Z.lt_le_trans with (2 ^ Zdigits2 m); [exact B|].
      apply Z.pow_le_mono_r; lia.
Qed.

Lemma Zdigits2_succ (m : Z) : 0 <= m -> Zdigits2 (m + 1) <= Zdigits2 m + 1.
Proof.
  intros Hm. pose proof (Zdigits2_nonneg m) as N.
  apply Zdigits2_le; [lia|lia|].
  rewrite Z.pow_add_r by lia. change (2 ^ 1) with 2.
  destruct (Z.eq_dec m 0) as [->|Z0]; [simpl; lia|].
  pose proof (Zdigits2_bounds m ltac:(lia)). lia.
Qed.

Lemma Zdigits2_mono (a b : Z) : 0 <= a <= b -> Zdigits2 a <= Zdigits2 b.
Proof.
  intros [Ha Hab]. destruct (Z.eq_dec b 0) as [->|Nb].
  - replace a with 0 by lia. lia.
  - pose proof (Zdigits2_bounds b ltac:(lia)) as [_ B].
    apply Zdigits2_le; [lia | apply Zdigits2_nonneg | lia].
Qed.

(** Whatever the size of its argument, [binary_round_aux] on a non-negative
    mantissa yields a zero or a finite number as long as the exponent stays
    below the overflow threshold. *)
Lemma binary_round_aux_finite (mx ex R Dn : Z) :
  0 <= mx -> 0 <= R < Dn ->
  let U := Z.max (Z.max ex (Zdigits2 mx + ex)) (-1074) in
  U <= 971 ->
  binary_round_aux 53 1024 false mx ex (loc R Dn) = S754_zero false \/
  exists (m : positive) (e : Z),
    binary_round_aux 53 1024 false mx ex (loc R Dn) = S754_finite false m e /\
    e <= U /\ Zdigits2 (Z.pos m) + e <= U + 1.
Proof.
  intros Hmx HR U HU.
  unfold binary_round_aux.
  rewrite shr_fexp_loc by assumption.
  rewrite fexp_64, shr_m_of_loc, loc_of_shr_record_of_loc.
  set (k := Z.max 0 (Z.max (Zdigits2 mx + ex - 53) (-1074) - ex)).
  assert (Hk : 0 <= k) by (unfold k; lia).
  assert (K0 : 0 < 2 ^ k) by (apply Z.pow_pos_nonneg; lia).
  set (m' := mx / 2 ^ k).
  assert (M0 : 0 <= m') by (apply Z.div_pos; lia).
  pose proof (Zdigits2_shift mx k Hmx Hk) as D'. fold m' in D'.
  assert (HR' : 0 <= (mx mod 2 ^ k) * Dn + R < 2 ^ k * Dn).
  { pose proof (Z.mod_pos_bound mx (2 ^ k) K0). nia. }
  destruct (round_nearest_even_loc m' _ _ HR') as [B1 _].
  set (m1 := round_nearest_even m' _) in *.
  assert (D1 : Zdigits2 m1 <= Zdigits2 m' + 1).
  { apply Z.le_trans with (Zdigits2 (m' + 1)); [apply Zdigits2_mono; lia|].
    apply Zdigits2_succ; lia. }
  change loc_Exact with (loc 0 1).
  rewrite shr_fexp_loc by lia.
  rewrite fexp_64, shr_m_of_loc.
  set (k2 := Z.max 0 (Z.max (Zdigits2 m1 + (ex + k) - 53) (-1074) - (ex + k))).
  assert (Hk2 : 0 <= k2) by (unfold k2; lia).
  pose proof (Zdigits2_shift m1 k2 ltac:(lia) Hk2) as D2.
  assert (M2 : 0 <= m1 / 2 ^ k2).
  { apply Z.div_pos; [lia | apply Z.pow_pos_nonneg; lia]. }
  pose proof (Zdigits2_nonneg mx) as N0.
  destruct (m1 / 2 ^ k2) as [|q|q] eqn:Eq; [left; reflexivity| |lia].
  right. cbv iota beta.
  assert (E'' : ex + k + k2 <= U) by (unfold k, k2, U in *; lia).
  destruct (Z.leb_spec (ex + k + k2) (1024 - 53)); [|lia].
  exists q, (ex + k + k2). split; [reflexivity|]. split; [exact E''|].
  unfold k, k2, U in *. lia.
Qed.

(** Below the target the quotient is less than one: the division yields a
    zero or a finite float of exponent at most 0. *)
Lemma truediv_below_one (n d : Z) :
  0 < n < d ->
  PyFloat.truediv n d = Some (S754_zero false) \/
  exists (m : positive) (e : Z),
    PyFloat.truediv n d = Some (S754_finite false m e) /\
    e <= 0 /\ Zdigits2 (Z.pos m) + e <= 1.
Proof.
  intros H.
  set (E' := Z.min (fexp 53 1024 (Zdigits2 n + 0 - (Zdigits2 d + 0))) (0 - 0)).
  assert (HE : E' <= 0) by (unfold E'; lia).
  assert (HE2 : -1074 <= E') by (unfold E'; rewrite fexp_64; lia).
  set (s := 0 - 0 - E').
  set (m' := match s with Z.pos _ => Z.shiftl n s | 0 => n | Z.neg _ => 0 end).
  assert (Hm' : m' = n * 2 ^ s).
  { unfold m'. destruct s as [|p|p] eqn:Es; [lia| |lia].
    apply Z.shiftl_mul_pow2. lia. }
  assert (S0 : 0 < 2 ^ s) by (apply Z.pow_pos_nonneg; unfold s; lia).
  assert (Core : SFdiv_core_binary 53 1024 n 0 d 0 = (m' / d, E', loc (m' mod d) d)).
  { unfold SFdiv_core_binary. fold E'. fold s. fold m'.
    unfold Z.div, Z.modulo.
    destruct (Z.div_eucl m' d) as [q r] eqn:E.
    f_equal. apply new_location_loc.
    pose proof (Z_div_mod m' d) as M. rewrite E in M. apply M. lia. }
  assert (Q0 : 0 <= m' / d) by (apply Z.div_pos; nia).
  assert (Q1 : m' / d < 2 ^ s).
  { apply Z.div_lt_upper_bound; [lia|]. rewrite Hm'. nia. }
  assert (Dq : Zdigits2 (m' / d) <= s).
  { apply Zdigits2_le; [exact Q0 | unfold s; lia | exact Q1]. }
  assert (Hr : 0 <= m' mod d < d) by (apply Z.mod_pos_bound; lia).
  pose proof (Zdigits2_nonneg (m' / d)) as Dq0.
  assert (T : PyFloat.truediv n d =
              match binary_round_aux 53 1024 false (m' / d) E' (loc (m' mod d) d) with
              | S754_infinity _ | S754_nan => None
              | q => Some q
              end).
  { unfold PyFloat.truediv. destruct (Z.eqb_spec d 0); [lia|].
    destruct n as [|pn|pn]; try lia. destruct d as [|pd|pd]; try lia.
    unfold PyFloat.of_int, SFdiv, PyFloat.prec, PyFloat.emax.
    rewrite Core. reflexivity. }
  destruct (binary_round_aux_finite (m' / d) E' (m' mod d) d Q0 Hr)
    as [Z|(m & e & B & He & Hd)]; [unfold s in *; lia| |].
  - left. rewrite T, Z. reflexivity.
  - right. exists m, e. rewrite T, B. split; [reflexivity|].
    unfold s in *. split; lia.
Qed.

(** The product with 10 of a float of magnitude below two. *)
Lemma mul_int_10_defined (m : positive) (e : Z) :
  e <= 0 -> Zdigits2 (Z.pos m) + e <= 1 ->
  exists p, PyFloat.to_int (PyFloat.mul_int (S754_finite false m e) 10) = Some p.
Proof.
  intros He Hd.
  unfold PyFloat.mul_int, PyFloat.of_int, SFmul, PyFloat.prec, PyFloat.emax.
  simpl xorb. change loc_Exact with (loc 0 1).
  assert (D10 : Zdigits2 (Z.pos (m * 10)) <= Zdigits2 (Z.pos m) + 4).
  { pose proof (Zdigits2_bounds (Z.pos m) ltac:(lia)) as [_ B].
    pose proof (Zdigits2_nonneg (Z.pos m)).
    apply Zdigits2_le; [lia|lia|].
    rewrite Pos2Z.inj_mul, Z.pow_add_r by lia. change (2 ^ 4) with 16. lia. }
  destruct (binary_round_aux_finite (Z.pos (m * 10)) (e + 0) 0 1)
    as [Z|(m2 & e2 & B & _ & _)]; try lia.
  - rewrite Z. eexists. reflexivity.
  - rewrite B. eexists. reflexivity.
Qed.

(** While time remains, [progress] raises nothing, however large the
    target. *)
Lemma progress_defined (w : FloatingTimerWindow) :
  0 <= elapsed_seconds w < total_seconds w ->
  exists p, progress w = Some p.
Proof.
  intros H. unfold progress.
  destruct (Z.eq_dec (elapsed_seconds w) 0) as [E0|E0].
  - rewrite E0. unfold PyFloat.truediv.
    destruct (Z.eqb_spec (total_seconds w) 0); [lia|].
    destruct (total_seconds w) as [|pd|pd]; try lia.
    eexists. reflexivity.
  - destruct (truediv_below_one (elapsed_seconds w) (total_seconds w))
      as [Z|(m & e & T & He & Hd)]; [lia| |].
    + rewrite Z. eexists. reflexivity.
    + rewrite T. destruct (mul_int_10_defined m e He Hd) as [p Hp].
      rewrite Hp. eexists. reflexivity.
Qed.

(* ================================================================== *)
(** ** C4: the progress bar *)
(* ================================================================== *)

Lemma count_filled_app (a b : string) :
  count_filled (a ++ b) = (count_filled a + count_filled b)%nat.
Proof.
  induction a as [|c a IH]; [reflexivity|].
  simpl. destruct (Ascii.eqb c "#"); rewrite IH; reflexivity.
Qed.

Lemma count_filled_filled (n : nat) :
  count_filled (repeat_string filled_glyph n) = n.
Proof. induction n as [|n IH]; [reflexivity|]. simpl. rewrite IH. reflexivity. Qed.

Lemma count_filled_empty (n : nat) :
  count_filled (repeat_string empty_glyph n) = O.
Proof. induction n as [|n IH]; [reflexivity|]. simpl. exact IH. Qed.

Lemma count_filled_render_bars (p : Z) :
  count_filled (render_bars p) = Z.to_nat p.
Proof.
  unfold render_bars, str_mul.
  rewrite count_filled_app, count_filled_filled, count_filled_empty. lia.
Qed.

(** C4, as the code has it. The bar is computed in floating point, as
    [min(int((elapsed_seconds / total_seconds) * 10), 10)]. For a timer whose
    total and elapsed seconds are below [2^48] the two roundings never reach
    across a tenth: [update_display] schedules the bar of
    [min(10, floor(10 * elapsed_seconds / total_seconds))] filled segments
    followed by the empty ones up to ten. *)
Theorem progress_bar_segments (w : FloatingTimerWindow) (seconds : Z) :
  is_timer w = true ->
  0 < total_seconds w < 2 ^ 48 ->
  0 <= elapsed_seconds w < 2 ^ 48 ->
  let filled := Z.min 10 (10 * elapsed_seconds w / total_seconds w) in
  update_display true w seconds =
    Some [AfterProgressLabel (str_mul "#" filled ++ str_mul "·" (10 - filled));
          AfterTimeLabel (format_time (Z.abs seconds))] /\
  count_filled (str_mul "#" filled ++ str_mul "·" (10 - filled)) = Z.to_nat filled /\
  0 <= filled <= 10.
Proof.
  intros T Ht He filled.
  assert (F0 : 0 <= 10 * elapsed_seconds w / total_seconds w)
    by (apply Z.div_pos; lia).
  repeat split; try (unfold filled; lia).
  - unfold update_display. simpl negb. cbv iota. rewrite T.
    rewrite (progress_floor w He Ht). rewrite Z.min_comm. reflexivity.
  - apply (count_filled_render_bars filled).
Qed.

(** The property at the two states the specification names: 450 s and 899 s
    of 900 s. *)
Lemma progress_bar_segments_witness :
  count_filled (str_mul "#" (Z.min 10 (10 * 450 / 900))
                ++ str_mul "·" (10 - Z.min 10 (10 * 450 / 900))) = 5%nat /\
  update_display true (mkWindow true 900 899 true false false None) 1 =
    Some [AfterProgressLabel "#########·"; AfterTimeLabel "00:00:01"].
Proof.
  split.
  - apply (progress_bar_segments (mkWindow true 900 450 true false false None) 450);
      [reflexivity | simpl; lia | simpl; lia].
  - apply (progress_bar_segments (mkWindow true 900 899 true false false None) 1);
      [reflexivity | simpl; lia | simpl; lia].
Defined.

(** A timer of [10^17] minutes, one second before half of it has elapsed:
    the quotient rounds to 0.5 and the bar shows five filled segments, where
    [min(10, floor(10 * elapsed_seconds / total_seconds))] is four. *)
Lemma progress_bar_rounds_up :
  0 < 10 ^ 17 * 60 /\ 0 <= 3 * 10 ^ 18 - 1 /\
  Z.min 10 (10 * (3 * 10 ^ 18 - 1) / (10 ^ 17 * 60)) = 4 /\
  update_display true
    (mkWindow true (10 ^ 17 * 60) (3 * 10 ^ 18 - 1) true false false None)
    (10 ^ 17 * 60 - (3 * 10 ^ 18 - 1)) =
    Some [AfterProgressLabel "#####·····"; AfterTimeLabel "833333333333333:20:01"] /\
  count_filled "#####·····" = 5%nat.
Proof.
  split; [reflexivity|]. split; [vm_compute; discriminate|].
  repeat split; vm_compute; reflexivity.
Qed.

(* ================================================================== *)
(** ** C2: a countdown left alone *)
(* ================================================================== *)

Lemma ticks_snoc (n : nat) : ticks (S n) = (ticks n ++ [ClockStep; ClockStep])%list.
Proof.
  induction n as [|n IH]; [reflexivity|].
  transitivity (ClockStep :: ClockStep :: ticks (S n)); [reflexivity|].
  rewrite IH at 1. reflexivity.
Qed.

Lemma run_tick (m : Machine) (n : nat) :
  run m (ticks (S n)) = tick (run m (ticks n)).
Proof. rewrite ticks_snoc, run_app. reflexivity. Qed.

(** One turn of the loop of a running timer with time remaining: the display
    is refreshed, a second is slept, [elapsed_seconds] goes up by one. *)
Lemma tick_advances (m : Machine) :
  clock m = AtLoopTop -> root_exists m = true ->
  running (window m) = true -> paused (window m) = false ->
  is_timer (window m) = true ->
  0 <= elapsed_seconds (window m) < total_seconds (window m) ->
  window (tick m) = advance (window m) /\
  clock (tick m) = AtLoopTop /\
  root_exists (tick m) = true.
Proof.
  intros C E R P T H.
  destruct (progress_defined (window m) H) as [p Hp].
  assert (S1 : exists effs, count_step m = set_clock (emit m effs) InSleepRunning).
  { unfold count_step. rewrite C, R, P, T. simpl.
    destruct (Z.leb_spec (total_seconds (window m) - elapsed_seconds (window m)) 0);
      [lia|].
    unfold display_then, update_display. rewrite E, T, Hp. simpl.
    eexists. reflexivity. }
  destruct S1 as [effs S1]. unfold tick. rewrite S1.
  unfold count_step. simpl. rewrite E. auto.
Qed.

(** The window of an [mins]-minute timer after [n] seconds. *)
Lemma after_ticks (mins : Z) (n : nat) :
  Z.of_nat n <= mins * 60 ->
  let m := run (start true mins) (ticks n) in
  window m = mkWindow true (mins * 60) (Z.of_nat n) true false false None /\
  clock m = AtLoopTop /\ root_exists m = true.
Proof.
  induction n as [|n IH]; intros H; [simpl; auto|].
  destruct IH as (W & C & E); [lia|].
  cbv zeta. rewrite run_tick.
  destruct (tick_advances (run (start true mins) (ticks n))) as (W' & C' & E');
    try (rewrite ?W; simpl; auto; lia).
  rewrite W', W. unfold advance. simpl.
  replace (Z.of_nat n + 1) with (Z.of_nat (S n)) by lia. auto.
Qed.

(** C2. A timer of [mins > 0] minutes has [D = 60 * mins] seconds to count.
    Left alone, the clock loop turns [D] times - one second slept and one
    second counted per turn - and is running with time remaining at each
    earlier turn; when it comes back to the top of the loop after the [D]-th
    second it finds nothing remaining and enters [finish_timer] at once: the
    engine is Finished(Natural) with [elapsed_seconds = D]. Once the box is
    acknowledged [run_timer] hands [json.dump] the history it loaded followed
    by one record, of type timer, for the objective given, dated now, with
    [D // 60] minutes - the full preset. *)
Theorem countdown_finishes_after_total_ticks (json_load : string -> Decoded)
    (file : option string) (now : Now) (obj : string) (mins : Z) :
  0 < mins ->
  let D := total_seconds (new_window true mins) in
  let at_top n := run (start true mins) (ticks n) in
  0 < D /\
  (forall n, Z.of_nat n < D ->
     engine_state (window (count_step (at_top n))) = Running /\
     elapsed_seconds (window (count_step (at_top n))) = Z.of_nat n /\
     clock (count_step (at_top n)) = InSleepRunning) /\
  elapsed_seconds (window (at_top (Z.to_nat D))) = D /\
  engine_state (window (count_step (at_top (Z.to_nat D)))) = FinishedNatural /\
  elapsed_seconds (window (count_step (at_top (Z.to_nat D)))) = D /\
  clock (count_step (at_top (Z.to_nat D))) = InShowInfo /\
  run_timer json_load file now obj mins (ticks (Z.to_nat D) ++ [ClockStep; Acknowledge]) =
    Saved (fst (load_history json_load file)
           ++ [mkSession (today now) (stamp now) obj "timer" (D / 60)])%list /\
  D / 60 = mins.
Proof.
  intros Hm D at_top.
  assert (HD : D = mins * 60) by reflexivity.
  split; [lia|]. split.
  - intros n Hn. unfold at_top.
    destruct (after_ticks mins n) as (W & C & E); [lia|].
    set (m := run (start true mins) (ticks n)) in *.
    destruct (progress_defined (window m)) as [p Hp]; [rewrite W; simpl; lia|].
    assert (S1 : exists effs, count_step m = set_clock (emit m effs) InSleepRunning).
    { unfold count_step. rewrite C, W. simpl.
      destruct (Z.leb_spec (mins * 60 - Z.of_nat n) 0); [lia|].
      unfold display_then, update_display. rewrite E, W. simpl.
      rewrite W in Hp. rewrite Hp. simpl. eexists. reflexivity. }
    destruct S1 as [effs S1]. rewrite S1. simpl. rewrite W. auto.
  - destruct (after_ticks mins (Z.to_nat D)) as (W & C & E); [lia|].
    unfold at_top.
    set (m := run (start true mins) (ticks (Z.to_nat D))) in *.
    rewrite Z2Nat.id in W by lia.
    assert (S1 : count_step m = finish_timer m).
    { unfold count_step. rewrite C, W. simpl.
      destruct (Z.leb_spec (mins * 60 - D) 0); [reflexivity|lia]. }
    rewrite S1. repeat split; try (rewrite W; reflexivity);
      try (unfold finish_timer; simpl; rewrite W; reflexivity);
      try (rewrite HD; apply Z.div_mul; lia).
    unfold run_timer. rewrite run_app. fold m.
    change (run m [ClockStep; Acknowledge])
      with (step (count_step m) Acknowledge).
    rewrite S1. unfold step, finish_timer. simpl clock. cbv iota.
    unfold destroy_window. simpl root_exists. rewrite E. simpl.
    rewrite W. simpl. unfold save_session. cbv zeta.
    rewrite HD, Z.div_mul by lia. reflexivity.
Qed.

(** The property on the 15-minute preset: 900 seconds, 15 minutes saved. *)
Lemma countdown_finishes_after_total_ticks_witness :
  engine_state
    (window (count_step (run (start true 15) (ticks (Z.to_nat 900))))) = FinishedNatural /\
  run_timer (fun _ => JSONDecodeError) None
    (mkNow (PyDate.mkDate 2026 2 16) "2026-02-16 10:00:00")
    "Estudar" 15 (ticks (Z.to_nat 900) ++ [ClockStep; Acknowledge]) =
    Saved [mkSession (PyDate.mkDate 2026 2 16) "2026-02-16 10:00:00" "Estudar" "timer" 15].
Proof.
  destruct (countdown_finishes_after_total_ticks (fun _ => JSONDecodeError) None
              (mkNow (PyDate.mkDate 2026 2 16) "2026-02-16 10:00:00") "Estudar" 15)
    as (_ & _ & _ & A & _ & _ & B & _); [lia|].
  split; [exact A | exact B].
Defined.

(* ================================================================== *)
(** ** Beyond the specification: the engine *)
(* ================================================================== *)

(** [update_display] never raises for a stopwatch. *)
Lemma update_display_stopwatch (r : bool) (w : FloatingTimerWindow) (s : Z) :
  is_timer w = false ->
  exists effs, update_display r w s = Some effs /\
               existsb divides effs = false /\
               destroyed_times effs = O.
Proof.
  intros T. unfold update_display. destruct r; simpl; rewrite ?T;
    eexists; repeat split; reflexivity.
Qed.

(** The running stopwatch at the top of its loop refreshes the label and
    goes to sleep. *)
Lemma count_step_stopwatch_top (m : Machine) :
  clock m = AtLoopTop -> running (window m) = true ->
  paused (window m) = false -> is_timer (window m) = false ->
  exists effs, count_step m = set_clock (emit m effs) InSleepRunning /\
               existsb divides effs = false.
Proof.
  intros C R P T.
  destruct (update_display_stopwatch (root_exists m) (window m)
              (elapsed_seconds (window m)) T) as (effs & U & D & _).
  exists effs. split; [|exact D].
  unfold count_step. rewrite C, R, P, T. simpl.
  unfold display_then. rewrite U. reflexivity.
Qed.

(** The machine of a stopwatch after [k] clock steps and no gesture. *)
Lemma stopwatch_after_steps (k : nat) :
  window (run (start false 0) (repeat ClockStep k)) =
    mkWindow false 0 (Z.of_nat k / 2) true false false None /\
  clock (run (start false 0) (repeat ClockStep k)) =
    (if Z.of_nat k mod 2 =? 0 then AtLoopTop else InSleepRunning) /\
  root_exists (run (start false 0) (repeat ClockStep k)) = true /\
  existsb divides (trace (run (start false 0) (repeat ClockStep k))) = false.
Proof.
  induction k as [|k IH]; [simpl; auto|].
  destruct IH as (W & C & E & D).
  replace (repeat ClockStep (S k)) with (repeat ClockStep k ++ [ClockStep])%list
    by (symmetry; apply (repeat_cons k ClockStep)).
  rewrite run_snoc.
  set (m := run (start false 0) (repeat ClockStep k)) in *.
  rewrite Nat2Z.inj_succ.
  destruct (Z.eqb_spec (Z.of_nat k mod 2) 0) as [Ev|Od].
  - (* at the top of the loop: refresh the label and go to sleep *)
    destruct (count_step_stopwatch_top m) as (effs & S1 & D1);
      try (rewrite W; reflexivity); [exact C|].
    simpl step. rewrite S1. simpl. rewrite W, E, existsb_app, D, D1.
    destruct (Z.eqb_spec (Z.succ (Z.of_nat k) mod 2) 0);
      [exfalso; Z.div_mod_to_equations; lia|].
    repeat split. f_equal. Z.div_mod_to_equations. lia.
  - (* waking up: one more second *)
    assert (S1 : step m ClockStep = set_clock (set_window m (advance (window m))) AtLoopTop).
    { simpl step. unfold count_step. rewrite C. reflexivity. }
    rewrite S1. simpl. rewrite W, E, D. unfold advance. simpl.
    destruct (Z.eqb_spec (Z.succ (Z.of_nat k) mod 2) 0);
      [|exfalso; Z.div_mod_to_equations; lia].
    repeat split. f_equal. Z.div_mod_to_equations. lia.
Qed.

(** X1. A stopwatch left alone. After [k] steps of the clock thread a
    stopwatch has counted [k // 2] seconds - one per full turn of the loop -
    and is still running with its window open, having raised nothing: it has
    no end of its own, and [run_stopwatch] has not returned. *)
Theorem stopwatch_never_ends_alone (json_load : string -> Decoded)
    (file : option string) (now : Now) (obj : string) (k : nat) :
  elapsed_seconds (window (run (start false 0) (repeat ClockStep k))) = Z.of_nat k / 2 /\
  engine_state (window (run (start false 0) (repeat ClockStep k))) = Running /\
  existsb divides (trace (run (start false 0) (repeat ClockStep k))) = false /\
  run_stopwatch json_load file now obj (repeat ClockStep k) = WindowOpen.
Proof.
  destruct (stopwatch_after_steps k) as (W & C & E & D).
  repeat split; try (rewrite W; reflexivity); [exact D|].
  unfold run_stopwatch. rewrite E. reflexivity.
Qed.


(** X2. One outcome per session. However the clock steps and the gestures
    fall, a window never ends both cancelled and with minutes to save; saved
    minutes mean the engine has stopped uncancelled; and once the window is
    gone the engine has stopped. *)
Theorem one_outcome_per_session (timer : bool) (mins : Z) (events : list Event) :
  (cancelled (window (run (start timer mins) events)) = true ->
   saved_minutes (window (run (start timer mins) events)) = None) /\
  (saved_minutes (window (run (start timer mins) events)) <> None ->
   cancelled (window (run (start timer mins) events)) = false /\
   running (window (run (start timer mins) events)) = false /\
   root_exists (run (start timer mins) events) = false) /\
  (root_exists (run (start timer mins) events) = false ->
   running (window (run (start timer mins) events)) = false).
Proof.
  assert (I : outcome_inv (run (start timer mins) events)).
  { apply run_outcome_inv. unfold outcome_inv. simpl.
    repeat split; intros; discriminate. }
  set (m := run (start timer mins) events) in *.
  destruct I as (A & B & C).
  destruct (root_exists m) eqn:E.
  - destruct (A eq_refl) as [A1 A2]. repeat split; intros; try congruence.
  - destruct (C eq_refl) as [C1 C2]. repeat split; intros; auto.
    destruct (cancelled (window m)) eqn:K; [|reflexivity].
    exfalso. apply H. apply C2. reflexivity.
Qed.

(** The property on a timer that ran out, was finalized while the box was
    up, and then saw a late close request. *)
Lemma one_outcome_per_session_witness :
  cancelled
    (window (run (start true 0) [ClockStep; PressFinalize; CloseWindow])) = false /\
  running
    (window (run (start true 0) [ClockStep; PressFinalize; CloseWindow])) = false.
Proof.
  destruct (one_outcome_per_session true 0 [ClockStep; PressFinalize; CloseWindow])
    as (_ & A & _).
  destruct A as (A1 & A2 & _); [vm_compute; discriminate|].
  split; [exact A1 | exact A2].
Defined.

Lemma step_saved_inv (m : Machine) (ev : Event) :
  saved_inv m -> saved_inv (step m ev).
Proof.
  unfold saved_inv. intros (A & B & C).
  assert (F : forall r, Some (finalize_minutes (window m)) = Some r ->
              0 <= r /\ (is_timer (window m) = true ->
                         r <= total_seconds (window m) / 60)).
  { intros r H. injection H as <-. unfold finalize_minutes.
    assert (0 <= elapsed_seconds (window m) / 60) by (apply Z.div_pos; lia).
    destruct (is_timer (window m)); [|split; [lia|discriminate]].
    assert (0 <= total_seconds (window m) / 60)
      by (apply Z.div_pos; [apply B; reflexivity|lia]).
    split; lia. }
  step_cases m ev; repeat split; intros; simpl in *;
    try (apply B; assumption); try lia;
    try (apply (C r); assumption);
    try (apply (F r); assumption);
    try (apply (C r); congruence);
    try (apply (F r); congruence);
    congruence.
Qed.

Lemma run_saved_inv (events : list Event) (m : Machine) :
  saved_inv m -> saved_inv (run m events).
Proof.
  revert m. induction events as [|ev rest IH]; intros m H; [exact H|].
  rewrite run_cons. apply IH, step_saved_inv, H.
Qed.

(** What [run_timer] writes when it saves. *)
Lemma timer_saves_one_record (json_load : string -> Decoded)
    (file : option string) (now : Now) (obj : string) (mins : Z)
    (events : list Event) (written : list Session) :
  0 <= mins ->
  run_timer json_load file now obj mins events = Saved written ->
  exists r, 0 <= r <= mins /\
    written = (fst (load_history json_load file)
               ++ [mkSession (today now) (stamp now) obj "timer" r])%list.
Proof.
  intros Hm. unfold run_timer.
  assert (I : saved_inv (run (start true mins) events)).
  { apply run_saved_inv. unfold saved_inv. simpl.
    repeat split; intros; try lia; discriminate. }
  destruct (run_mode events (start true mins)) as [T1 T2]. simpl in T1, T2.
  set (m := run (start true mins) events) in *.
  destruct I as (_ & _ & S).
  destruct (root_exists m); [discriminate|].
  destruct (was_cancelled (window m)); [discriminate|]. simpl.
  intros H. injection H as <-.
  destruct (saved_minutes (window m)) as [r|] eqn:Sv.
  - exists r. destruct (S r eq_refl) as [S1 S2]. split; [|reflexivity].
    specialize (S2 T1). rewrite T2, Z.div_mul in S2 by lia. lia.
  - exists mins. split; [lia|reflexivity].
Qed.

(** What [run_stopwatch] writes when it saves. *)
Lemma stopwatch_saves_one_record (json_load : string -> Decoded)
    (file : option string) (now : Now) (obj : string)
    (events : list Event) (written : list Session) :
  run_stopwatch json_load file now obj events = Saved written ->
  exists r, 0 <= r /\
    written = (fst (load_history json_load file)
               ++ [mkSession (today now) (stamp now) obj "cronometro" r])%list.
Proof.
  unfold run_stopwatch.
  assert (I : saved_inv (run (start false 0) events)).
  { apply run_saved_inv. unfold saved_inv. simpl.
    repeat split; intros; try lia; discriminate. }
  set (m := run (start false 0) events) in *.
  destruct I as (_ & _ & S).
  destruct (root_exists m); [discriminate|].
  destruct (saved_minutes (window m)) as [r|] eqn:Sv; [|discriminate].
  intros H. injection H as <-.
  exists r. destruct (S r eq_refl) as [S1 _]. split; [exact S1|reflexivity].
Qed.

(** X3. What a session writes. When [run_timer] saves, it writes the history
    it loaded followed by exactly one new record, of type timer, for the
    objective given, dated now, with between 0 and the preset number of
    minutes; [run_stopwatch] does the same with type cronometro and a
    non-negative number of minutes. Earlier records are neither changed nor
    reordered. *)
Theorem session_writes_one_record (json_load : string -> Decoded)
    (file : option string) (now : Now) (obj : string) (mins : Z)
    (events : list Event) (written : list Session) :
  (0 <= mins ->
   run_timer json_load file now obj mins events = Saved written ->
   exists r, 0 <= r <= mins /\
     written = (fst (load_history json_load file)
                ++ [mkSession (today now) (stamp now) obj "timer" r])%list) /\
  (run_stopwatch json_load file now obj events = Saved written ->
   exists r, 0 <= r /\
     written = (fst (load_history json_load file)
                ++ [mkSession (today now) (stamp now) obj "cronometro" r])%list).
Proof.
  split.
  - apply timer_saves_one_record.
  - apply stopwatch_saves_one_record.
Qed.

(** The property on a 25-minute timer finalized after 130 seconds, with an
    unreadable history file. *)
Lemma session_writes_one_record_witness :
  exists r, 0 <= r <= 25 /\
    save_session (fun _ => JSONDecodeError) (Some "[{")
      (mkNow (PyDate.mkDate 2026 2 16) "2026-02-16 10:00:00") "Estudar" "timer" 2 =
    (fst (load_history (fun _ => JSONDecodeError) (Some "[{"))
     ++ [mkSession (PyDate.mkDate 2026 2 16) "2026-02-16 10:00:00" "Estudar" "timer" r])%list.
Proof.
  destruct (session_writes_one_record (fun _ => JSONDecodeError) (Some "[{")
              (mkNow (PyDate.mkDate 2026 2 16) "2026-02-16 10:00:00") "Estudar" 25
              (ticks 130 ++ [PressFinalize])
              (save_session (fun _ => JSONDecodeError) (Some "[{")
                 (mkNow (PyDate.mkDate 2026 2 16) "2026-02-16 10:00:00")
                 "Estudar" "timer" 2)) as [A _].
  apply A; [lia | vm_compute; reflexivity].
Defined.

(** One event moves [elapsed_seconds] up by at most one, and only a step of
    the clock thread moves it at all; it never sets [running] again. *)
Lemma step_elapsed (m : Machine) (ev : Event) :
  elapsed_seconds (window m) <= elapsed_seconds (window (step m ev))
    <= elapsed_seconds (window m) + Z.of_nat (clock_steps [ev]) /\
  (running (window m) = false -> running (window (step m ev)) = false).
Proof.
  step_cases m ev; unfold clock_steps; simpl; split; try lia; auto; congruence.
Qed.

(** X4. The clock only counts up. Over any schedule [elapsed_seconds] never
    decreases and grows by at most the number of clock steps in it - no
    gesture changes it - and an engine that has stopped never runs again. *)
Theorem elapsed_only_counts_up (m : Machine) (events : list Event) :
  elapsed_seconds (window m) <= elapsed_seconds (window (run m events))
    <= elapsed_seconds (window m) + Z.of_nat (clock_steps events) /\
  (running (window m) = false -> running (window (run m events)) = false).
Proof.
  revert m. induction events as [|ev rest IH]; intros m.
  - unfold clock_steps. simpl. split; [lia|auto].
  - rewrite run_cons. destruct (IH (step m ev)) as [A B].
    destruct (step_elapsed m ev) as [C D].
    assert (L : clock_steps (ev :: rest) = (clock_steps [ev] + clock_steps rest)%nat).
    { unfold clock_steps. simpl. destruct ev; reflexivity. }
    rewrite L. split; [lia|auto].
Qed.

(** The property on a timer closed by the user while a clock step was still
    to come. *)
Lemma elapsed_only_counts_up_witness :
  running
    (window (run (run (start true 25) [ClockStep; CloseWindow])
               [ClockStep; PressPause; ClockStep])) = false.
Proof.
  destruct (elapsed_only_counts_up (run (start true 25) [ClockStep; CloseWindow])
              [ClockStep; PressPause; ClockStep]) as [_ A].
  apply A. reflexivity.
Defined.

Lemma destroyed_times_app (a b : list Effect) :
  destroyed_times (a ++ b) = (destroyed_times a + destroyed_times b)%nat.
Proof. unfold destroyed_times. rewrite filter_app, length_app. reflexivity. Qed.

(** [update_display] destroys nothing. *)
Lemma display_then_destroyed (m : Machine) (s : Z) (pc : ClockPc) :
  destroyed_times (trace (display_then m s pc)) = destroyed_times (trace m).
Proof.
  unfold display_then, update_display.
  destruct (root_exists m); simpl;
    [destruct (is_timer (window m)); [destruct (progress (window m))|]|];
    simpl; rewrite destroyed_times_app; unfold destroyed_times; simpl; lia.
Qed.

Lemma destroy_window_destroy_inv (m : Machine) :
  destroy_inv m -> destroy_inv (destroy_window m).
Proof.
  unfold destroy_inv, destroy_window. intros H.
  destruct (root_exists m) eqn:E; simpl; [|rewrite E; exact H].
  rewrite destroyed_times_app, H. reflexivity.
Qed.

Lemma finish_timer_destroy_inv (m : Machine) :
  destroy_inv m -> destroy_inv (finish_timer m).
Proof.
  unfold destroy_inv, finish_timer. intros H. simpl.
  rewrite destroyed_times_app, H.
  destruct (root_exists m), (is_timer (window m)); reflexivity.
Qed.

Lemma display_then_destroy_inv (m : Machine) (s : Z) (pc : ClockPc) :
  destroy_inv m -> destroy_inv (display_then m s pc).
Proof.
  unfold destroy_inv. rewrite display_then_destroyed, display_then_root. auto.
Qed.

Lemma step_destroy_inv (m : Machine) (ev : Event) :
  destroy_inv m -> destroy_inv (step m ev).
Proof.
  intros H. destruct ev; simpl.
  - unfold count_step.
    destruct (clock m); try exact H.
    destruct (negb (running (window m))); [exact H|].
    destruct (negb (paused (window m))).
    + destruct (is_timer (window m));
        [destruct (_ <=? 0); [apply finish_timer_destroy_inv|
                              apply display_then_destroy_inv]
        |apply display_then_destroy_inv]; exact H.
    + destruct (is_timer (window m)); apply display_then_destroy_inv; exact H.
  - destruct (root_exists m); exact H.
  - destruct (root_exists m); [|exact H].
    apply destroy_window_destroy_inv. exact H.
  - destruct (root_exists m); [|exact H].
    apply destroy_window_destroy_inv. exact H.
  - destruct (clock m); try exact H.
    apply (destroy_window_destroy_inv m H).
Qed.

(** X5. The window goes once. Over any schedule the window is destroyed at
    most once, it exists exactly as long as that has not happened, and the
    clock thread never does it by itself: after any number of clock steps
    with no gesture and no acknowledgement the window is still there and
    neither [run_timer] nor [run_stopwatch] has returned. *)
Theorem window_destroyed_at_most_once (json_load : string -> Decoded)
    (file : option string) (now : Now) (obj : string)
    (timer : bool) (mins : Z) (events : list Event) (k : nat) :
  (destroyed_times (trace (run (start timer mins) events)) <= 1)%nat /\
  (destroyed_times (trace (run (start timer mins) events)) =
   if root_exists (run (start timer mins) events) then 0 else 1)%nat /\
  run_timer json_load file now obj mins (repeat ClockStep k) = WindowOpen /\
  run_stopwatch json_load file now obj (repeat ClockStep k) = WindowOpen.
Proof.
  assert (I : destroy_inv (run (start timer mins) events)).
  { generalize (start timer mins) (eq_refl : destroy_inv (start timer mins)).
    induction events as [|ev rest IH]; intros m H; [exact H|].
    rewrite run_cons. apply IH, step_destroy_inv, H. }
  unfold destroy_inv in I. repeat split.
  - rewrite I. destruct (root_exists _); lia.
  - exact I.
  - unfold run_timer. rewrite count_steps_root. reflexivity.
  - unfold run_stopwatch. rewrite count_steps_root. reflexivity.
Qed.

(** X6. A timer with nothing to count, paused before its first test. In the
    paused branch [count] calls [update_display] without looking at the time
    remaining; with [total_seconds = 0] the division raises. The clock
    thread is gone from then on: the window stays open and still reads as
    paused, and no schedule of clock steps, pause presses and
    acknowledgements ever advances [elapsed_seconds] or finishes the
    countdown. *)
Theorem zero_total_paused_raises (m : Machine) (events : list Event) :
  is_timer (window m) = true -> total_seconds (window m) = 0 ->
  running (window m) = true -> paused (window m) = true ->
  clock m = AtLoopTop -> root_exists m = true ->
  Forall (fun ev => ev = ClockStep \/ ev = PressPause \/ ev = Acknowledge) events ->
  update_display true (window m) (total_seconds (window m) - elapsed_seconds (window m))
    = None /\
  trace (count_step m) = (trace m ++ [ThreadRaised])%list /\
  clock (count_step m) = ThreadDone /\
  window (count_step m) = window m /\
  clock (run (count_step m) events) = ThreadDone /\
  running (window (run (count_step m) events)) = true /\
  root_exists (run (count_step m) events) = true /\
  elapsed_seconds (window (run (count_step m) events)) = elapsed_seconds (window m).
Proof.
  intros T Z R P C E F.
  assert (U : update_display true (window m)
                (total_seconds (window m) - elapsed_seconds (window m)) = None).
  { unfold update_display. simpl. rewrite T. unfold progress, PyFloat.truediv.
    rewrite Z. reflexivity. }
  assert (S1 : count_step m = set_clock (emit m [ThreadRaised]) ThreadDone).
  { unfold count_step. rewrite C, R, P, T. simpl.
    unfold display_then. rewrite E, U. reflexivity. }
  split; [exact U|]. rewrite S1. simpl.
  repeat split.
  all: set (m1 := set_clock (emit m [ThreadRaised]) ThreadDone).
  all: assert (G : clock (run m1 events) = ThreadDone /\
                   running (window (run m1 events)) = true /\
                   root_exists (run m1 events) = true /\
                   elapsed_seconds (window (run m1 events)) = elapsed_seconds (window m)).
  all: try (assert (G0 : clock m1 = ThreadDone /\ running (window m1) = true /\
                         root_exists m1 = true /\
                         elapsed_seconds (window m1) = elapsed_seconds (window m))
              by (unfold m1; simpl; auto);
            clearbody m1; revert m1 G0;
            induction F as [|ev rest Hev _ IH]; intros m1 G0; [exact G0|];
            rewrite run_cons; apply IH;
            destruct G0 as (G1 & G2 & G3 & G4);
            destruct Hev as [-> | [-> | ->]]; simpl;
            [ unfold count_step; rewrite G1; auto
            | rewrite G3; simpl; auto
            | rewrite G1; auto ]).
  all: destruct G as (G1 & G2 & G3 & G4); assumption.
Qed.

(** The property on a timer built with the default [total_minutes = 0] and
    paused before the clock thread's first test. *)
Lemma zero_total_paused_raises_witness :
  clock (run (count_step (run (start true 0) [PressPause]))
           [PressPause; ClockStep; ClockStep; Acknowledge]) = ThreadDone /\
  elapsed_seconds
    (window (run (count_step (run (start true 0) [PressPause]))
               [PressPause; ClockStep; ClockStep; Acknowledge])) = 0.
Proof.
  destruct (zero_total_paused_raises (run (start true 0) [PressPause])
              [PressPause; ClockStep; ClockStep; Acknowledge])
    as (_ & _ & _ & _ & A & _ & _ & B); try reflexivity.
  - repeat (apply Forall_cons; [intuition congruence|]). apply Forall_nil.
  - split; [exact A | exact B].
Defined.

(* ================================================================== *)
(** ** Beyond the specification: a timer with something to count *)
(* ================================================================== *)

(** A quotient of two equal ints is the float 1.0, whatever their size. *)
Lemma truediv_self (n : Z) :
  0 < n -> PyFloat.truediv n n = Some (S754_finite false 4503599627370496 (-52)).
Proof.
  intros H. unfold PyFloat.truediv. destruct (Z.eqb_spec n 0); [lia|].
  destruct n as [|p|p]; try lia.
  unfold PyFloat.of_int, SFdiv, PyFloat.prec, PyFloat.emax.
  assert (Core : SFdiv_core_binary 53 1024 (Z.pos p) 0 (Z.pos p) 0 =
                 (2 ^ 53, -53, loc_Exact)).
  { unfold SFdiv_core_binary.
    replace (Zdigits2 (Z.pos p) + 0 - (Zdigits2 (Z.pos p) + 0)) with 0 by lia.
    change (Z.min (fexp 53 1024 0) (0 - 0)) with (-53).
    change (0 - 0 - -53) with 53. cbv iota beta.
    rewrite Z.shiftl_mul_pow2 by lia.
    unfold Z.div_eucl at 1.
    pose proof (Z_div_mod (Z.pos p * 2 ^ 53) (Z.pos p) ltac:(lia)) as M.
    pose proof (Z.div_mul (2 ^ 53) (Z.pos p) ltac:(lia)) as Q.
    pose proof (Z.mod_mul (2 ^ 53) (Z.pos p) ltac:(lia)) as R.
    rewrite Z.mul_comm in Q, R. unfold Z.div, Z.modulo in Q, R.
    fold (Z.div_eucl (Z.pos p * 2 ^ 53) (Z.pos p)).
    destruct (Z.div_eucl (Z.pos p * 2 ^ 53) (Z.pos p)) as [q r].
    subst q r. f_equal.
    unfold new_location. destruct (Z.even (Z.pos p)); reflexivity. }
  rewrite Core. vm_compute. reflexivity.
Qed.

(** With a positive target and [elapsed_seconds] within it, [progress]
    raises nothing, however large the target. *)
Lemma progress_defined_upto (w : FloatingTimerWindow) :
  0 < total_seconds w -> 0 <= elapsed_seconds w <= total_seconds w ->
  exists p, progress w = Some p.
Proof.
  intros T E. destruct (Z.eq_dec (elapsed_seconds w) (total_seconds w)) as [Q|Q].
  - unfold progress. rewrite Q, truediv_self by lia. eexists. vm_compute. reflexivity.
  - apply progress_defined. lia.
Qed.

Lemma in_emit (m : Machine) (effs : list Effect) (e : Effect) :
  In e (trace (emit m effs)) <-> In e (trace m) \/ In e effs.
Proof. unfold emit. simpl. apply in_app_iff. Qed.

(** [update_display] on such a timer. *)
Lemma display_then_quiet (m : Machine) (s : Z) (pc : ClockPc) :
  is_timer (window m) = true ->
  0 < total_seconds (window m) ->
  0 <= elapsed_seconds (window m) <= total_seconds (window m) ->
  ~ In ThreadRaised (trace m) ->
  clock (display_then m s pc) = pc /\ ~ In ThreadRaised (trace (display_then m s pc)).
Proof.
  intros T P E N. unfold display_then, update_display.
  destruct (root_exists m); simpl.
  - rewrite T. destruct (progress_defined_upto (window m) P E) as [p ->].
    split; [reflexivity|]. simpl. rewrite in_app_iff. simpl.
    intros [H|[H|[H|[]]]]; [auto|discriminate|discriminate].
  - split; [reflexivity|]. rewrite app_nil_r. exact N.
Qed.

Lemma step_quiet_inv (m : Machine) (ev : Event) :
  timer_inv m -> quiet_inv m -> quiet_inv (step m ev).
Proof.
  intros [B _] (T & P & N & D).
  destruct (step_mode m ev) as [M1 M2].
  unfold quiet_inv. rewrite M1, M2. split; [exact T|]. split; [exact P|].
  assert (Q : forall s pc,
            clock (display_then m s pc) = pc /\
            ~ In ThreadRaised (trace (display_then m s pc)))
    by (intros; apply display_then_quiet; assumption).
  step_cases m ev;
    repeat match goal with
           | |- context [display_then m ?s ?pc] =>
               let C := fresh "C" in let R := fresh "R" in
               destruct (Q s pc) as [C R]; rewrite ?C;
               generalize dependent (display_then m s pc); intros
           end;
    (split;
     [ try assumption; unfold destroy_window; simpl; rewrite ?in_app_iff; simpl;
       try (destruct (root_exists m)); simpl; rewrite ?in_app_iff; simpl;
       intuition discriminate
     | try rewrite !destroy_window_clock; simpl;
       intros [X|X]; try discriminate; try reflexivity; try congruence;
       try (apply D; auto; fail) ]).
  all: try (apply D; rewrite <- X; auto).
Qed.

Lemma run_quiet_inv (events : list Event) (m : Machine) :
  timer_inv m -> quiet_inv m -> quiet_inv (run m events).
Proof.
  revert m. induction events as [|ev rest IH]; intros m I Q; [exact Q|].
  rewrite run_cons. apply IH.
  - apply step_timer_inv; [apply Q | exact I].
  - apply step_quiet_inv; assumption.
Qed.

(** X7. A timer with something to count never loses its clock. For a timer
    of at least one minute - which is all the menus can start - and
    whatever the user does, however large the target, the clock thread
    raises no exception, and it has left its loop only when the engine has
    stopped: the countdown cannot be left hanging. *)
Theorem timer_with_time_never_raises (mins : Z) (events : list Event) :
  1 <= mins ->
  ~ In ThreadRaised (trace (run (start true mins) events)) /\
  (clock (run (start true mins) events) = ThreadDone ->
   running (window (run (start true mins) events)) = false).
Proof.
  intros H.
  assert (Q : quiet_inv (run (start true mins) events)).
  { apply run_quiet_inv.
    - split; simpl; [lia | discriminate].
    - unfold quiet_inv. simpl. repeat split; try lia; auto.
      intros [X|X]; discriminate. }
  destruct Q as (_ & _ & N & D). split; [exact N|]. intros C. apply D. auto.
Qed.

(** The property on a one-minute timer paused on its last second. *)
Lemma timer_with_time_never_raises_witness :
  ~ In ThreadRaised
      (trace (run (start true 1)
                (ticks 59 ++ [ClockStep; PressPause; ClockStep; ClockStep; ClockStep]))) /\
  (clock (run (start true 1)
            (ticks 59 ++ [ClockStep; PressPause; ClockStep; ClockStep; ClockStep])) =
     ThreadDone ->
   running
     (window (run (start true 1)
                (ticks 59 ++ [ClockStep; PressPause; ClockStep; ClockStep; ClockStep]))) =
     false).
Proof.
  apply (timer_with_time_never_raises 1
           (ticks 59 ++ [ClockStep; PressPause; ClockStep; ClockStep; ClockStep])).
  lia.
Defined.

(* ================================================================== *)
(** ** Beyond the specification: what the window shows *)
(* ================================================================== *)

(** One turn of the loop of a running timer below [2^48] seconds: the two
    labels it schedules. *)
Lemma tick_trace (m : Machine) :
  clock m = AtLoopTop -> root_exists m = true ->
  running (window m) = true -> paused (window m) = false ->
  is_timer (window m) = true ->
  0 <= elapsed_seconds (window m) < total_seconds (window m) ->
  total_seconds (window m) < 2 ^ 48 ->
  trace (tick m) =
  (trace m ++
   [AfterProgressLabel
      (render_bars (10 * elapsed_seconds (window m) / total_seconds (window m)));
    AfterTimeLabel (format_time (total_seconds (window m) - elapsed_seconds (window m)))])%list.
Proof.
  intros C E R P T H B.
  assert (Hp : progress (window m) =
               Some (10 * elapsed_seconds (window m) / total_seconds (window m))).
  { rewrite progress_floor by lia. f_equal. apply Z.min_l.
    assert (10 * elapsed_seconds (window m) / total_seconds (window m) < 10)
      by (apply Z.div_lt_upper_bound; lia).
    lia. }
  unfold tick.
  assert (S1 : count_step m =
               set_clock
                 (emit m
                    [AfterProgressLabel
                       (render_bars
                          (10 * elapsed_seconds (window m) / total_seconds (window m)));
                     AfterTimeLabel
                       (format_time (total_seconds (window m) - elapsed_seconds (window m)))])
                 InSleepRunning).
  { unfold count_step. rewrite C, R, P, T. cbn [negb].
    destruct (Z.leb_spec (total_seconds (window m) - elapsed_seconds (window m)) 0);
      [lia|].
    unfold display_then, update_display. rewrite E, T, Hp. cbn [negb].
    rewrite Z.abs_eq by lia. reflexivity. }
  rewrite S1. reflexivity.
Qed.

(** X8. What a countdown shows. Left alone, a timer of [mins] minutes - a
    target [D] below [2^48] seconds - schedules two labels per second and
    nothing else: in second [j] the bar with [floor(10 * j / D)] segments
    filled and the time [D - j] still to go. *)
Theorem countdown_shows_each_second (mins : Z) (n : nat) :
  0 < mins -> mins * 60 < 2 ^ 48 -> Z.of_nat n <= mins * 60 ->
  trace (run (start true mins) (ticks n)) =
  flat_map (fun j => [AfterProgressLabel (render_bars (10 * j / (mins * 60)));
                      AfterTimeLabel (format_time (mins * 60 - j))])
           (map Z.of_nat (seq 0 n)).
Proof.
  intros Hm Hb. induction n as [|n IH]; intros Hn; [reflexivity|].
  destruct (after_ticks mins n) as (W & C & E); [lia|].
  rewrite run_tick, tick_trace; try (rewrite ?W; simpl; auto; lia).
  rewrite IH by lia. rewrite W. cbn [elapsed_seconds total_seconds].
  rewrite seq_S, map_app, flat_map_app. reflexivity.
Qed.

(** The property on the first three seconds of the 15-minute preset. *)
Lemma countdown_shows_each_second_witness :
  trace (run (start true 15) (ticks 3)) =
  [AfterProgressLabel "··········"; AfterTimeLabel "00:15:00";
   AfterProgressLabel "··········"; AfterTimeLabel "00:14:59";
   AfterProgressLabel "··········"; AfterTimeLabel "00:14:58"].
Proof.
  rewrite (countdown_shows_each_second 15 3); [|lia|vm_compute; reflexivity|lia].
  vm_compute. reflexivity.
Defined.

(* ================================================================== *)
(** ** Beyond the specification: the progress bar *)
(* ================================================================== *)

(** X10. The bar fills in order. For totals and elapsed times below [2^48]
    the number of filled segments never goes down as time passes, it is 0
    exactly while less than a tenth of the target has elapsed, and it is 10
    exactly from the moment the target is reached. *)
Theorem progress_fills_in_order (total e1 e2 : Z) :
  0 < total < 2 ^ 48 -> 0 <= e1 <= e2 -> e2 < 2 ^ 48 ->
  exists p1 p2,
    progress (mkWindow true total e1 true false false None) = Some p1 /\
    progress (mkWindow true total e2 true false false None) = Some p2 /\
    0 <= p1 <= p2 /\ p2 <= 10 /\
    (p1 = 0 <-> 10 * e1 < total) /\
    (p2 = 10 <-> total <= e2).
Proof.
  intros Ht He1 He2.
  exists (Z.min (10 * e1 / total) 10), (Z.min (10 * e2 / total) 10).
  split; [apply (progress_floor (mkWindow true total e1 true false false None));
          simpl; lia|].
  split; [apply (progress_floor (mkWindow true total e2 true false false None));
          simpl; lia|].
  assert (Q1 : 0 <= 10 * e1 / total) by (apply Z.div_pos; lia).
  assert (M : 10 * e1 / total <= 10 * e2 / total) by (apply Z.div_le_mono; lia).
  split; [lia|]. split; [lia|]. split.
  - split; intros H.
    + assert (10 * e1 / total = 0) by lia.
      apply Z.div_small_iff in H0; lia.
    + rewrite Z.div_small by lia. reflexivity.
  - split; intros H.
    + assert (10 <= 10 * e2 / total) by lia.
      destruct (Z.lt_ge_cases e2 total) as [L|L]; [|exact L].
      assert (10 * e2 / total < 10) by (apply Z.div_lt_upper_bound; lia). lia.
    + assert (10 <= 10 * e2 / total) by (apply Z.div_le_lower_bound; lia). lia.
Qed.

(** The property on the 15-minute preset at 89 s and at 900 s. *)
Lemma progress_fills_in_order_witness :
  exists p1 p2,
    progress (mkWindow true 900 89 true false false None) = Some p1 /\
    progress (mkWindow true 900 900 true false false None) = Some p2 /\
    0 <= p1 <= p2 /\ p2 <= 10 /\
    (p1 = 0 <-> 10 * 89 < 900) /\
    (p2 = 10 <-> 900 <= 900).
Proof. apply (progress_fills_in_order 900 89 900); simpl; lia. Defined.

(* ================================================================== *)
(** ** Beyond the specification: the time label *)
(* ================================================================== *)

(** The two-digit fields, checked one by one. *)
Lemma fmt_02d_table :
  forallb (fun k => let s := fmt_02d (Z.of_nat k) in
                    Nat.eqb (String.length s) 2 && (two_digits s =? Z.of_nat k))
          (seq 0 100) = true.
Proof. vm_compute. reflexivity. Qed.

Lemma fmt_02d_two (n : Z) :
  0 <= n < 100 ->
  exists a b, fmt_02d n = String a (String b EmptyString) /\
              10 * digit_value a + digit_value b = n.
Proof.
  intros H. pose proof fmt_02d_table as T.
  rewrite forallb_forall in T. specialize (T (Z.to_nat n)).
  rewrite Z2Nat.id in T by lia.
  assert (I : In (Z.to_nat n) (seq 0 100)) by (apply in_seq; lia).
  apply T in I. cbv zeta in I. apply andb_true_iff in I. destruct I as [L V].
  apply Nat.eqb_eq in L. apply Z.eqb_eq in V.
  destruct (fmt_02d n) as [|a [|b [|c r]]]; try discriminate.
  exists a, b. split; [reflexivity|exact V].
Qed.

(** A label reads back as the seconds it was made from. *)
Lemma seconds_of_label_format_time (s : Z) :
  0 <= s < 360000 ->
  String.length (format_time s) = 8%nat /\
  get 2 (format_time s) = Some ":"%char /\
  get 5 (format_time s) = Some ":"%char /\
  seconds_of_label (format_time s) = s.
Proof.
  intros H. unfold format_time.
  destruct (fmt_02d_two (s / 3600)) as (a1 & b1 & E1 & V1);
    [Z.div_mod_to_equations; lia|].
  destruct (fmt_02d_two (s mod 3600 / 60)) as (a2 & b2 & E2 & V2);
    [Z.div_mod_to_equations; lia|].
  destruct (fmt_02d_two (s mod 60)) as (a3 & b3 & E3 & V3);
    [Z.div_mod_to_equations; lia|].
  rewrite E1, E2, E3. split; [reflexivity|]. split; [reflexivity|].
  split; [reflexivity|].
  unfold seconds_of_label. cbn [append substring two_digits].
  rewrite V1, V2, V3. Z.div_mod_to_equations. lia.
Qed.

(** X11. The time label. Below a hundred hours [format_time] gives exactly
    eight characters with the colons in third and sixth place, and two
    different numbers of seconds never give the same label. *)
Theorem format_time_is_unambiguous (s1 s2 : Z) :
  0 <= s1 < 360000 -> 0 <= s2 < 360000 ->
  String.length (format_time s1) = 8%nat /\
  get 2 (format_time s1) = Some ":"%char /\
  get 5 (format_time s1) = Some ":"%char /\
  (format_time s1 = format_time s2 -> s1 = s2).
Proof.
  intros H1 H2.
  destruct (seconds_of_label_format_time s1 H1) as (L & C1 & C2 & R1).
  destruct (seconds_of_label_format_time s2 H2) as (_ & _ & _ & R2).
  repeat split; auto. intros E. rewrite <- R1, <- R2, E. reflexivity.
Qed.

(** The property on the labels of 01:02:05 and of one second later. *)
Lemma format_time_is_unambiguous_witness :
  String.length (format_time 3725) = 8%nat /\
  (format_time 3725 = format_time 3726 -> 3725 = 3726).
Proof.
  destruct (format_time_is_unambiguous 3725 3726) as (A & _ & _ & B); try lia.
  split; [exact A | exact B].
Defined.

(* ================================================================== *)
(** ** Beyond the specification: dragging *)
(* ================================================================== *)

Lemma last_nonempty_default (l : list Pointer) (a d d' : Pointer) :
  last (a :: l) d = last (a :: l) d'.
Proof.
  revert a. induction l as [|b l IH]; intros a; [reflexivity|].
  change (last (b :: l) d = last (b :: l) d'). apply IH.
Qed.

(** Motion with the button held keeps the window under the pointer. *)
Lemma drag_through_follows (path : list Pointer) : forall d : DragState,
  dragging d = true ->
  dragging (drag_through d path) = true /\
  winfo_x (drag_through d path) - drag_start_x (drag_through d path)
    = winfo_x d - drag_start_x d /\
  winfo_y (drag_through d path) - drag_start_y (drag_through d path)
    = winfo_y d - drag_start_y d /\
  drag_start_x (drag_through d path) = x_root (last path (mkPointer (drag_start_x d) (drag_start_y d))) /\
  drag_start_y (drag_through d path) = y_root (last path (mkPointer (drag_start_x d) (drag_start_y d))).
Proof.
  induction path as [|p rest IH]; intros d D; [simpl; auto|].
  unfold drag_through in *. cbn [fold_left].
  assert (D1 : dragging (on_title_drag d p) = true)
    by (unfold on_title_drag; rewrite D; reflexivity).
  destruct (IH (on_title_drag d p) D1) as (A & B & C & E & F).
  split; [exact A|].
  assert (L : last (p :: rest) (mkPointer (drag_start_x d) (drag_start_y d)) =
              last rest (mkPointer (drag_start_x (on_title_drag d p))
                                   (drag_start_y (on_title_drag d p)))).
  { unfold on_title_drag. rewrite D. simpl drag_start_x. simpl drag_start_y.
    destruct rest as [|b rest]; [destruct p; reflexivity|].
    change (last (b :: rest) (mkPointer (drag_start_x d) (drag_start_y d)) =
            last (b :: rest) (mkPointer (x_root p) (y_root p))).
    apply last_nonempty_default. }
  rewrite L, B, C, E, F. unfold on_title_drag. rewrite D. simpl.
  repeat split; lia.
Qed.

(** X12. Dragging moves the window with the pointer. After a press on the
    title and any run of motion events, the window has moved by exactly the
    displacement of the pointer between the press and the last motion,
    however the motion was split into events; motion without a press, or
    after the release, moves nothing. *)
Theorem drag_moves_with_pointer (d : DragState) (press : Pointer)
    (path : list Pointer) (release late : Pointer) :
  winfo_x (drag_through (on_title_press d press) path)
    = winfo_x d + (x_root (last path press) - x_root press) /\
  winfo_y (drag_through (on_title_press d press) path)
    = winfo_y d + (y_root (last path press) - y_root press) /\
  on_title_drag
    (on_title_release (drag_through (on_title_press d press) path) release) late
    = on_title_release (drag_through (on_title_press d press) path) release /\
  (dragging d = false -> on_title_drag d late = d).
Proof.
  destruct (drag_through_follows path (on_title_press d press) eq_refl)
    as (_ & B & C & E & F).
  simpl in B, C, E, F.
  assert (P : mkPointer (x_root press) (y_root press) = press) by (destruct press; reflexivity).
  rewrite P in E, F.
  repeat split; try lia.
  intros D. unfold on_title_drag. rewrite D. reflexivity.
Qed.

(** The property on a drag from (100, 20) over three motion events to
    (130, 60), and a stray motion after the release. *)
Lemma drag_moves_with_pointer_witness :
  winfo_x (drag_through (on_title_press (mkDrag false 0 0 1750 810) (mkPointer 100 20))
             [mkPointer 110 25; mkPointer 90 40; mkPointer 130 60]) = 1780 /\
  winfo_y (drag_through (on_title_press (mkDrag false 0 0 1750 810) (mkPointer 100 20))
             [mkPointer 110 25; mkPointer 90 40; mkPointer 130 60]) = 850 /\
  on_title_drag
    (on_title_release
       (drag_through (on_title_press (mkDrag false 0 0 1750 810) (mkPointer 100 20))
          [mkPointer 110 25; mkPointer 90 40; mkPointer 130 60])
       (mkPointer 130 60))
    (mkPointer 400 400)
  = on_title_release
      (drag_through (on_title_press (mkDrag false 0 0 1750 810) (mkPointer 100 20))
         [mkPointer 110 25; mkPointer 90 40; mkPointer 130 60])
      (mkPointer 130 60) /\
  on_title_drag (mkDrag false 0 0 1750 810) (mkPointer 400 400)
    = mkDrag false 0 0 1750 810.
Proof.
  destruct (drag_moves_with_pointer (mkDrag false 0 0 1750 810) (mkPointer 100 20)
              [mkPointer 110 25; mkPointer 90 40; mkPointer 130 60]
              (mkPointer 130 60) (mkPointer 400 400)) as (A & B & C & D).
  split; [rewrite A; reflexivity|].
  split; [rewrite B; reflexivity|].
  split; [exact C|].
  apply D. reflexivity.
Defined.

(* ================================================================== *)
(** ** Beyond the specification: the history store *)
(* ================================================================== *)

Lemma aggregate_by_date_app (a b : list Session) (d : PyDate.date) :
  aggregate_by_date (a ++ b) d = aggregate_by_date a d + aggregate_by_date b d.
Proof. induction a as [|s a IH]; simpl; [reflexivity|]. rewrite IH. lia. Qed.

Lemma aggregate_by_week_app (a b : list Session) (ws we : PyDate.date) :
  aggregate_by_week (a ++ b) ws we = aggregate_by_week a ws we + aggregate_by_week b ws we.
Proof. induction a as [|s a IH]; simpl; [reflexivity|]. rewrite IH. lia. Qed.

Lemma aggregate_by_month_app (a b : list Session) (y m : Z) :
  aggregate_by_month (a ++ b) y m = aggregate_by_month a y m + aggregate_by_month b y m.
Proof. induction a as [|s a IH]; simpl; [reflexivity|]. rewrite IH. lia. Qed.

Lemma eqb_date_refl (d : PyDate.date) : PyDate.eqb d d = true.
Proof. unfold PyDate.eqb. rewrite !Z.eqb_refl. reflexivity. Qed.

Lemma eqb_date_eq (a b : PyDate.date) : PyDate.eqb a b = true <-> a = b.
Proof.
  split; [|intros ->; apply eqb_date_refl].
  unfold PyDate.eqb. destruct a, b. simpl. intros H.
  apply andb_true_iff in H. destruct H as [H H3].
  apply andb_true_iff in H. destruct H as [H1 H2].
  apply Z.eqb_eq in H1, H2, H3. congruence.
Qed.

(** X13. A save shows up in the day total. What [save_session] hands to
    [json.dump] has one record more than the history it loaded; the total
    [aggregate_by_date] finds in it for today is the old total plus the
    minutes saved, and the total of every other day is the old one. *)
Theorem save_adds_minutes_to_today (json_load : string -> Decoded)
    (file : option string) (now : Now) (obj session_type : string) (mins : Z)
    (d : PyDate.date) :
  List.length (save_session json_load file now obj session_type mins) =
    S (List.length (fst (load_history json_load file))) /\
  aggregate_by_date (save_session json_load file now obj session_type mins) (today now) =
    aggregate_by_date (fst (load_history json_load file)) (today now) + mins /\
  (d <> today now ->
   aggregate_by_date (save_session json_load file now obj session_type mins) d =
     aggregate_by_date (fst (load_history json_load file)) d).
Proof.
  unfold save_session. cbv zeta. rewrite !aggregate_by_date_app. simpl.
  rewrite eqb_date_refl. repeat split.
  - rewrite length_app. simpl. lia.
  - lia.
  - intros N. destruct (PyDate.eqb (today now) d) eqn:E; [|lia].
    apply eqb_date_eq in E. congruence.
Qed.

(** The property on a save of 25 minutes, read on the day before. *)
Lemma save_adds_minutes_to_today_witness :
  aggregate_by_date
    (save_session (fun _ => JSONDecodeError) None
       (mkNow (PyDate.mkDate 2026 2 16) "2026-02-16 10:00:00") "Estudar" "timer" 25)
    (PyDate.mkDate 2026 2 15) = 0.
Proof.
  destruct (save_adds_minutes_to_today (fun _ => JSONDecodeError) None
              (mkNow (PyDate.mkDate 2026 2 16) "2026-02-16 10:00:00")
              "Estudar" "timer" 25 (PyDate.mkDate 2026 2 15)) as (_ & _ & A).
  rewrite A; [reflexivity | discriminate].
Defined.

(** X14. A save over a file that cannot be read. When the history file holds
    something [json.load] rejects, [save_session] still writes, and what it
    writes is the new record alone: the next successful write replaces the
    unreadable content. *)
Theorem save_over_unreadable_file_starts_anew (json_load : string -> Decoded)
    (text : string) (now : Now) (obj session_type : string) (mins : Z) :
  (forall history, json_load text <> Parsed history) ->
  save_session json_load (Some text) now obj session_type mins =
    [mkSession (today now) (stamp now) obj session_type mins].
Proof.
  intros H. unfold save_session, load_history.
  destruct (json_load text) as [history| |e] eqn:E; try reflexivity.
  exfalso. apply (H history). reflexivity.
Qed.

(** The property on a file cut off in the middle of a record. *)
Lemma save_over_unreadable_file_starts_anew_witness :
  save_session (fun _ => JSONDecodeError) (Some "[{")
    (mkNow (PyDate.mkDate 2026 2 16) "2026-02-16 10:00:00") "Estudar" "timer" 25 =
  [mkSession (PyDate.mkDate 2026 2 16) "2026-02-16 10:00:00" "Estudar" "timer" 25].
Proof.
  apply (save_over_unreadable_file_starts_anew (fun _ => JSONDecodeError) "[{").
  intros history. discriminate.
Defined.

(** Several saves in a row, from a file whose content is known. *)
Lemma file_after_saves_loads (json_load : string -> Decoded)
    (json_dump : list Session -> string) (savings : list Saving) :
  forall (file : option string),
  (forall k, (1 <= k <= List.length savings)%nat ->
     json_load (json_dump (fst (load_history json_load file)
                           ++ map session_of (firstn k savings))%list) =
     Parsed (fst (load_history json_load file) ++ map session_of (firstn k savings))%list) ->
  fst (load_history json_load (file_after_saves json_load json_dump file savings)) =
  (fst (load_history json_load file) ++ map session_of savings)%list.
Proof.
  induction savings as [|s rest IH]; intros file H.
  - simpl. rewrite app_nil_r. reflexivity.
  - unfold file_after_saves in *. cbn [fold_left].
    assert (L : fst (load_history json_load (file_after_save json_load json_dump file s)) =
                (fst (load_history json_load file) ++ [session_of s])%list).
    { unfold file_after_save. cbn [load_history].
      unfold save_session. cbv zeta.
      specialize (H 1%nat). cbn [firstn map] in H.
      unfold session_of in *. rewrite H; [reflexivity|]. simpl. lia. }
    rewrite IH.
    + rewrite L. rewrite <- app_assoc. reflexivity.
    + intros k Hk. rewrite L. rewrite <- !app_assoc.
      apply (H (S k)). simpl. lia.
Qed.

(** X15. Saves accumulate. If [json.load] reads back each content that
    [json.dump] wrote, then after any number of [save_session] calls
    [load_history] returns the history the file held before the first of
    them, followed by one record per call, in the order of the calls. *)
Theorem saves_accumulate_in_order (json_load : string -> Decoded)
    (json_dump : list Session -> string) (file : option string)
    (savings : list Saving) :
  (forall k, (1 <= k <= List.length savings)%nat ->
     json_load (json_dump (fst (load_history json_load file)
                           ++ map session_of (firstn k savings))%list) =
     Parsed (fst (load_history json_load file) ++ map session_of (firstn k savings))%list) ->
  fst (load_history json_load (file_after_saves json_load json_dump file savings)) =
    (fst (load_history json_load file) ++ map session_of savings)%list /\
  (forall d,
     aggregate_by_date
       (fst (load_history json_load (file_after_saves json_load json_dump file savings))) d =
     aggregate_by_date (fst (load_history json_load file)) d
     + aggregate_by_date (map session_of savings) d).
Proof.
  intros H. pose proof (file_after_saves_loads json_load json_dump savings file H) as L.
  split; [exact L|]. intros d. rewrite L. apply aggregate_by_date_app.
Qed.

(** The property on two saves into a missing file, with a codec that writes
    one character per record. *)
Lemma saves_accumulate_in_order_witness :
  fst (load_history
         (fun text => Parsed (firstn (String.length text)
            [mkSession (PyDate.mkDate 2026 2 16) "2026-02-16 10:00:00" "Estudar" "timer" 25;
             mkSession (PyDate.mkDate 2026 2 16) "2026-02-16 11:00:00" "Outros" "cronometro" 7]))
         (file_after_saves
            (fun text => Parsed (firstn (String.length text)
               [mkSession (PyDate.mkDate 2026 2 16) "2026-02-16 10:00:00" "Estudar" "timer" 25;
                mkSession (PyDate.mkDate 2026 2 16) "2026-02-16 11:00:00" "Outros" "cronometro" 7]))
            (fun history => repeat_string "x" (List.length history))
            None
            [mkSaving (mkNow (PyDate.mkDate 2026 2 16) "2026-02-16 10:00:00") "Estudar" "timer" 25;
             mkSaving (mkNow (PyDate.mkDate 2026 2 16) "2026-02-16 11:00:00") "Outros" "cronometro" 7])) =
  [mkSession (PyDate.mkDate 2026 2 16) "2026-02-16 10:00:00" "Estudar" "timer" 25;
   mkSession (PyDate.mkDate 2026 2 16) "2026-02-16 11:00:00" "Outros" "cronometro" 7].
Proof.
  apply (saves_accumulate_in_order
           (fun text => Parsed (firstn (String.length text)
              [mkSession (PyDate.mkDate 2026 2 16) "2026-02-16 10:00:00" "Estudar" "timer" 25;
               mkSession (PyDate.mkDate 2026 2 16) "2026-02-16 11:00:00" "Outros" "cronometro" 7]))
           (fun history => repeat_string "x" (List.length history))
           None
           [mkSaving (mkNow (PyDate.mkDate 2026 2 16) "2026-02-16 10:00:00") "Estudar" "timer" 25;
            mkSaving (mkNow (PyDate.mkDate 2026 2 16) "2026-02-16 11:00:00") "Outros" "cronometro" 7]).
  intros k Hk. simpl in Hk.
  destruct k as [|[|[|k]]]; try lia; reflexivity.
Defined.

(** X16. The totals do not depend on the order of the file. Reordering the
    records of the history changes none of the totals the three aggregations
    compute. *)
Theorem totals_ignore_record_order (h h' : list Session) :
  Permutation h h' ->
  (forall d, aggregate_by_date h d = aggregate_by_date h' d) /\
  (forall ws we, aggregate_by_week h ws we = aggregate_by_week h' ws we) /\
  (forall y m, aggregate_by_month h y m = aggregate_by_month h' y m).
Proof.
  intros P. induction P as [|s a b _ (I1 & I2 & I3)|s t a|a b c _ (I1 & I2 & I3) _ (J1 & J2 & J3)].
  - repeat split.
  - repeat split; intros; simpl; rewrite ?I1, ?I2, ?I3; reflexivity.
  - repeat split; intros; simpl; lia.
  - repeat split; intros; rewrite ?I1, ?I2, ?I3; auto.
Qed.

(** The property on two records swapped. *)
Lemma totals_ignore_record_order_witness :
  aggregate_by_date
    [mkSession (PyDate.mkDate 2026 2 16) "2026-02-16 10:00:00" "Estudar" "timer" 25;
     mkSession (PyDate.mkDate 2026 2 15) "2026-02-15 11:00:00" "Outros" "cronometro" 7]
    (PyDate.mkDate 2026 2 16) =
  aggregate_by_date
    [mkSession (PyDate.mkDate 2026 2 15) "2026-02-15 11:00:00" "Outros" "cronometro" 7;
     mkSession (PyDate.mkDate 2026 2 16) "2026-02-16 10:00:00" "Estudar" "timer" 25]
    (PyDate.mkDate 2026 2 16).
Proof.
  apply (totals_ignore_record_order
           [mkSession (PyDate.mkDate 2026 2 16) "2026-02-16 10:00:00" "Estudar" "timer" 25;
            mkSession (PyDate.mkDate 2026 2 15) "2026-02-15 11:00:00" "Outros" "cronometro" 7]
           [mkSession (PyDate.mkDate 2026 2 15) "2026-02-15 11:00:00" "Outros" "cronometro" 7;
            mkSession (PyDate.mkDate 2026 2 16) "2026-02-16 10:00:00" "Estudar" "timer" 25]).
  apply perm_swap.
Defined.

(* ================================================================== *)
(** ** Beyond the specification: the console *)
(* ================================================================== *)

(** An answer of [get_int_input] is the first acceptable line. *)
Lemma get_int_input_answered (int_of_string : string -> option Z)
    (min_val max_val : option Z) (keys : list Key) :
  forall (printed : list Complaint) (v : Z) (rest : list Key),
  get_int_input int_of_string min_val max_val keys = (printed, Answered v rest) ->
  below_min min_val v = false /\ above_max max_val v = false /\
  exists (rejected : list string) (line : string),
    keys = (map Typed rejected ++ Typed line :: rest)%list /\
    int_of_string line = Some v /\
    List.length printed = List.length rejected /\
    Forall (fun l => forall u, int_of_string l = Some u ->
                     below_min min_val u || above_max max_val u = true) rejected.
Proof.
  induction keys as [|k keys IH]; intros printed v rest H; [discriminate|].
  cbn [get_int_input] in H. destruct k as [line|]; [|discriminate].
  destruct (int_of_string line) as [value|] eqn:P.
  - destruct (below_min min_val value) eqn:Lo.
    + destruct (get_int_input int_of_string min_val max_val keys) as [pr r] eqn:G.
      injection H as <- ->.
      destruct (IH pr v rest eq_refl) as (A & B & rej & l & E & Pl & Len & F).
      split; [exact A|]. split; [exact B|].
      exists (line :: rej), l. repeat split; simpl; try congruence.
      constructor; [|exact F]. intros u Hu. rewrite P in Hu. injection Hu as <-.
      rewrite Lo. reflexivity.
    + destruct (above_max max_val value) eqn:Hi.
      * destruct (get_int_input int_of_string min_val max_val keys) as [pr r] eqn:G.
        injection H as <- ->.
        destruct (IH pr v rest eq_refl) as (A & B & rej & l & E & Pl & Len & F).
        split; [exact A|]. split; [exact B|].
        exists (line :: rej), l. repeat split; simpl; try congruence.
        constructor; [|exact F]. intros u Hu. rewrite P in Hu. injection Hu as <-.
        rewrite Hi. apply orb_true_r.
      * injection H as <- <- <-.
        split; [exact Lo|]. split; [exact Hi|].
        exists [], line. repeat split; auto.
  - destruct (get_int_input int_of_string min_val max_val keys) as [pr r] eqn:G.
    injection H as <- ->.
    destruct (IH pr v rest eq_refl) as (A & B & rej & l & E & Pl & Len & F).
    split; [exact A|]. split; [exact B|].
    exists (line :: rej), l. repeat split; simpl; try congruence.
    constructor; [|exact F]. intros u Hu. congruence.
Qed.

(** Rejected lines first, then an acceptable one: the prompt answers. *)
Lemma get_int_input_answers (int_of_string : string -> option Z)
    (min_val max_val : option Z) (rejected : list string) (line : string)
    (v : Z) (rest : list Key) :
  Forall (fun l => forall u, int_of_string l = Some u ->
                   below_min min_val u || above_max max_val u = true) rejected ->
  int_of_string line = Some v ->
  below_min min_val v = false -> above_max max_val v = false ->
  exists printed,
    get_int_input int_of_string min_val max_val
      (map Typed rejected ++ Typed line :: rest)%list = (printed, Answered v rest) /\
    List.length printed = List.length rejected.
Proof.
  intros F P Lo Hi. induction F as [|l rej Hl _ (pr & G & Len)].
  - exists []. simpl. rewrite P, Lo, Hi. split; reflexivity.
  - cbn [map app get_int_input]. rewrite G.
    destruct (int_of_string l) as [u|] eqn:Pu.
    + specialize (Hl u eq_refl). destruct (below_min min_val u).
      * eexists. split; [reflexivity|]. simpl. congruence.
      * simpl in Hl. rewrite Hl. eexists. split; [reflexivity|]. simpl. congruence.
    + eexists. split; [reflexivity|]. simpl. congruence.
Qed.

(** X17. The integer prompt. [get_int_input] answers [v] and leaves [rest]
    unread exactly when the keys read so far are lines it rejects - not a
    number, or a number outside the bounds - followed by a line that is the
    number [v] within the bounds; it prints one complaint per rejected line.
    So an answer always respects [min_val] and [max_val]. *)
Theorem get_int_input_returns_first_acceptable (int_of_string : string -> option Z)
    (min_val max_val : option Z) (keys : list Key) (v : Z) (rest : list Key) :
  (exists printed,
     get_int_input int_of_string min_val max_val keys = (printed, Answered v rest)) <->
  (exists (rejected : list string) (line : string),
     keys = (map Typed rejected ++ Typed line :: rest)%list /\
     Forall (fun l => forall u, int_of_string l = Some u ->
                      below_min min_val u || above_max max_val u = true) rejected /\
     int_of_string line = Some v /\
     below_min min_val v = false /\ above_max max_val v = false /\
     List.length (fst (get_int_input int_of_string min_val max_val keys)) =
       List.length rejected).
Proof.
  split.
  - intros (printed & H).
    destruct (get_int_input_answered _ _ _ _ _ _ _ H) as (A & B & rej & l & E & P & Len & F).
    exists rej, l. rewrite H. simpl. repeat split; assumption.
  - intros (rej & l & -> & F & P & Lo & Hi & _).
    destruct (get_int_input_answers int_of_string min_val max_val rej l v rest F P Lo Hi)
      as (pr & G & _).
    exists pr. exact G.
Qed.

(** The property on the main menu after a word, a 9 and then a 4. *)
Lemma get_int_input_returns_first_acceptable_witness :
  exists printed,
    get_int_input
      (fun s => if String.eqb s EmptyString then None
                else option_map Z.of_int (NilEmpty.int_of_string s))
      (Some 0) (Some 4)
      [Typed "sair"; Typed "9"; Typed "4"; Typed "1"] =
    (printed, Answered 4 [Typed "1"]).
Proof.
  apply (get_int_input_returns_first_acceptable
           (fun s => if String.eqb s EmptyString then None
                     else option_map Z.of_int (NilEmpty.int_of_string s))
           (Some 0) (Some 4) [Typed "sair"; Typed "9"; Typed "4"; Typed "1"]
           4 [Typed "1"]).
  exists ["sair"; "9"], "4".
  split; [reflexivity|]. split.
  - apply Forall_cons; [intros u H; discriminate|].
    apply Forall_cons; [intros u H; vm_compute in H; injection H as <-; reflexivity|].
    apply Forall_nil.
  - repeat split; reflexivity.
Defined.

(** What the two menus of a session answer, and that they read forward. *)
Lemma select_session_type_answered (int_of_string : string -> option Z)
    (keys rest : list Key) (session_type : string) :
  select_session_type int_of_string keys = Answered session_type rest ->
  (session_type = "timer" \/ session_type = "cronometro") /\
  (forall k, In k rest -> In k keys).
Proof.
  unfold select_session_type. intros H.
  destruct (get_int_input int_of_string (Some 1) (Some 2) keys) as [pr r] eqn:G.
  simpl in H. destruct r as [c r| |]; try discriminate.
  injection H as <- <-.
  destruct (get_int_input_answered _ _ _ _ _ _ _ G) as (_ & _ & rej & l & -> & _).
  split; [destruct (c =? 2); auto|].
  intros k Hk. apply in_or_app. right. right. exact Hk.
Qed.

Lemma select_time_answered (int_of_string : string -> option Z)
    (keys rest : list Key) (t : Z) :
  select_time int_of_string keys = Answered t rest ->
  (In t [15; 30; 45; 60] \/
   exists mid, snd (get_int_input int_of_string (Some 1) (Some 5) keys) = Answered 5 mid /\
               snd (get_int_input int_of_string (Some 1) None mid) = Answered t rest) /\
  1 <= t /\
  (forall k, In k rest -> In k keys).
Proof.
  unfold select_time. intros H.
  destruct (get_int_input int_of_string (Some 1) (Some 5) keys) as [pr r] eqn:G.
  simpl in H. destruct r as [c r| |]; try discriminate.
  destruct (get_int_input_answered _ _ _ _ _ _ _ G) as (Lo & Hi & rej & l & -> & _).
  simpl in Lo, Hi. apply Z.ltb_ge in Lo, Hi.
  assert (C : c = 1 \/ c = 2 \/ c = 3 \/ c = 4 \/ c = 5) by lia.
  destruct C as [C|[C|[C|[C|C]]]]; subst c; simpl in H.
  1-4: injection H as <- <-; split; [left; simpl; auto|]; split; [lia|];
       intros k Hk; apply in_or_app; right; right; exact Hk.
  destruct (get_int_input int_of_string (Some 1) None r) as [pr2 r2] eqn:G2.
  simpl in H. subst r2.
  destruct (get_int_input_answered _ _ _ _ _ _ _ G2) as (A & _ & rej2 & l2 & -> & _).
  simpl in A. apply Z.ltb_ge in A.
  split; [right; eexists; split; [reflexivity|rewrite G2; reflexivity]|].
  split; [exact A|].
  intros k Hk. apply in_or_app. right. right.
  apply in_or_app. right. right. exact Hk.
Qed.

(** X18. The menus answer within their range. The main menu answers a number
    from 0 to 4, the type of a session is timer or cronometro, and the time
    of a timer is one of the four presets 15, 30, 45 and 60 or, after the
    choice 5, the number typed next, which is at least 1: no timer is
    started from the menus with nothing to count. *)
Theorem menus_answer_within_range (int_of_string : string -> option Z)
    (keys rest : list Key) :
  (forall choice, show_main_menu int_of_string keys = Answered choice rest ->
     0 <= choice <= 4) /\
  (forall session_type,
     select_session_type int_of_string keys = Answered session_type rest ->
     session_type = "timer" \/ session_type = "cronometro") /\
  (forall t, select_time int_of_string keys = Answered t rest ->
     (In t [15; 30; 45; 60] \/
      exists mid,
        snd (get_int_input int_of_string (Some 1) (Some 5) keys) = Answered 5 mid /\
        snd (get_int_input int_of_string (Some 1) None mid) = Answered t rest) /\
     0 < total_seconds (new_window true t)).
Proof.
  split; [|split].
  - intros choice H. unfold show_main_menu in H.
    destruct (get_int_input int_of_string (Some 0) (Some 4) keys) as [pr r] eqn:G.
    simpl in H. subst r.
    destruct (get_int_input_answered _ _ _ _ _ _ _ G) as (A & B & _).
    simpl in A, B. apply Z.ltb_ge in A, B. lia.
  - intros ty H. apply (select_session_type_answered _ _ _ _ H).
  - intros t H. destruct (select_time_answered _ _ _ _ H) as (A & B & _).
    split; [exact A|]. simpl. lia.
Qed.

(** The property on the choice 5 followed by 0 and then 50 minutes. *)
Lemma menus_answer_within_range_witness :
  (In 50 [15; 30; 45; 60] \/
   exists mid,
     snd (get_int_input
            (fun s => if String.eqb s EmptyString then None
                      else option_map Z.of_int (NilEmpty.int_of_string s))
            (Some 1) (Some 5) [Typed "5"; Typed "0"; Typed "50"]) = Answered 5 mid /\
     snd (get_int_input
            (fun s => if String.eqb s EmptyString then None
                      else option_map Z.of_int (NilEmpty.int_of_string s))
            (Some 1) None mid) = Answered 50 []) /\
  0 < total_seconds (new_window true 50).
Proof.
  destruct (menus_answer_within_range
              (fun s => if String.eqb s EmptyString then None
                        else option_map Z.of_int (NilEmpty.int_of_string s))
              [Typed "5"; Typed "0"; Typed "50"] []) as (_ & _ & A).
  apply (A 50). vm_compute. reflexivity.
Defined.

(** The confirmation loop answers on the first line that is an s or an n. *)
Lemma show_summary_and_confirm_answered (strip_lower : string -> string)
    (keys : list Key) :
  forall (b : bool) (rest : list Key),
  show_summary_and_confirm strip_lower keys = Answered b rest ->
  exists (ignored : list string) (line : string),
    keys = (map Typed ignored ++ Typed line :: rest)%list /\
    strip_lower line = (if b then "s" else "n") /\
    Forall (fun l => strip_lower l <> "s" /\ strip_lower l <> "n") ignored.
Proof.
  induction keys as [|k keys IH]; intros b rest H; [discriminate|].
  cbn [show_summary_and_confirm] in H. destruct k as [line|]; [|discriminate].
  cbv zeta in H.
  destruct (String.eqb_spec (strip_lower line) "s") as [S|S].
  - simpl in H. injection H as <- <-. exists [], line. repeat split; auto.
  - destruct (String.eqb_spec (strip_lower line) "n") as [N|N].
    + simpl in H. injection H as <- <-. exists [], line. repeat split; auto.
    + simpl in H. destruct (IH b rest H) as (ign & l & E & A & F).
      exists (line :: ign), l. repeat split; simpl; try congruence.
      constructor; [split; assumption | exact F].
Qed.

(** X19. Nothing is written without a yes. Whatever [start_session] hands to
    [json.dump] is the history it loaded followed by one record - for the
    objective chosen, dated now, of type timer or cronometro, with a
    non-negative number of minutes - and it does so only if some line typed
    at the console was an s once stripped and lowered. *)
Theorem start_session_writes_only_after_yes (int_of_string : string -> option Z)
    (strip_lower : string -> string) (json_load : string -> Decoded)
    (file : option string) (now : Now) (objective_name : string)
    (keys : list Key) (events : list Event) (written : list Session) :
  fst (start_session int_of_string strip_lower json_load file now objective_name
         keys events) = Some written ->
  (exists line, In (Typed line) keys /\ strip_lower line = "s") /\
  (exists session_type r,
     (session_type = "timer" \/ session_type = "cronometro") /\ 0 <= r /\
     written = (fst (load_history json_load file)
                ++ [mkSession (today now) (stamp now) objective_name session_type r])%list).
Proof.
  unfold start_session. intros H.
  destruct (select_session_type int_of_string keys) as [ty keys1| |] eqn:Ty;
    try discriminate.
  destruct (select_session_type_answered _ _ _ _ Ty) as [TY K1].
  set (chosen := if String.eqb ty "timer"
                 then match select_time int_of_string keys1 with
                      | Answered t keys2 => Answered (Some t) keys2
                      | Exited => Exited
                      | Blocked => Blocked
                      end
                 else Answered None keys1) in *.
  destruct chosen as [mins keys2| |] eqn:Ch; try discriminate.
  assert (K2 : (forall k, In k keys2 -> In k keys1) /\
               (ty = "timer" -> exists t, mins = Some t /\ 1 <= t)).
  { unfold chosen in Ch. destruct (String.eqb_spec ty "timer") as [T|T].
    - destruct (select_time int_of_string keys1) as [t k2| |] eqn:St; try discriminate.
      injection Ch as <- <-.
      destruct (select_time_answered _ _ _ _ St) as (_ & A1 & A2).
      split; [exact A2|]. intros _. exists t. split; [reflexivity|exact A1].
    - injection Ch as <- <-. split; [auto|]. intros; contradiction. }
  destruct K2 as [K2 M].
  destruct (show_summary_and_confirm strip_lower keys2) as [b keys3| |] eqn:Cf;
    try discriminate.
  destruct b; [|discriminate].
  destruct (show_summary_and_confirm_answered strip_lower keys2 true keys3 Cf)
    as (ign & line & E & Sl & _).
  split.
  { exists line. split; [|exact Sl]. apply K1, K2. rewrite E.
    apply in_or_app. right. left. reflexivity. }
  destruct (String.eqb_spec ty "cronometro") as [C|C].
  - unfold after_window in H.
    destruct (run_stopwatch json_load file now objective_name events) as [| |w] eqn:R;
      try discriminate.
    simpl in H. injection H as <-.
    destruct (stopwatch_saves_one_record json_load file now objective_name events w R)
      as (r & R0 & W).
    exists "cronometro", r. auto.
  - destruct TY as [T|T]; [|contradiction].
    destruct (M T) as (t & -> & T1).
    unfold after_window in H.
    destruct (run_timer json_load file now objective_name t events) as [| |w] eqn:R;
      try discriminate.
    simpl in H. injection H as <-.
    destruct (timer_saves_one_record json_load file now objective_name t events w
                ltac:(lia) R) as (r & R0 & W).
    exists "timer", r. split; [auto|]. split; [lia|exact W].
Qed.

(** The property on a stopwatch chosen, confirmed and finalized at once. *)
Lemma start_session_writes_only_after_yes_witness :
  exists session_type r,
    (session_type = "timer" \/ session_type = "cronometro") /\ 0 <= r /\
    [mkSession (PyDate.mkDate 2026 2 16) "2026-02-16 10:00:00" "Estudar" "cronometro" 0] =
    (fst (load_history (fun _ => JSONDecodeError) None)
     ++ [mkSession (PyDate.mkDate 2026 2 16) "2026-02-16 10:00:00" "Estudar"
           session_type r])%list.
Proof.
  apply (start_session_writes_only_after_yes
           (fun s => if String.eqb s EmptyString then None
                     else option_map Z.of_int (NilEmpty.int_of_string s))
           (fun s => s) (fun _ => JSONDecodeError) None
           (mkNow (PyDate.mkDate 2026 2 16) "2026-02-16 10:00:00") "Estudar"
           [Typed "2"; Typed "talvez"; Typed "s"; Typed EmptyString] [ClockStep; PressFinalize]
           [mkSession (PyDate.mkDate 2026 2 16) "2026-02-16 10:00:00" "Estudar" "cronometro" 0]).
  vm_compute. reflexivity.
Defined.

(* ================================================================== *)
(** ** Beyond the specification: dates and their ordinals *)
(* ================================================================== *)

(** [fromordinal] only makes dates that exist. *)
Lemma fromordinal_valid (o : Z) : valid_date (PyDate.fromordinal o).
Proof.
  unfold valid_date, PyDate.fromordinal, PyDate.DI400Y, PyDate.DI100Y, PyDate.DI4Y.
  cbv zeta.
  set (n400 := (o - 1) / 146097).
  set (r1 := (o - 1) mod 146097).
  set (n100 := r1 / 36524).
  set (r2 := r1 mod 36524).
  set (n4 := r2 / 1461).
  set (r3 := r2 mod 1461).
  set (n1 := r3 / 365).
  set (r4 := r3 mod 365).
  assert (E0 : o - 1 = 146097 * n400 + r1 /\ 0 <= r1 < 146097)
    by (unfold n400, r1; Z.div_mod_to_equations; lia).
  assert (E1 : r1 = 36524 * n100 + r2 /\ 0 <= r2 < 36524 /\ 0 <= n100 <= 4)
    by (unfold n100, r2; Z.div_mod_to_equations; lia).
  assert (E2 : r2 = 1461 * n4 + r3 /\ 0 <= r3 < 1461 /\ 0 <= n4 <= 24)
    by (unfold n4, r3; Z.div_mod_to_equations; lia).
  assert (E3 : r3 = 365 * n1 + r4 /\ 0 <= r4 < 365 /\ 0 <= n1 <= 4)
    by (unfold n1, r4; Z.div_mod_to_equations; lia).
  clearbody n400 r1 n100 r2 n4 r3 n1 r4.
  destruct ((n1 =? 4) || (n100 =? 4)) eqn:Sp.
  - simpl. unfold PyDate.days_in_month. simpl.
    unfold PyDate.DAYS_IN_MONTH. simpl. lia.
  - apply orb_false_iff in Sp. destruct Sp as [Sp1 Sp2].
    apply Z.eqb_neq in Sp1, Sp2.
    rewrite Z.shiftr_div_pow2 by lia.
    change (2 ^ 5) with 32.
    set (m := (r4 + 50) / 32).
    assert (Em : 32 * m <= r4 + 50 < 32 * m + 32) by (unfold m; Z.div_mod_to_equations; lia).
    clearbody m.
    set (leapyear := (n1 =? 3) && (negb (n4 =? 24) || (n100 =? 3))).
    assert (Hm : m = 1 \/ m = 2 \/ m = 3 \/ m = 4 \/ m = 5 \/ m = 6 \/ m = 7 \/ m = 8 \/ m = 9 \/ m = 10 \/ m = 11 \/ m = 12) by lia.
    assert (L : PyDate.is_leap (n400 * 400 + 1 + n100 * 100 + n4 * 4 + n1) = leapyear)
      by (apply is_leap_split; lia).
    assert (R : leapyear = false -> r4 + 365 * n1 < 1460 \/ 0 <= r4 < 365) by lia.
    clearbody leapyear.
    repeat (destruct Hm as [Hm|Hm]); subst m; simpl;
      destruct leapyear; simpl;
      match goal with |- context [?a <? ?b] => destruct (Z.ltb_spec a b) end;
      unfold PyDate.days_in_month; simpl; rewrite ?L; simpl;
      unfold PyDate.DAYS_IN_MONTH, PyDate.DAYS_BEFORE_MONTH in *; simpl in *; lia.
Qed.

(** The days of a year follow those of the years before it. *)
Lemma days_before_year_next (y : Z) :
  PyDate.days_before_year (y + 1) =
  PyDate.days_before_year y + 365 + (if PyDate.is_leap y then 1 else 0).
Proof.
  unfold PyDate.days_before_year, PyDate.is_leap. cbv zeta.
  replace (y + 1 - 1) with y by lia.
  repeat match goal with |- context [?a =? ?b] => destruct (Z.eqb_spec a b) end;
    simpl; Z.div_mod_to_equations; lia.
Qed.

Lemma days_before_year_mono (y1 y2 : Z) :
  y1 <= y2 -> PyDate.days_before_year y1 <= PyDate.days_before_year y2.
Proof.
  intros H. unfold PyDate.days_before_year. cbv zeta.
  Z.div_mod_to_equations. lia.
Qed.

(** The month tables at a given month. *)
Ltac month_tables :=
  repeat match goal with
         | |- context [PyDate.DAYS_BEFORE_MONTH ?k] =>
             let v := eval vm_compute in (PyDate.DAYS_BEFORE_MONTH k) in
             progress change (PyDate.DAYS_BEFORE_MONTH k) with v
         | |- context [PyDate.DAYS_IN_MONTH ?k] =>
             let v := eval vm_compute in (PyDate.DAYS_IN_MONTH k) in
             progress change (PyDate.DAYS_IN_MONTH k) with v
         | H : context [PyDate.DAYS_BEFORE_MONTH ?k] |- _ =>
             let v := eval vm_compute in (PyDate.DAYS_BEFORE_MONTH k) in
             progress change (PyDate.DAYS_BEFORE_MONTH k) with v in H
         | H : context [PyDate.DAYS_IN_MONTH ?k] |- _ =>
             let v := eval vm_compute in (PyDate.DAYS_IN_MONTH k) in
             progress change (PyDate.DAYS_IN_MONTH k) with v in H
         end;
  cbn [andb orb negb Z.ltb Z.eqb Z.compare Pos.compare Pos.compare_cont Pos.eqb] in *.

(** A date that exists lies within its year. *)
Lemma day_of_year_range (d : PyDate.date) :
  valid_date d ->
  1 <= PyDate.days_before_month (PyDate.year d) (PyDate.month d) + PyDate.day d
    <= 365 + (if PyDate.is_leap (PyDate.year d) then 1 else 0).
Proof.
  destruct d as [y m dd]. unfold valid_date. simpl. intros [M D].
  assert (Hm : m = 1 \/ m = 2 \/ m = 3 \/ m = 4 \/ m = 5 \/ m = 6 \/ m = 7 \/ m = 8 \/ m = 9 \/ m = 10 \/ m = 11 \/ m = 12) by lia.
  unfold PyDate.days_in_month, PyDate.days_before_month in *.
  destruct (PyDate.is_leap y);
    repeat (destruct Hm as [Hm|Hm]); subst m; month_tables; lia.
Qed.

Lemma toordinal_lt_year (a b : PyDate.date) :
  valid_date a -> valid_date b -> PyDate.year a < PyDate.year b ->
  PyDate.toordinal a < PyDate.toordinal b.
Proof.
  intros Va Vb H. unfold PyDate.toordinal.
  pose proof (day_of_year_range a Va). pose proof (day_of_year_range b Vb).
  pose proof (days_before_year_next (PyDate.year a)).
  pose proof (days_before_year_mono (PyDate.year a + 1) (PyDate.year b) ltac:(lia)).
  lia.
Qed.

Lemma toordinal_lt_month (a b : PyDate.date) :
  valid_date a -> valid_date b -> PyDate.year a = PyDate.year b ->
  PyDate.month a < PyDate.month b ->
  PyDate.toordinal a < PyDate.toordinal b.
Proof.
  destruct a as [y m d], b as [y' m' d']. unfold valid_date, PyDate.toordinal. simpl.
  intros [M D] [M' D'] <- H.
  assert (Hm : m = 1 \/ m = 2 \/ m = 3 \/ m = 4 \/ m = 5 \/ m = 6 \/ m = 7 \/ m = 8 \/ m = 9 \/ m = 10 \/ m = 11) by lia.
  assert (S : PyDate.days_before_month y m + PyDate.days_in_month y m <=
              PyDate.days_before_month y m').
  { assert (Hm' : m' = 2 \/ m' = 3 \/ m' = 4 \/ m' = 5 \/ m' = 6 \/ m' = 7 \/ m' = 8 \/ m' = 9 \/ m' = 10 \/ m' = 11 \/ m' = 12) by lia.
    unfold PyDate.days_in_month, PyDate.days_before_month.
    destruct (PyDate.is_leap y);
    repeat (destruct Hm as [Hm|Hm]); subst m;
    repeat (destruct Hm' as [Hm'|Hm']); subst m'; try lia;
    month_tables; lia. }
  lia.
Qed.

(** The order of dates is the order of their ordinals. *)
Lemma leb_toordinal (a b : PyDate.date) :
  valid_date a -> valid_date b ->
  PyDate.leb a b = (PyDate.toordinal a <=? PyDate.toordinal b).
Proof.
  intros Va Vb. unfold PyDate.leb.
  destruct (Z.ltb_spec (PyDate.year a) (PyDate.year b)) as [Y|Y].
  - pose proof (toordinal_lt_year a b Va Vb Y).
    simpl. symmetry. apply Z.leb_le. lia.
  - destruct (Z.eqb_spec (PyDate.year a) (PyDate.year b)) as [Ye|Ye].
    + simpl. destruct (Z.ltb_spec (PyDate.month a) (PyDate.month b)) as [M|M].
      * pose proof (toordinal_lt_month a b Va Vb Ye M).
        simpl. symmetry. apply Z.leb_le. lia.
      * destruct (Z.eqb_spec (PyDate.month a) (PyDate.month b)) as [Me|Me].
        -- simpl. unfold PyDate.toordinal. rewrite Ye, Me.
           destruct (Z.leb_spec (PyDate.day a) (PyDate.day b));
             symmetry; [apply Z.leb_le | apply Z.leb_gt]; lia.
        -- simpl.
           pose proof (toordinal_lt_month b a Vb Va (eq_sym Ye) ltac:(lia)).
           symmetry. apply Z.leb_gt. lia.
    + simpl. pose proof (toordinal_lt_year b a Vb Va ltac:(lia)).
      symmetry. apply Z.leb_gt. lia.
Qed.

Lemma toordinal_inj (a b : PyDate.date) :
  valid_date a -> valid_date b ->
  PyDate.toordinal a = PyDate.toordinal b -> a = b.
Proof.
  intros Va Vb E.
  destruct (Z.lt_trichotomy (PyDate.year a) (PyDate.year b)) as [Y|[Y|Y]].
  - pose proof (toordinal_lt_year a b Va Vb Y). lia.
  - destruct (Z.lt_trichotomy (PyDate.month a) (PyDate.month b)) as [M|[M|M]].
    + pose proof (toordinal_lt_month a b Va Vb Y M). lia.
    + unfold PyDate.toordinal in E. rewrite Y, M in E.
      destruct a, b. simpl in *. f_equal; lia.
    + pose proof (toordinal_lt_month b a Vb Va (eq_sym Y) M). lia.
  - pose proof (toordinal_lt_year b a Vb Va Y). lia.
Qed.

(** [fromordinal] is also a left inverse of [toordinal], on dates that
    exist. *)
Lemma fromordinal_toordinal (d : PyDate.date) :
  valid_date d -> PyDate.fromordinal (PyDate.toordinal d) = d.
Proof.
  intros V. apply toordinal_inj; [apply fromordinal_valid | exact V|].
  apply toordinal_fromordinal.
Qed.

Lemma eqb_toordinal (a b : PyDate.date) :
  valid_date a -> valid_date b ->
  PyDate.eqb a b = (PyDate.toordinal a =? PyDate.toordinal b).
Proof.
  intros Va Vb. destruct (Z.eqb_spec (PyDate.toordinal a) (PyDate.toordinal b)) as [E|E].
  - apply eqb_date_eq. apply toordinal_inj; assumption.
  - destruct (PyDate.eqb a b) eqn:Q; [|reflexivity].
    apply eqb_date_eq in Q. subst. contradiction.
Qed.

(* ================================================================== *)
(** ** Beyond the specification: the daily and the weekly view *)
(* ================================================================== *)

Lemma day_totals_nil (o : Z) (n : nat) : day_totals [] o n = 0.
Proof. revert o. induction n as [|n IH]; intros o; simpl; [reflexivity|]. rewrite IH. reflexivity. Qed.

(** One record counts in the day totals of a run of days exactly when its
    date is one of them. *)
Lemma day_totals_cons (s : Session) (h : list Session) (n : nat) : forall o : Z,
  valid_date (date s) ->
  day_totals (s :: h) o n =
  (if (o <=? PyDate.toordinal (date s)) && (PyDate.toordinal (date s) <? o + Z.of_nat n)
   then minutes s else 0) + day_totals h o n.
Proof.
  induction n as [|n IH]; intros o V.
  - simpl. destruct (Z.leb_spec o (PyDate.toordinal (date s)));
      destruct (Z.ltb_spec (PyDate.toordinal (date s)) (o + 0)); simpl; lia.
  - cbn [day_totals aggregate_by_date]. rewrite (IH (o + 1) V).
    rewrite (eqb_toordinal _ _ V (fromordinal_valid o)), toordinal_fromordinal.
    destruct (Z.eqb_spec (PyDate.toordinal (date s)) o);
      destruct (Z.leb_spec o (PyDate.toordinal (date s)));
      destruct (Z.leb_spec (o + 1) (PyDate.toordinal (date s)));
      destruct (Z.ltb_spec (PyDate.toordinal (date s)) (o + 1 + Z.of_nat n));
      destruct (Z.ltb_spec (PyDate.toordinal (date s)) (o + Z.of_nat (S n)));
      simpl; lia.
Qed.

Lemma day_totals_app (h : list Session) (a b : nat) : forall o : Z,
  day_totals h o (a + b) = day_totals h o a + day_totals h (o + Z.of_nat a) b.
Proof.
  induction a as [|a IH]; intros o.
  - simpl. rewrite Z.add_0_r. reflexivity.
  - cbn [Nat.add day_totals]. rewrite IH.
    replace (o + 1 + Z.of_nat a) with (o + Z.of_nat (S a)) by lia. lia.
Qed.

(** The loop over a range of dates counts what the day totals of the range
    add up to. *)
Lemma aggregate_by_week_day_totals (h : list Session) (a b : PyDate.date) (n : nat) :
  Forall (fun s => valid_date (date s)) h ->
  valid_date a -> valid_date b ->
  PyDate.toordinal b + 1 = PyDate.toordinal a + Z.of_nat n ->
  aggregate_by_week h a b = day_totals h (PyDate.toordinal a) n.
Proof.
  intros F Va Vb E. induction F as [|s h Vs _ IH].
  - rewrite day_totals_nil. reflexivity.
  - cbn [aggregate_by_week]. rewrite IH, (day_totals_cons s h n _ Vs).
    rewrite (leb_toordinal _ _ Va Vs), (leb_toordinal _ _ Vs Vb).
    destruct (Z.leb_spec (PyDate.toordinal a) (PyDate.toordinal (date s)));
      destruct (Z.leb_spec (PyDate.toordinal (date s)) (PyDate.toordinal b));
      destruct (Z.ltb_spec (PyDate.toordinal (date s)) (PyDate.toordinal a + Z.of_nat n));
      simpl; lia.
Qed.

Lemma aggregate_by_date_nonneg (h : list Session) (d : PyDate.date) :
  Forall (fun s => 0 <= minutes s) h -> 0 <= aggregate_by_date h d.
Proof.
  intros F. induction F as [|s h Hs _ IH]; simpl; [lia|].
  destruct (PyDate.eqb (date s) d); lia.
Qed.

Lemma aggregate_by_week_nonneg (h : list Session) (a b : PyDate.date) :
  Forall (fun s => 0 <= minutes s) h -> 0 <= aggregate_by_week h a b.
Proof.
  intros F. induction F as [|s h Hs _ IH]; simpl; [lia|].
  destruct (PyDate.leb a (date s) && PyDate.leb (date s) b); lia.
Qed.

Lemma rows_total_app (a b : list Line) :
  rows_total (a ++ b) = rows_total a + rows_total b.
Proof.
  induction a as [|[l t|] a IH]; simpl; [reflexivity| |]; rewrite IH; lia.
Qed.

Lemma row_if_positive_app (label : Label) (total : Z) (rows : list Line) :
  row_if_positive label total rows = (row_if_positive label total [] ++ rows)%list.
Proof. unfold row_if_positive. destruct (0 <? total); reflexivity. Qed.

Lemma rows_total_row_if_positive (label : Label) (total : Z) :
  0 <= total -> rows_total (row_if_positive label total []) = total.
Proof.
  intros H. unfold row_if_positive. destruct (Z.ltb_spec 0 total); simpl; lia.
Qed.

Lemma range_down_succ (n : nat) :
  range_down (S n) = Z.of_nat (S n) :: range_down n.
Proof.
  unfold range_down. rewrite (seq_S (S n) 0), rev_app_distr. reflexivity.
Qed.

Lemma range_down_bounds (n : nat) : Forall (fun i => 0 <= i <= Z.of_nat n) (range_down n).
Proof.
  induction n as [|n IH]; [repeat constructor; simpl; lia|].
  rewrite range_down_succ. constructor; [lia|].
  apply Forall_impl with (2 := IH). intros; lia.
Qed.

Lemma sub_days_day_back (today : PyDate.date) (i : Z) :
  0 < PyDate.toordinal today - i <= 3652059 ->
  PyDate.sub_days today i = Some (day_back today i).
Proof.
  intros H. unfold PyDate.sub_days, day_back, PyDate.MAXORDINAL.
  destruct (Z.ltb_spec 0 (PyDate.toordinal today - i)); [|lia].
  destruct (Z.leb_spec (PyDate.toordinal today - i) 3652059); [|lia].
  reflexivity.
Qed.

Lemma daily_rows_cons (history : list Session) (today : PyDate.date)
    (i : Z) (rest : list Z) :
  daily_rows history today (i :: rest) =
  match PyDate.sub_days today i with
  | None => None
  | Some d =>
      match daily_rows history today rest with
      | None => None
      | Some rows =>
          Some (row_if_positive (DayLabel d) (aggregate_by_date history d) rows)
      end
  end.
Proof. reflexivity. Qed.

Lemma can_look_back_ordinal (today : PyDate.date) :
  can_look_back today -> 400 <= PyDate.toordinal today <= 3652053.
Proof. intros [_ T]. exact T. Qed.

(** The daily loop, row by row. *)
Lemma daily_rows_flat (history : list Session) (today : PyDate.date)
    (offsets : list Z) :
  can_look_back today ->
  Forall (fun i => 0 <= i <= 29) offsets ->
  daily_rows history today offsets =
  Some (flat_map (fun i => row_if_positive (DayLabel (day_back today i))
                             (aggregate_by_date history (day_back today i)) [])
          offsets).
Proof.
  intros C F. apply can_look_back_ordinal in C.
  induction F as [|i rest Hi _ IH]; [reflexivity|].
  rewrite daily_rows_cons, sub_days_day_back by lia.
  rewrite IH. rewrite row_if_positive_app. reflexivity.
Qed.

Lemma in_daily_flat (history : list Session) (today : PyDate.date)
    (offsets : list Z) (d : PyDate.date) (t : Z) :
  In (Row (DayLabel d) t)
     (flat_map (fun i => row_if_positive (DayLabel (day_back today i))
                           (aggregate_by_date history (day_back today i)) [])
        offsets) <->
  (exists i, In i offsets /\ d = day_back today i) /\
  t = aggregate_by_date history d /\ 0 < t.
Proof.
  rewrite in_flat_map. unfold row_if_positive. split.
  - intros (i & Hi & H).
    destruct (Z.ltb_spec 0 (aggregate_by_date history (day_back today i))); [|destruct H].
    destruct H as [H|[]]. injection H as <- <-.
    split; [exists i; auto|]. split; [reflexivity|assumption].
  - intros ((i & Hi & ->) & -> & P). exists i. split; [exact Hi|].
    destruct (Z.ltb_spec 0 (aggregate_by_date history (day_back today i))); [|lia].
    left. reflexivity.
Qed.

Lemma toordinal_day_back (today : PyDate.date) (i : Z) :
  PyDate.toordinal (day_back today i) = PyDate.toordinal today - i.
Proof. unfold day_back. apply toordinal_fromordinal. Qed.

Lemma day_back_inj (today : PyDate.date) (i j : Z) :
  day_back today i = day_back today j -> i = j.
Proof.
  intros E.
  pose proof (toordinal_day_back today i) as A.
  pose proof (toordinal_day_back today j) as B.
  rewrite E in A.
  generalize dependent (PyDate.toordinal today). intros T A B.
  generalize dependent (PyDate.toordinal (day_back today j)). intros. lia.
Qed.

Lemma range_down_nodup (n : nat) : NoDup (range_down n).
Proof.
  induction n as [|n IH]; [repeat constructor; simpl; tauto|].
  rewrite range_down_succ. constructor; [|exact IH].
  intros H. pose proof (range_down_bounds n) as B.
  rewrite Forall_forall in B. specialize (B _ H). lia.
Qed.

Lemma rows_total_daily_flat (history : list Session) (today : PyDate.date) (n : nat) :
  Forall (fun s => 0 <= minutes s) history ->
  rows_total
    (flat_map (fun i => row_if_positive (DayLabel (day_back today i))
                          (aggregate_by_date history (day_back today i)) [])
       (range_down n)) =
  day_totals history (PyDate.toordinal today - Z.of_nat n) (S n).
Proof.
  intros F. induction n as [|n IH].
  - change (range_down 0) with [0]. cbn [flat_map day_totals].
    rewrite app_nil_r.
    rewrite rows_total_row_if_positive by (apply aggregate_by_date_nonneg, F).
    unfold day_back. change (Z.of_nat 0) with 0. lia.
  - rewrite range_down_succ. cbn [flat_map]. rewrite rows_total_app, IH.
    rewrite rows_total_row_if_positive by (apply aggregate_by_date_nonneg, F).
    cbn [day_totals]. unfold day_back.
    replace (PyDate.toordinal today - Z.of_nat (S n) + 1)
      with (PyDate.toordinal today - Z.of_nat n) by lia.
    reflexivity.
Qed.

(** On the texts [strftime] wrote, comparing texts and comparing dates come
    to the same: the stored history has a typed counterpart with the same
    totals. *)
Lemma stored_as_typed (strftime : PyDate.date -> string)
    (strptime : string -> option PyDate.date) (history : list Stored.Entry) :
  Forall (written_date strftime strptime) history ->
  exists typed : list Session,
    Forall (fun s => valid_date (date s)) typed /\
    (Forall (fun s => 0 <= Stored.minutes s) history ->
     Forall (fun s => 0 <= minutes s) typed) /\
    (forall d, strptime (strftime d) = Some d ->
       Stored.aggregate_by_date history (strftime d) = aggregate_by_date typed d) /\
    (forall a b, Stored.aggregate_by_week strptime history a b =
                 Some (aggregate_by_week typed a b)).
Proof.
  intros F. induction F as [|s rest (d & V & E & P) _ (typed & T1 & T2 & T3 & T4)].
  - exists []. repeat split; auto.
  - exists (mkSession d (Stored.datetime_start s) (Stored.objective s)
              (Stored.type s) (Stored.minutes s) :: typed).
    split; [constructor; [exact V | exact T1]|].
    split; [intros N; inversion N; subst; constructor; [assumption | apply T2; assumption]|].
    split.
    + intros d' P'. cbn [Stored.aggregate_by_date aggregate_by_date date minutes].
      rewrite (T3 d' P'). f_equal.
      destruct (String.eqb_spec (Stored.date s) (strftime d')) as [Q|Q].
      * rewrite Q, P' in P. injection P as <-. rewrite eqb_date_refl. reflexivity.
      * destruct (PyDate.eqb d d') eqn:B; [|reflexivity].
        apply eqb_date_eq in B. subst. contradiction.
    + intros a b. cbn [Stored.aggregate_by_week aggregate_by_week date minutes].
      rewrite P, T4. reflexivity.
Qed.

Lemma stored_day_totals (strftime : PyDate.date -> string)
    (strptime : string -> option PyDate.date)
    (history : list Stored.Entry) (typed : list Session) (n : nat) : forall o : Z,
  (forall d, strptime (strftime d) = Some d ->
     Stored.aggregate_by_date history (strftime d) = aggregate_by_date typed d) ->
  (forall j, 0 <= j < Z.of_nat n ->
     strptime (strftime (PyDate.fromordinal (o + j))) = Some (PyDate.fromordinal (o + j))) ->
  Stored.day_totals strftime history o n = day_totals typed o n.
Proof.
  induction n as [|n IH]; intros o H R; [reflexivity|].
  cbn [Stored.day_totals day_totals].
  rewrite H, (IH (o + 1) H).
  - reflexivity.
  - intros j Hj. replace (o + 1 + j) with (o + (1 + j)) by lia. apply R. lia.
  - replace o with (o + 0) at 1 2 by lia. apply R. lia.
Qed.

Lemma flat_map_ext_on {A B : Type} (f g : A -> list B) (l : list A) :
  (forall a, In a l -> f a = g a) -> flat_map f l = flat_map g l.
Proof.
  induction l as [|a l IH]; intros H; [reflexivity|].
  cbn [flat_map]. rewrite (H a) by (left; reflexivity).
  rewrite IH by (intros b Hb; apply H; right; exact Hb). reflexivity.
Qed.

Lemma stored_daily_rows_cons (strftime : PyDate.date -> string)
    (history : list Stored.Entry) (today : PyDate.date) (i : Z) (rest : list Z) :
  Stored.daily_rows strftime history today (i :: rest) =
  match PyDate.sub_days today i with
  | None => None
  | Some d =>
      match Stored.daily_rows strftime history today rest with
      | None => None
      | Some rows =>
          Some (row_if_positive (DayLabel d)
                  (Stored.aggregate_by_date history (strftime d)) rows)
      end
  end.
Proof. reflexivity. Qed.

(** The rows of a loop over days, whatever the total of a day is. *)
Lemma in_day_rows (f : PyDate.date -> Z) (today : PyDate.date)
    (offsets : list Z) (d : PyDate.date) (t : Z) :
  In (Row (DayLabel d) t)
     (flat_map (fun i => row_if_positive (DayLabel (day_back today i))
                           (f (day_back today i)) [])
        offsets) <->
  (exists i, In i offsets /\ d = day_back today i) /\ t = f d /\ 0 < t.
Proof.
  rewrite in_flat_map. unfold row_if_positive. split.
  - intros (i & Hi & H).
    destruct (Z.ltb_spec 0 (f (day_back today i))); [|destruct H].
    destruct H as [H|[]]. injection H as <- <-.
    split; [exists i; auto|]. split; [reflexivity|assumption].
  - intros ((i & Hi & ->) & -> & P). exists i. split; [exact Hi|].
    destruct (Z.ltb_spec 0 (f (day_back today i))); [|lia].
    left. reflexivity.
Qed.

Lemma nodup_day_rows (f : PyDate.date -> Z) (today : PyDate.date)
    (offsets : list Z) :
  NoDup offsets ->
  NoDup (flat_map (fun i => row_if_positive (DayLabel (day_back today i))
                              (f (day_back today i)) [])
           offsets).
Proof.
  intros N. induction N as [|i rest Hi _ IH]; [constructor|].
  cbn [flat_map]. unfold row_if_positive at 1.
  destruct (0 <? f (day_back today i)); [|exact IH].
  cbn [app]. constructor; [|exact IH].
  intros H. apply in_day_rows in H. destruct H as ((j & Hj & E) & _).
  apply day_back_inj in E. subst. contradiction.
Qed.

(** The stored daily loop, row by row. *)
Lemma stored_daily_rows_flat (strftime : PyDate.date -> string)
    (history : list Stored.Entry) (today : PyDate.date) (offsets : list Z) :
  can_look_back today ->
  Forall (fun i => 0 <= i <= 29) offsets ->
  Stored.daily_rows strftime history today offsets =
  Some (flat_map
          (fun i => row_if_positive (DayLabel (day_back today i))
                      ((fun d => Stored.aggregate_by_date history (strftime d))
                         (day_back today i)) [])
          offsets).
Proof.
  intros C F. apply can_look_back_ordinal in C.
  induction F as [|i rest Hi _ IH]; [reflexivity|].
  rewrite stored_daily_rows_cons, sub_days_day_back by lia.
  rewrite IH. rewrite row_if_positive_app. reflexivity.
Qed.

(** X20. The daily view counts every minute of the last thirty days once.
    From any date from which thirty days back is still a date, the daily
    loop raises nothing; it prints a row for a day exactly when that day is
    one of today and the 29 days before it and [aggregate_by_date] finds a
    positive total for the text of its date, no row twice. If every record
    carries the date text [strftime] writes for a real date and non-negative
    minutes - the records the program itself writes - and [strptime] reads
    back those texts and the texts of the thirty days, then the rows add up
    to what the range test of the weekly loop counts from 29 days ago to
    today: the minutes of all records of those thirty days. *)
Theorem daily_view_counts_thirty_days_once (strftime : PyDate.date -> string)
    (strptime : string -> option PyDate.date) (history : list Stored.Entry)
    (today : PyDate.date) :
  can_look_back today -> valid_date today ->
  exists rows,
    Stored.daily_rows strftime history today (range_down 29) = Some rows /\
    (forall d t, In (Row (DayLabel d) t) rows <->
       (exists i, 0 <= i <= 29 /\ d = day_back today i) /\
       t = Stored.aggregate_by_date history (strftime d) /\ 0 < t) /\
    NoDup rows /\
    ((forall i, 0 <= i <= 29 ->
        strptime (strftime (day_back today i)) = Some (day_back today i)) ->
     Forall (fun s => written_date strftime strptime s /\ 0 <= Stored.minutes s)
       history ->
     Stored.aggregate_by_week strptime history (day_back today 29) today =
       Some (rows_total rows)).
Proof.
  intros C V. eexists.
  split; [apply stored_daily_rows_flat; [exact C|apply range_down_29]|].
  split; [|split].
  - intros d t.
    rewrite (in_day_rows (fun d => Stored.aggregate_by_date history (strftime d))).
    split.
    + intros ((i & Hi & E) & R). split; [|exact R]. exists i. split; [|exact E].
      pose proof (range_down_bounds 29) as B. rewrite Forall_forall in B.
      specialize (B _ Hi). simpl in B. lia.
    + intros ((i & Hi & E) & R). split; [|exact R]. exists i. split; [|exact E].
      unfold range_down. apply in_map_iff. exists (Z.to_nat i). split; [lia|].
      apply -> in_rev. apply in_seq. lia.
  - apply (nodup_day_rows (fun d => Stored.aggregate_by_date history (strftime d))).
    apply range_down_nodup.
  - intros H F.
    assert (F1 : Forall (written_date strftime strptime) history)
      by (apply Forall_impl with (2 := F); tauto).
    assert (F2 : Forall (fun s => 0 <= Stored.minutes s) history)
      by (apply Forall_impl with (2 := F); tauto).
    destruct (stored_as_typed strftime strptime history F1)
      as (typed & T1 & T2 & T3 & T4).
    rewrite T4. f_equal.
    rewrite (flat_map_ext_on
               (fun i => row_if_positive (DayLabel (day_back today i))
                           ((fun d => Stored.aggregate_by_date history (strftime d))
                              (day_back today i)) [])
               (fun i => row_if_positive (DayLabel (day_back today i))
                           (aggregate_by_date typed (day_back today i)) []))
      by (intros i Hi; cbv beta; rewrite T3; [reflexivity|]; apply H;
          pose proof (range_down_bounds 29) as B; rewrite Forall_forall in B;
          specialize (B _ Hi); simpl in B; lia).
    rewrite (rows_total_daily_flat typed today 29 (T2 F2)).
    replace (PyDate.toordinal today - Z.of_nat 29)
      with (PyDate.toordinal (day_back today 29))
      by (rewrite toordinal_day_back; reflexivity).
    apply aggregate_by_week_day_totals; auto.
    + apply fromordinal_valid.
    + rewrite toordinal_day_back. change (Z.of_nat 30) with 30.
      generalize (PyDate.toordinal today). intros; lia.
Qed.

(** The property on the Wednesday 2026-02-18 with one record the day
    before, for a writer that writes a date as its ordinal in decimal and
    the reader that goes with it. *)
Lemma daily_view_counts_thirty_days_once_witness :
  exists rows,
    Stored.daily_rows
      (fun d => NilEmpty.string_of_int (Z.to_int (PyDate.toordinal d)))
      [Stored.mkEntry
         (NilEmpty.string_of_int (Z.to_int (PyDate.toordinal (PyDate.mkDate 2026 2 17))))
         "2026-02-17 10:00:00" "Estudar" "timer" 25]
      (PyDate.mkDate 2026 2 18) (range_down 29) = Some rows /\
    Stored.aggregate_by_week
      (fun s => option_map (fun n => PyDate.fromordinal (Z.of_int n))
                  (NilEmpty.int_of_string s))
      [Stored.mkEntry
         (NilEmpty.string_of_int (Z.to_int (PyDate.toordinal (PyDate.mkDate 2026 2 17))))
         "2026-02-17 10:00:00" "Estudar" "timer" 25]
      (day_back (PyDate.mkDate 2026 2 18) 29) (PyDate.mkDate 2026 2 18) =
      Some (rows_total rows) /\
    In (Row (DayLabel (PyDate.mkDate 2026 2 17)) 25) rows.
Proof.
  destruct (daily_view_counts_thirty_days_once
              (fun d => NilEmpty.string_of_int (Z.to_int (PyDate.toordinal d)))
              (fun s => option_map (fun n => PyDate.fromordinal (Z.of_int n))
                          (NilEmpty.int_of_string s))
              [Stored.mkEntry
                 (NilEmpty.string_of_int
                    (Z.to_int (PyDate.toordinal (PyDate.mkDate 2026 2 17))))
                 "2026-02-17 10:00:00" "Estudar" "timer" 25]
              (PyDate.mkDate 2026 2 18)) as (rows & A & B & _ & S).
  - vm_compute. intuition discriminate.
  - vm_compute. intuition discriminate.
  - exists rows. split; [exact A|]. split.
    + apply S.
      * intros i Hi. rewrite NilEmpty.isi. cbn [option_map].
        rewrite DecimalZ.of_to, fromordinal_toordinal by apply fromordinal_valid.
        reflexivity.
      * apply Forall_cons; [|apply Forall_nil]. split; [|vm_compute; discriminate].
        exists (PyDate.mkDate 2026 2 17).
        split; [vm_compute; intuition discriminate|].
        split; [reflexivity | vm_compute; reflexivity].
    + apply B. split; [|split; [vm_compute; reflexivity | reflexivity]].
      exists 1. split; [lia | vm_compute; reflexivity].
Defined.

Lemma weekly_rows_cons (history : list Session) (today : PyDate.date)
    (i : Z) (rest : list Z) :
  weekly_rows history today (i :: rest) =
  match PyDate.sub_days today (7 * i + PyDate.weekday today) with
  | None => None
  | Some week_start =>
      match PyDate.add_days week_start 6 with
      | None => None
      | Some week_end =>
          match weekly_rows history today rest with
          | None => None
          | Some rows =>
              Some (row_if_positive (WeekLabel week_start week_end)
                      (aggregate_by_week history week_start week_end) rows)
          end
      end
  end.
Proof. reflexivity. Qed.

Lemma toordinal_week_start_of (today : PyDate.date) (i : Z) :
  PyDate.toordinal (week_start_of today i) =
  PyDate.toordinal today - (7 * i + PyDate.weekday today).
Proof. unfold week_start_of. apply toordinal_fromordinal. Qed.

Lemma toordinal_week_end_of (today : PyDate.date) (i : Z) :
  PyDate.toordinal (week_end_of today i) = PyDate.toordinal (week_start_of today i) + 6.
Proof.
  unfold week_end_of. rewrite toordinal_fromordinal.
  generalize (PyDate.toordinal (week_start_of today i)). intros; lia.
Qed.

(** The two dates of a window of the weekly view. *)
Lemma week_window (today : PyDate.date) (i : Z) :
  can_look_back today -> 0 <= i <= 29 ->
  PyDate.sub_days today (7 * i + PyDate.weekday today) = Some (week_start_of today i) /\
  PyDate.add_days (week_start_of today i) 6 = Some (week_end_of today i).
Proof.
  intros C Hi. apply can_look_back_ordinal in C.
  pose proof (weekday_range today) as W.
  pose proof (toordinal_week_start_of today i) as S.
  split.
  - unfold PyDate.sub_days, week_start_of, PyDate.MAXORDINAL.
    generalize dependent (PyDate.weekday today). intros w W S.
    generalize dependent (PyDate.toordinal today). intros T C S.
    destruct (Z.ltb_spec 0 (T - (7 * i + w))); [|lia].
    destruct (Z.leb_spec (T - (7 * i + w)) 3652059); [|lia].
    reflexivity.
  - unfold PyDate.add_days, PyDate.sub_days, week_end_of, PyDate.MAXORDINAL.
    change (Z.opp 6) with (-6).
    generalize dependent (PyDate.weekday today). intros w W S.
    generalize dependent (PyDate.toordinal today). intros T C S.
    generalize dependent (PyDate.toordinal (week_start_of today i)). intros o S.
    destruct (Z.ltb_spec 0 (o - - 6)); [|lia].
    destruct (Z.leb_spec (o - - 6) 3652059); [|lia].
    reflexivity.
Qed.

(** X21. The weeks of the weekly view are calendar weeks. For each of the
    thirty windows the two dates are computed without an exception; the
    window starts on a Monday and ends on the Sunday six days later; window
    [i] starts exactly [i] weeks before the newest, which contains today.
    If every record carries the date text [strftime] writes for a real
    date, and [strptime] reads back those texts and the texts of the seven
    days, the total of a window is the sum of the seven totals
    [aggregate_by_date] finds for the texts of its days. *)
Theorem weekly_windows_are_calendar_weeks (strftime : PyDate.date -> string)
    (strptime : string -> option PyDate.date) (history : list Stored.Entry)
    (today : PyDate.date) (i : Z) :
  can_look_back today -> 0 <= i <= 29 ->
  PyDate.sub_days today (7 * i + PyDate.weekday today) = Some (week_start_of today i) /\
  PyDate.add_days (week_start_of today i) 6 = Some (week_end_of today i) /\
  PyDate.weekday (week_start_of today i) = 0 /\
  PyDate.weekday (week_end_of today i) = 6 /\
  PyDate.toordinal (week_end_of today i) = PyDate.toordinal (week_start_of today i) + 6 /\
  PyDate.toordinal (week_start_of today i) =
    PyDate.toordinal (week_start_of today 0) - 7 * i /\
  PyDate.toordinal (week_start_of today 0) <= PyDate.toordinal today
    <= PyDate.toordinal (week_end_of today 0) /\
  ((forall j, 0 <= j <= 6 ->
      strptime (strftime (PyDate.fromordinal
                            (PyDate.toordinal (week_start_of today i) + j))) =
      Some (PyDate.fromordinal (PyDate.toordinal (week_start_of today i) + j))) ->
   Forall (written_date strftime strptime) history ->
   Stored.aggregate_by_week strptime history (week_start_of today i)
     (week_end_of today i) =
   Some (Stored.day_totals strftime history
           (PyDate.toordinal (week_start_of today i)) 7)).
Proof.
  intros C Hi. destruct (week_window today i C Hi) as [S E].
  split; [exact S|]. split; [exact E|].
  pose proof (toordinal_week_start_of today i) as A.
  pose proof (toordinal_week_start_of today 0) as A0.
  pose proof (toordinal_week_end_of today i) as B.
  pose proof (toordinal_week_end_of today 0) as B0.
  assert (D : (forall j, 0 <= j <= 6 ->
                 strptime (strftime (PyDate.fromordinal
                                       (PyDate.toordinal (week_start_of today i) + j))) =
                 Some (PyDate.fromordinal
                         (PyDate.toordinal (week_start_of today i) + j))) ->
              Forall (written_date strftime strptime) history ->
              Stored.aggregate_by_week strptime history (week_start_of today i)
                (week_end_of today i) =
              Some (Stored.day_totals strftime history
                      (PyDate.toordinal (week_start_of today i)) 7)).
  { intros H F.
    destruct (stored_as_typed strftime strptime history F)
      as (typed & T1 & _ & T3 & T4).
    rewrite T4, (stored_day_totals strftime strptime history typed 7 _ T3)
      by (intros j Hj; apply H; change (Z.of_nat 7) with 7 in Hj; lia).
    f_equal.
    apply aggregate_by_week_day_totals; auto; try apply fromordinal_valid.
    rewrite B. change (Z.of_nat 7) with 7.
    generalize (PyDate.toordinal (week_start_of today i)). intros; lia. }
  unfold PyDate.weekday. rewrite B.
  unfold PyDate.weekday in A, A0.
  set (T := PyDate.toordinal today) in *.
  set (o := PyDate.toordinal (week_start_of today i)) in *.
  set (o0 := PyDate.toordinal (week_start_of today 0)) in *.
  set (oe0 := PyDate.toordinal (week_end_of today 0)) in *.
  clearbody T o o0 oe0.
  split; [Z.div_mod_to_equations; lia|].
  split; [Z.div_mod_to_equations; lia|].
  split; [reflexivity|].
  split; [Z.div_mod_to_equations; lia|].
  split; [Z.div_mod_to_equations; lia|].
  exact D.
Qed.

(** The property on the week of Monday 2026-02-16, seen from the Wednesday,
    with one record on the Tuesday and the writer and reader of ordinals. *)
Lemma weekly_windows_are_calendar_weeks_witness :
  PyDate.weekday (week_start_of (PyDate.mkDate 2026 2 18) 0) = 0 /\
  Stored.aggregate_by_week
    (fun s => option_map (fun n => PyDate.fromordinal (Z.of_int n))
                (NilEmpty.int_of_string s))
    [Stored.mkEntry
       (NilEmpty.string_of_int (Z.to_int (PyDate.toordinal (PyDate.mkDate 2026 2 17))))
       "2026-02-17 10:00:00" "Estudar" "timer" 25]
    (week_start_of (PyDate.mkDate 2026 2 18) 0) (week_end_of (PyDate.mkDate 2026 2 18) 0) =
  Some (Stored.day_totals
          (fun d => NilEmpty.string_of_int (Z.to_int (PyDate.toordinal d)))
          [Stored.mkEntry
             (NilEmpty.string_of_int (Z.to_int (PyDate.toordinal (PyDate.mkDate 2026 2 17))))
             "2026-02-17 10:00:00" "Estudar" "timer" 25]
          (PyDate.toordinal (week_start_of (PyDate.mkDate 2026 2 18) 0)) 7).
Proof.
  destruct (weekly_windows_are_calendar_weeks
              (fun d => NilEmpty.string_of_int (Z.to_int (PyDate.toordinal d)))
              (fun s => option_map (fun n => PyDate.fromordinal (Z.of_int n))
                          (NilEmpty.int_of_string s))
              [Stored.mkEntry
                 (NilEmpty.string_of_int
                    (Z.to_int (PyDate.toordinal (PyDate.mkDate 2026 2 17))))
                 "2026-02-17 10:00:00" "Estudar" "timer" 25]
              (PyDate.mkDate 2026 2 18) 0) as (_ & _ & M & _ & _ & _ & _ & A).
  - vm_compute. intuition discriminate.
  - lia.
  - split; [exact M|]. apply A.
    + intros j Hj. rewrite NilEmpty.isi. cbn [option_map].
      rewrite DecimalZ.of_to, fromordinal_toordinal by apply fromordinal_valid.
      reflexivity.
    + apply Forall_cons; [|apply Forall_nil].
      exists (PyDate.mkDate 2026 2 17).
      split; [vm_compute; intuition discriminate|].
      split; [reflexivity | vm_compute; reflexivity].
Defined.

(** The weekly loop, row by row. *)
Lemma weekly_rows_flat (history : list Session) (today : PyDate.date)
    (offsets : list Z) :
  can_look_back today ->
  Forall (fun i => 0 <= i <= 29) offsets ->
  weekly_rows history today offsets =
  Some (flat_map
          (fun i => row_if_positive
                      (WeekLabel (week_start_of today i) (week_end_of today i))
                      (aggregate_by_week history (week_start_of today i)
                         (week_end_of today i)) [])
          offsets).
Proof.
  intros C F. induction F as [|i rest Hi _ IH]; [reflexivity|].
  destruct (week_window today i C Hi) as [S E].
  rewrite weekly_rows_cons, S, E, IH, row_if_positive_app. reflexivity.
Qed.

Lemma in_weekly_flat (history : list Session) (today : PyDate.date)
    (offsets : list Z) (ws we : PyDate.date) (t : Z) :
  In (Row (WeekLabel ws we) t)
     (flat_map
        (fun i => row_if_positive
                    (WeekLabel (week_start_of today i) (week_end_of today i))
                    (aggregate_by_week history (week_start_of today i)
                       (week_end_of today i)) [])
        offsets) ->
  exists i, In i offsets /\ ws = week_start_of today i /\ we = week_end_of today i /\
            t = aggregate_by_week history ws we /\ 0 < t.
Proof.
  rewrite in_flat_map. unfold row_if_positive. intros (i & Hi & H).
  destruct (Z.ltb_spec 0 (aggregate_by_week history (week_start_of today i)
                            (week_end_of today i))); [|destruct H].
  destruct H as [H|[]]. injection H as <- <- <-.
  exists i. repeat split; auto.
Qed.

Lemma rows_total_weekly_flat (history : list Session) (today : PyDate.date) (n : nat) :
  Forall (fun s => valid_date (date s)) history ->
  Forall (fun s => 0 <= minutes s) history ->
  rows_total
    (flat_map
       (fun i => row_if_positive
                   (WeekLabel (week_start_of today i) (week_end_of today i))
                   (aggregate_by_week history (week_start_of today i)
                      (week_end_of today i)) [])
       (range_down n)) =
  day_totals history (PyDate.toordinal (week_start_of today (Z.of_nat n))) (7 * S n).
Proof.
  intros F1 F2.
  assert (W : forall i, aggregate_by_week history (week_start_of today i)
                          (week_end_of today i) =
                        day_totals history (PyDate.toordinal (week_start_of today i)) 7).
  { intros i. apply aggregate_by_week_day_totals; auto; try apply fromordinal_valid.
    rewrite toordinal_week_end_of.
    generalize (PyDate.toordinal (week_start_of today i)). intros; lia. }
  assert (N : forall i, 0 <= aggregate_by_week history (week_start_of today i)
                               (week_end_of today i))
    by (intros; apply aggregate_by_week_nonneg, F2).
  induction n as [|n IH].
  - change (range_down 0) with [0]. cbn [flat_map]. rewrite app_nil_r.
    rewrite rows_total_row_if_positive by apply N. apply W.
  - rewrite range_down_succ. cbn [flat_map]. rewrite rows_total_app, IH.
    rewrite rows_total_row_if_positive by apply N. rewrite W.
    replace (7 * S (S n))%nat with (7 + 7 * S n)%nat by lia.
    rewrite day_totals_app. f_equal. f_equal.
    rewrite !toordinal_week_start_of.
    generalize (PyDate.toordinal today) (PyDate.weekday today). intros; lia.
Qed.

(** X22. The weekly view counts every minute of its thirty weeks once. From
    any date from which thirty weeks back is still a date, the weekly loop
    raises nothing; every row it prints is one of the thirty Monday-to-Sunday
    windows with its positive total; and with records of real dates and
    non-negative minutes the rows add up to the minutes of all records dated
    from the Monday 29 weeks before this week's to this week's Sunday: no day
    is counted twice and none is left out. *)
Theorem weekly_view_counts_thirty_weeks_once (history : list Session)
    (today : PyDate.date) :
  can_look_back today ->
  Forall (fun s => valid_date (date s) /\ 0 <= minutes s) history ->
  exists rows,
    weekly_rows history today (range_down 29) = Some rows /\
    (forall ws we t, In (Row (WeekLabel ws we) t) rows ->
       exists i, 0 <= i <= 29 /\ ws = week_start_of today i /\
                 we = week_end_of today i /\
                 t = aggregate_by_week history ws we /\ 0 < t) /\
    rows_total rows =
      aggregate_by_week history (week_start_of today 29) (week_end_of today 0).
Proof.
  intros C F.
  assert (F1 : Forall (fun s => valid_date (date s)) history)
    by (apply Forall_impl with (2 := F); tauto).
  assert (F2 : Forall (fun s => 0 <= minutes s) history)
    by (apply Forall_impl with (2 := F); tauto).
  eexists. split; [apply weekly_rows_flat; [exact C|apply range_down_29]|].
  split.
  - intros ws we t H. apply in_weekly_flat in H.
    destruct H as (i & Hi & R). exists i. split; [|exact R].
    pose proof (range_down_bounds 29) as B. rewrite Forall_forall in B.
    specialize (B _ Hi). simpl in B. lia.
  - rewrite (rows_total_weekly_flat history today 29 F1 F2).
    symmetry. change (Z.of_nat 29) with 29.
    apply aggregate_by_week_day_totals; auto; try apply fromordinal_valid.
    rewrite toordinal_week_end_of, !toordinal_week_start_of.
    change (Z.of_nat (7 * 30)) with 210.
    generalize (PyDate.toordinal today) (PyDate.weekday today). intros; lia.
Qed.

(** The property on the Wednesday 2026-02-18 with one record the day
    before. *)
Lemma weekly_view_counts_thirty_weeks_once_witness :
  exists rows,
    weekly_rows
      [mkSession (PyDate.mkDate 2026 2 17) "2026-02-17 10:00:00" "Estudar" "timer" 25]
      (PyDate.mkDate 2026 2 18) (range_down 29) = Some rows /\
    rows_total rows =
    aggregate_by_week
      [mkSession (PyDate.mkDate 2026 2 17) "2026-02-17 10:00:00" "Estudar" "timer" 25]
      (week_start_of (PyDate.mkDate 2026 2 18) 29)
      (week_end_of (PyDate.mkDate 2026 2 18) 0).
Proof.
  destruct (weekly_view_counts_thirty_weeks_once
              [mkSession (PyDate.mkDate 2026 2 17) "2026-02-17 10:00:00" "Estudar" "timer" 25]
              (PyDate.mkDate 2026 2 18)) as (rows & A & _ & S).
  - vm_compute. intuition discriminate.
  - repeat constructor; vm_compute; intuition discriminate.
  - exists rows. split; [exact A | exact S].
Defined.

Lemma in_or_no_data (rows : list Line) (label : Label) (t : Z) :
  In (Row label t) (or_no_data rows) <-> In (Row label t) rows.
Proof.
  destruct rows as [|r rows]; [|reflexivity].
  simpl. split; [intros [H|[]]; discriminate | intros []].
Qed.

(** X23. The view of one date agrees with the daily view. For each of the
    thirty days of the daily view, the daily view prints a row for that day
    with a total exactly when the view of a specific date, asked for that
    day, prints that same row; otherwise the latter reports that there is no
    data. *)
Theorem specific_date_agrees_with_daily_view (json_load : string -> Decoded)
    (file : option string) (today : PyDate.date) (i t : Z) :
  can_look_back today -> 0 <= i <= 29 ->
  exists rows,
    snd (show_daily_history json_load file today) = Some rows /\
    (In (Row (DayLabel (day_back today i)) t) rows <->
     snd (show_specific_date_history json_load file (day_back today i)) =
       Some [Row (DayLabel (day_back today i)) t]) /\
    (~ (exists u, In (Row (DayLabel (day_back today i)) u) rows) <->
     snd (show_specific_date_history json_load file (day_back today i)) = Some [NoData]).
Proof.
  intros C Hi. unfold show_daily_history, show_specific_date_history.
  destruct (load_history json_load file) as [history warnings]. cbn [snd].
  rewrite (daily_rows_flat history today (range_down 29) C range_down_29).
  cbn [option_map]. eexists. split; [reflexivity|].
  assert (R : In i (range_down 29)).
  { unfold range_down. apply in_map_iff. exists (Z.to_nat i). split; [lia|].
    apply -> in_rev. apply in_seq. lia. }
  set (d := day_back today i) in *.
  assert (K : forall u, In (Row (DayLabel d) u)
                (or_no_data
                   (flat_map (fun i => row_if_positive (DayLabel (day_back today i))
                                         (aggregate_by_date history (day_back today i)) [])
                      (range_down 29))) <->
              u = aggregate_by_date history d /\ 0 < u).
  { intros u. rewrite in_or_no_data, in_daily_flat. split.
    - intros (_ & A). exact A.
    - intros A. split; [|exact A]. exists i. split; [exact R|reflexivity]. }
  unfold row_if_positive.
  destruct (Z.ltb_spec 0 (aggregate_by_date history d)) as [P|P]; cbn [or_no_data].
  - split.
    + rewrite K. split.
      * intros [-> _]. reflexivity.
      * intros H. injection H as <-. split; [reflexivity|exact P].
    + split; [|discriminate].
      intros N. exfalso. apply N. exists (aggregate_by_date history d).
      apply K. split; [reflexivity|exact P].
  - split.
    + rewrite K. split; [intros [-> Q]; lia | discriminate].
    + split; [reflexivity|]. intros _ (u & H). apply K in H. lia.
Qed.

(** The property on the Tuesday 2026-02-17, seen from the day after, with a
    record of 25 minutes on that Tuesday and one of 50 minutes two months
    before: both views print the Tuesday's row. *)
Lemma specific_date_agrees_with_daily_view_witness :
  exists rows,
    snd (show_daily_history
           (fun _ => Parsed
              [mkSession (PyDate.mkDate 2025 12 17) "2025-12-17 09:00:00" "Outros"
                 "cronometro" 50;
               mkSession (PyDate.mkDate 2026 2 17) "2026-02-17 10:00:00" "Estudar"
                 "timer" 25])
           (Some "history") (PyDate.mkDate 2026 2 18)) = Some rows /\
    In (Row (DayLabel (day_back (PyDate.mkDate 2026 2 18) 1)) 25) rows /\
    snd (show_specific_date_history
           (fun _ => Parsed
              [mkSession (PyDate.mkDate 2025 12 17) "2025-12-17 09:00:00" "Outros"
                 "cronometro" 50;
               mkSession (PyDate.mkDate 2026 2 17) "2026-02-17 10:00:00" "Estudar"
                 "timer" 25])
           (Some "history") (day_back (PyDate.mkDate 2026 2 18) 1)) =
      Some [Row (DayLabel (day_back (PyDate.mkDate 2026 2 18) 1)) 25].
Proof.
  destruct (specific_date_agrees_with_daily_view
              (fun _ => Parsed
                 [mkSession (PyDate.mkDate 2025 12 17) "2025-12-17 09:00:00" "Outros"
                    "cronometro" 50;
                  mkSession (PyDate.mkDate 2026 2 17) "2026-02-17 10:00:00" "Estudar"
                    "timer" 25])
              (Some "history") (PyDate.mkDate 2026 2 18) 1 25) as (rows & A & B & _).
  - vm_compute. intuition discriminate.
  - lia.
  - exists rows. split; [exact A|].
    assert (S : snd (show_specific_date_history
                       (fun _ => Parsed
                          [mkSession (PyDate.mkDate 2025 12 17) "2025-12-17 09:00:00"
                             "Outros" "cronometro" 50;
                           mkSession (PyDate.mkDate 2026 2 17) "2026-02-17 10:00:00"
                             "Estudar" "timer" 25])
                       (Some "history") (day_back (PyDate.mkDate 2026 2 18) 1)) =
                  Some [Row (DayLabel (day_back (PyDate.mkDate 2026 2 18) 1)) 25])
      by (vm_compute; reflexivity).
    split; [apply B; exact S | exact S].
Defined.
